(** * py-mcp-client: the MCP session adapter and the LLM chat adapter

    A shallow embedding of [mcp_client.py] ([MCPClient]) and
    [ollama_client.py] ([OllamaClient]).  Python values that come out of a
    JSON decoder are embedded as the inductive type [json]; the dynamic
    operations the two modules apply to them ([.get], [in], subscripting,
    truthiness, iteration) are embedded with the exceptions they raise on
    values of the wrong shape.  Methods are computations in a small
    state-and-exception monad whose state holds the receiver object and the
    log of HTTP requests issued so far. *)

From Stdlib Require Import ZArith String Ascii List Bool Lia PrimFloat.
From stdpp Require Import base gmap strings list fin_maps.

Local Open Scope string_scope.
Local Open Scope Z_scope.

(* ===================================================================== *)
(** * Strings

    A Python [str] is embedded as a Rocq [string]; its characters are the
    code points below 256. *)
(* ===================================================================== *)

Module PyStr.

(** [s.startswith(p)] *)
Definition startswith (p s : string) : bool := String.prefix p s.

(** [s[n:]] for [0 <= n] *)
Fixpoint drop (n : nat) (s : string) : string :=
  match n, s with
  | O, _ => s
  | S n', String _ s' => drop n' s'
  | S _, EmptyString => EmptyString
  end.

(** [s[:n]] for [0 <= n] *)
Fixpoint take (n : nat) (s : string) : string :=
  match n, s with
  | O, _ => EmptyString
  | S n', String c s' => String c (take n' s')
  | S _, EmptyString => EmptyString
  end.

Definition rev (s : string) : string :=
  string_of_list_ascii (List.rev (list_ascii_of_string s)).

(** [s.endswith(p)] *)
Definition endswith (p s : string) : bool := String.prefix (rev p) (rev s).

(** [s.split(sep)] for a one-character separator: [cur] accumulates, in
    reverse, the characters of the piece being read. *)
Fixpoint split_aux (sep : ascii) (cur : list ascii) (s : string) : list string :=
  match s with
  | EmptyString => [string_of_list_ascii (List.rev cur)]
  | String c s' =>
      if Ascii.eqb c sep
      then string_of_list_ascii (List.rev cur) :: split_aux sep [] s'
      else split_aux sep (c :: cur) s'
  end.

Definition split (sep : ascii) (s : string) : list string := split_aux sep [] s.

(** [c.isspace()] on code points below 256: TAB, LF, VT, FF, CR, the four
    separators 0x1c-0x1f, SPACE, NEL (0x85) and NBSP (0xa0). *)
Definition isspace (c : ascii) : bool :=
  let n := nat_of_ascii c in
  ((9 <=? n) && (n <=? 13))%nat || ((28 <=? n) && (n <=? 32))%nat
  || (n =? 133)%nat || (n =? 160)%nat.

Fixpoint lstrip (s : string) : string :=
  match s with
  | EmptyString => EmptyString
  | String c s' => if isspace c then lstrip s' else s
  end.

(** [s.strip()] *)
Definition strip (s : string) : string := rev (lstrip (rev (lstrip s))).

Fixpoint lstrip_char (ch : ascii) (s : string) : string :=
  match s with
  | EmptyString => EmptyString
  | String c s' => if Ascii.eqb c ch then lstrip_char ch s' else s
  end.

(** [s.rstrip(ch)] for a one-character argument *)
Definition rstrip_char (ch : ascii) (s : string) : string :=
  rev (lstrip_char ch (rev s)).

Definition lower_char (c : ascii) : ascii :=
  let n := nat_of_ascii c in
  if ((65 <=? n) && (n <=? 90))%nat
     || ((192 <=? n) && (n <=? 222) && negb (n =? 215))%nat
  then ascii_of_nat (n + 32) else c.

(** [s.lower()]: the letters [A-Z] and the capital letters of Latin-1 *)
Fixpoint lower (s : string) : string :=
  match s with
  | EmptyString => EmptyString
  | String c s' => String (lower_char c) (lower s')
  end.

(** [p in s] for strings: [p] occurs as a substring of [s]. *)
Fixpoint contains (p s : string) : bool :=
  String.prefix p s ||
  match s with
  | EmptyString => false
  | String _ s' => contains p s'
  end.

(** [c not in s] for a character [c] *)
Fixpoint lacks (c : ascii) (s : string) : bool :=
  match s with
  | EmptyString => true
  | String d s' => negb (Ascii.eqb d c) && lacks c s'
  end.

Definition digit (n : nat) : ascii := ascii_of_nat (48 + n).

(** Decimal digits of a natural number, most significant first; [fuel]
    bounds the number of digits. *)
Fixpoint digits_aux (fuel : nat) (n : N) (acc : list ascii) : list ascii :=
  match fuel with
  | O => acc
  | S fuel' =>
      let acc' := digit (N.to_nat (n mod 10)) :: acc in
      if (n / 10 =? 0)%N then acc' else digits_aux fuel' (n / 10)%N acc'
  end.

Definition str_of_N (n : N) : string :=
  string_of_list_ascii (digits_aux (S (N.to_nat (N.log2 n))) n []).

(** [str(z)] for an [int] *)
Definition str_of_Z (z : Z) : string :=
  if z <? 0 then String "-" (str_of_N (Z.abs_N z)) else str_of_N (Z.abs_N z).

(** The characters of a string, each as a one-character string: what
    iterating over a [str] yields. *)
Fixpoint chars (s : string) : list string :=
  match s with
  | EmptyString => []
  | String c s' => String c EmptyString :: chars s'
  end.

End PyStr.

(* ===================================================================== *)
(** * Python values and exceptions *)
(* ===================================================================== *)

(** The values [json.loads] produces and [json.dumps] consumes.  A [dict]
    is the list of its items in insertion order. *)
#[local] Unset Elimination Schemes.
Inductive json : Type :=
| JNull
| JBool (b : bool)
| JInt (z : Z)
| JFloat (f : float)
| JStr (s : string)
| JArr (xs : list json)
| JObj (kvs : list (string * json)).
#[local] Set Elimination Schemes.

(** The exception classes the two modules can meet.  [HTTPError] stands for
    [httpx.HTTPError] and its subclasses (transport failures and the
    [HTTPStatusError] of [raise_for_status]); [JSONDecodeError] is a
    subclass of [ValueError]; [UnboundLocalError] is raised by reading a
    local variable no branch has assigned; [RecursionError] is raised when
    the interpreter's recursion limit is reached; [PyException] is a bare
    [Exception(arg)]. *)
Inductive exn : Type :=
| HTTPError (msg : string)
| JSONDecodeError
| ValueError (msg : string)
| AttributeError
| TypeError
| KeyError (key : string)
| IndexError
| UnboundLocalError
| RecursionError
| PyException (arg : json).

(** [except httpx.HTTPError] *)
Definition is_HTTPError (e : exn) : bool :=
  match e with HTTPError _ => true | _ => false end.

(** [except (json.JSONDecodeError, ValueError)] *)
Definition is_ValueError (e : exn) : bool :=
  match e with JSONDecodeError | ValueError _ => true | _ => false end.

(** [except json.JSONDecodeError] *)
Definition is_JSONDecodeError (e : exn) : bool :=
  match e with JSONDecodeError => true | _ => false end.

(** [except Exception]: every class above derives from [Exception]. *)
Definition is_Exception (e : exn) : bool := true.

(** The outcome of evaluating an expression or running a statement. *)
Inductive res (A : Type) : Type :=
| Ok (a : A)
| Raise (e : exn).
Arguments Ok {A} a.
Arguments Raise {A} e.

Definition res_bind {A B} (m : res A) (k : A -> res B) : res B :=
  match m with
  | Ok a => k a
  | Raise e => Raise e
  end.

Declare Scope res_scope.
Delimit Scope res_scope with res.
Notation "x <-! m ; k" := (res_bind m (fun x => k))
  (at level 100, m at next level, right associativity) : res_scope.

(** ** Dynamic operations *)

(** [bool(v)] *)
Definition truthy (v : json) : bool :=
  match v with
  | JNull => false
  | JBool b => b
  | JInt z => negb (z =? 0)
  | JFloat f => negb (PrimFloat.eqb f 0%float)
  | JStr s => negb (String.eqb s "")
  | JArr xs => match xs with [] => false | _ => true end
  | JObj kvs => match kvs with [] => false | _ => true end
  end.

(** [a or b] *)
Definition py_or (a b : json) : json := if truthy a then a else b.

(** Lookup in the items of a [dict]. *)
Fixpoint dict_lookup (k : string) (kvs : list (string * json)) : option json :=
  match kvs with
  | [] => None
  | (k', v) :: rest => if String.eqb k k' then Some v else dict_lookup k rest
  end.

(** [d[k] = v] on the items of a [dict]: an existing key keeps its place. *)
Fixpoint dict_set (k : string) (v : json) (kvs : list (string * json))
  : list (string * json) :=
  match kvs with
  | [] => [(k, v)]
  | (k', v') :: rest =>
      if String.eqb k k' then (k, v) :: rest else (k', v') :: dict_set k v rest
  end.

(** [list(d.keys())] *)
Definition dict_keys (kvs : list (string * json)) : list string := map fst kvs.

(** [v.get(k, default)]; only a [dict] has the method. *)
Definition py_get (v : json) (k : string) (default : json) : res json :=
  match v with
  | JObj kvs => Ok (match dict_lookup k kvs with Some x => x | None => default end)
  | _ => Raise AttributeError
  end.

(** [k in v] for a string [k]: key membership in a [dict], element
    membership in a [list], substring test in a [str]. *)
Definition py_contains (k : string) (v : json) : res bool :=
  match v with
  | JObj kvs => Ok (match dict_lookup k kvs with Some _ => true | None => false end)
  | JArr xs =>
      Ok (existsb (fun x => match x with JStr s => String.eqb s k | _ => false end) xs)
  | JStr s => Ok (PyStr.contains k s)
  | _ => Raise TypeError
  end.

(** [v[k]] for a string [k] *)
Definition py_getitem (v : json) (k : string) : res json :=
  match v with
  | JObj kvs =>
      match dict_lookup k kvs with
      | Some x => Ok x
      | None => Raise (KeyError k)
      end
  | _ => Raise TypeError
  end.

(** [v[0]]; the keys of a decoded [dict] are strings, so [0] is never one. *)
Definition py_first (v : json) : res json :=
  match v with
  | JArr [] => Raise IndexError
  | JArr (x :: _) => Ok x
  | JStr EmptyString => Raise IndexError
  | JStr (String c _) => Ok (JStr (String c EmptyString))
  | JObj _ => Raise (KeyError "0")
  | _ => Raise TypeError
  end.

(** [len(v)] *)
Definition py_len (v : json) : res Z :=
  match v with
  | JArr xs => Ok (Z.of_nat (List.length xs))
  | JObj kvs => Ok (Z.of_nat (List.length kvs))
  | JStr s => Ok (Z.of_nat (String.length s))
  | _ => Raise TypeError
  end.

(** The items [for x in v] runs through. *)
Definition py_iter (v : json) : res (list json) :=
  match v with
  | JArr xs => Ok xs
  | JObj kvs => Ok (map JStr (dict_keys kvs))
  | JStr s => Ok (map JStr (PyStr.chars s))
  | _ => Raise TypeError
  end.

(** [v.keys()]; only a [dict] has the method. *)
Definition py_keys (v : json) : res (list string) :=
  match v with
  | JObj kvs => Ok (dict_keys kvs)
  | _ => Raise AttributeError
  end.

(** [x in names] for a string [x] and a list of values. *)
Definition str_in_list (x : string) (names : list json) : bool :=
  existsb (fun v => match v with JStr s => String.eqb s x | _ => false end) names.

(** ** [json.dumps] with its default settings *)

Definition hex_digit (n : nat) : ascii :=
  if (n <? 10)%nat then ascii_of_nat (48 + n) else ascii_of_nat (87 + n).

Definition dquote : ascii := "034"%char.
Definition backslash : ascii := "092"%char.
Definition esc (c : ascii) : string := String backslash (String c EmptyString).

(** One character inside a string literal, [ensure_ascii=True]: the quote,
    the backslash and everything outside [' '..'~'] are escaped. *)
Definition dumps_char (c : ascii) : string :=
  let n := nat_of_ascii c in
  if (n =? 34)%nat then esc dquote
  else if (n =? 92)%nat then esc backslash
  else if (n =? 10)%nat then esc "n"
  else if (n =? 13)%nat then esc "r"
  else if (n =? 9)%nat then esc "t"
  else if (n =? 8)%nat then esc "b"
  else if (n =? 12)%nat then esc "f"
  else if ((32 <=? n) && (n <=? 126))%nat then String c EmptyString
  else esc "u" ++ "00"
       ++ String (hex_digit (n / 16)) (String (hex_digit (n mod 16)) EmptyString).

Fixpoint dumps_chars (s : string) : string :=
  match s with
  | EmptyString => EmptyString
  | String c s' => dumps_char c ++ dumps_chars s'
  end.

Definition dumps_str (s : string) : string :=
  String dquote (dumps_chars s ++ String dquote EmptyString).

Fixpoint join (sep : string) (parts : list string) : string :=
  match parts with
  | [] => EmptyString
  | [p] => p
  | p :: rest => p ++ sep ++ join sep rest
  end.

(** ** Library functions

    The functions of Python's standard library and of [httpx] that the two
    modules call and that are not part of the repository. *)

(** How [json.loads] fails on a text it does not decode: the text is no
    JSON document ([json.JSONDecodeError]); an integer literal is longer
    than the interpreter's limit on integer strings, 4300 digits by default
    (a plain [ValueError]); the nesting is deeper than the recursion the
    interpreter has left ([RecursionError]). *)
Inductive decode_failure : Type :=
| Malformed
| DigitLimit (msg : string)
| TooDeep.

(** The exception of a failure. *)
Definition raised_by (f : decode_failure) : exn :=
  match f with
  | Malformed => JSONDecodeError
  | DigitLimit msg => ValueError msg
  | TooDeep => RecursionError
  end.

Class PyLib : Type := {
  (** the value [json.loads] returns; [None] when it raises *)
  json_loads : string -> option json;
  (** how [json.loads] fails on a text for which it raises; [MemoryError]
      is not modelled *)
  json_loads_failure : string -> decode_failure;
  (** how [json.dumps] prints a [float] *)
  float_repr : float -> string;
  (** the built-in [hash] on strings (salted per process) *)
  py_hash : string -> Z;
  (** the lines [response.iter_lines()] yields for a streamed body *)
  iter_lines : string -> list string }.

Section Dumps.
Context `{lib : PyLib}.

(** [json.loads(s)] as an expression; [response.json()] is this decoding
    of the body text. *)
Definition loads (s : string) : res json :=
  match json_loads s with
  | Some v => Ok v
  | None => Raise (raised_by (json_loads_failure s))
  end.

(** [json.dumps(v)]: separators [", "] and [": "], [ensure_ascii=True].
    The two modules print decoded values only, and a value that was
    decoded within the recursion limit is printed within it. *)
Fixpoint json_dumps (v : json) : string :=
  match v with
  | JNull => "null"
  | JBool true => "true"
  | JBool false => "false"
  | JInt z => PyStr.str_of_Z z
  | JFloat f => float_repr f
  | JStr s => dumps_str s
  | JArr xs => "[" ++ join ", " (map json_dumps xs) ++ "]"
  | JObj kvs =>
      "{" ++ join ", " (map (fun kv => match kv with
                                       | (k, x) => dumps_str k ++ ": " ++ json_dumps x
                                       end) kvs) ++ "}"
  end.

End Dumps.

(* ===================================================================== *)
(** * HTTP and the method monad *)
(* ===================================================================== *)

Record Request : Type := {
  rq_method : string;
  rq_url : string;
  rq_headers : list (string * string);
  rq_json : option json }.

Record Response : Type := {
  rs_headers : list (string * string);
  rs_text : string }.

(** What [client.post(...)] (or [get], or [stream]) followed by
    [response.raise_for_status()] comes to: an [httpx.HTTPError] (the
    transport failed or the status was rejected), or a response. *)
Inductive http_outcome : Type :=
| Failed (msg : string)
| Replied (r : Response).

(** The remote end: its answer to a request may depend on the requests
    that came before. *)
Definition Server : Type := list Request -> Request -> http_outcome.

(** The state a method runs in: the receiver and the requests sent so far,
    oldest first. *)
Record World (S : Type) : Type := {
  self : S;
  sent : list Request }.
Arguments self {S} w.
Arguments sent {S} w.
Arguments Build_World {S} self sent.

Definition M (S A : Type) : Type := World S -> res A * World S.

Definition ret {S A} (a : A) : M S A := fun w => (Ok a, w).

Definition raise {S A} (e : exn) : M S A := fun w => (Raise e, w).

Definition bind {S A B} (m : M S A) (k : A -> M S B) : M S B :=
  fun w =>
    match m w with
    | (Ok a, w') => k a w'
    | (Raise e, w') => (Raise e, w')
    end.

Definition lift {S A} (r : res A) : M S A := fun w => (r, w).

Definition get_self {S} : M S S := fun w => (Ok (self w), w).

Definition set_self {S} (s : S) : M S unit :=
  fun w => (Ok tt, {| self := s; sent := sent w |}).

(** [try: body  except <catches> as e: handler e]; what [body] did to the
    state before raising stays done. *)
Definition try_except {S A} (body : M S A) (catches : exn -> bool)
    (handler : exn -> M S A) : M S A :=
  fun w =>
    match body w with
    | (Ok a, w') => (Ok a, w')
    | (Raise e, w') => if catches e then handler e w' else (Raise e, w')
    end.

(** Send a request and check the status. *)
Definition http {S} (srv : Server) (rq : Request) : M S Response :=
  fun w =>
    let w' := {| self := self w; sent := sent w ++ [rq] |} in
    match srv (sent w) rq with
    | Failed msg => (Raise (HTTPError msg), w')
    | Replied r => (Ok r, w')
    end.

Declare Scope M_scope.
Delimit Scope M_scope with M.
Notation "x <- m ;; k" := (bind m (fun x => k))
  (at level 100, m at next level, right associativity) : M_scope.
Notation "m ;;; k" := (bind m (fun _ => k))
  (at level 100, right associativity) : M_scope.

(** The values of the headers called [name]; header names compare without
    regard to case. *)
Fixpoint header_values (name : string) (hs : list (string * string)) : list string :=
  match hs with
  | [] => []
  | (k, v) :: rest =>
      if String.eqb (PyStr.lower k) (PyStr.lower name)
      then v :: header_values name rest
      else header_values name rest
  end.

(** [headers.get(name)]: the values of a repeated header come joined by
    [", "]. *)
Definition header_get (name : string) (hs : list (string * string)) : option string :=
  match header_values name hs with
  | [] => None
  | vs => Some (join ", " vs)
  end.

(** [{**hs, k: v}] *)
Fixpoint header_set (k v : string) (hs : list (string * string))
  : list (string * string) :=
  match hs with
  | [] => [(k, v)]
  | (k', v') :: rest =>
      if String.eqb k k' then (k, v) :: rest else (k', v') :: header_set k v rest
  end.

(* ===================================================================== *)
(** * [mcp_client.py] *)
(* ===================================================================== *)

Module MCP.

(** [@dataclass class MCPTool].  The fields hold whatever the server sent
    under ["name"], ["description"] and ["inputSchema"]. *)
Record MCPTool : Type := {
  name : json;
  description : json;
  input_schema : json }.

(** The fields of an [MCPClient].  [tools] is declared
    [Dict[str, MCPTool]]; the field holds the entries of [self.tools] whose
    key is a string. *)
Record MCPClient : Type := {
  base_url : string;
  timeout : Z;
  tools : gmap string MCPTool;
  session_id : string;
  initialized : bool;
  base_headers : list (string * string) }.

(** [MCPClient.__init__]; [fresh_uuid] is the [str(uuid.uuid4())] drawn. *)
Definition init (url : string) (tmo : Z) (fresh_uuid : string) : MCPClient :=
  {| base_url := PyStr.rstrip_char "/" url;
     timeout := tmo;
     tools := empty;
     session_id := fresh_uuid;
     initialized := false;
     base_headers := [("Content-Type", "application/json");
                      ("Accept", "application/json, text/event-stream")] |}.

Definition set_session_id (s : string) (c : MCPClient) : MCPClient :=
  {| base_url := base_url c; timeout := timeout c; tools := tools c;
     session_id := s; initialized := initialized c;
     base_headers := base_headers c |}.

Definition set_initialized (b : bool) (c : MCPClient) : MCPClient :=
  {| base_url := base_url c; timeout := timeout c; tools := tools c;
     session_id := session_id c; initialized := b;
     base_headers := base_headers c |}.

Definition set_tools (t : gmap string MCPTool) (c : MCPClient) : MCPClient :=
  {| base_url := base_url c; timeout := timeout c; tools := t;
     session_id := session_id c; initialized := initialized c;
     base_headers := base_headers c |}.

Definition modify (f : MCPClient -> MCPClient) : M MCPClient unit :=
  fun w => (Ok tt, {| self := f (self w); sent := sent w |}).

Definition LF : ascii := "010"%char.

Definition initialize_payload : json :=
  JObj [("jsonrpc", JStr "2.0"); ("id", JInt 1); ("method", JStr "initialize");
        ("params", JObj [("protocolVersion", JStr "2024-11-05");
                         ("capabilities", JObj []);
                         ("clientInfo", JObj [("name", JStr "py-mcp-client");
                                              ("version", JStr "1.0.0")])])].

Definition list_tools_payload : json :=
  JObj [("jsonrpc", JStr "2.0"); ("id", JInt 2); ("method", JStr "tools/list");
        ("params", JObj [])].

Definition call_tool_payload (tool_name : string) (arguments : json) : json :=
  JObj [("jsonrpc", JStr "2.0"); ("id", JInt 3); ("method", JStr "tools/call");
        ("params", JObj [("name", JStr tool_name); ("arguments", arguments)])].

Definition post (url : string) (payload : json) (headers : list (string * string))
  : Request :=
  {| rq_method := "POST"; rq_url := url; rq_headers := headers;
     rq_json := Some payload |}.

Section Client.
Context `{lib : PyLib}.
Variable srv : Server.

Local Open Scope M_scope.

(** The test [initialize] makes on a decoded value (lines 98-101 and
    104-107): without an ["error"] the session is initialized and the
    method returns [True]; otherwise control goes on to [otherwise]. *)
Definition accept (data : json) (otherwise : M MCPClient bool) : M MCPClient bool :=
  has_error <- lift (py_contains "error" data) ;;
  if negb has_error then
    modify (set_initialized true) ;;; ret true
  else otherwise.

(** The loop of [initialize] over the lines of an SSE body (lines 93-101).
    A data line that carries an ["error"] does not end the loop; running
    off the end leads to the final [return False]. *)
Fixpoint initialize_scan (lines : list string) : M MCPClient bool :=
  match lines with
  | [] => ret false
  | line :: rest =>
      if PyStr.startswith "data: " line then
        result <- lift (loads (PyStr.drop 6 line)) ;;
        accept result (initialize_scan rest)
      else initialize_scan rest
  end.

(** [MCPClient.initialize] *)
Definition initialize : M MCPClient bool :=
  c <- get_self ;;
  if initialized c then ret true
  else
    try_except
      (response <- http srv (post (base_url c) initialize_payload (base_headers c)) ;;
       (match header_get "mcp-session-id" (rs_headers response) with
        | Some sid =>
            if negb (String.eqb sid "") then modify (set_session_id sid) else ret tt
        | None => ret tt
        end) ;;;
       let response_text := rs_text response in
       if PyStr.startswith "event: message" response_text then
         initialize_scan (PyStr.split LF response_text)
       else
         data <- lift (loads response_text) ;;
         accept data (ret false))
      is_Exception
      (fun _ => ret false).

(** The first line that starts with ['data: '], without that prefix: the
    loop with [break] of [list_tools] and [call_tool]. *)
Fixpoint first_data_line (lines : list string) : option string :=
  match lines with
  | [] => None
  | line :: rest =>
      if PyStr.startswith "data: " line then Some (PyStr.drop 6 line)
      else first_data_line rest
  end.

(** The response decoding of [list_tools] (lines 145-154) and of
    [call_tool] (lines 219-228).  When the body is SSE-framed and has no
    data line, [data] is never assigned and the next statement, which reads
    it, raises [UnboundLocalError]. *)
Definition decode_body (response_text : string) : res json :=
  if PyStr.startswith "event: message" response_text then
    match first_data_line (PyStr.split LF response_text) with
    | Some data_line => loads data_line
    | None => Raise UnboundLocalError
    end
  else loads response_text.

(** [self.tools[tool.name] = tool].  A name that is a list or a dict is
    unhashable and raises [TypeError]; a name that is [None], a boolean or
    a number is a key that is no string, and the entries under string keys
    stay as they are. *)
Definition cache_tool (tool : MCPTool) : M MCPClient unit :=
  match name tool with
  | JStr key => modify (fun c => set_tools (<[key := tool]> (tools c)) c)
  | JArr _ | JObj _ => raise TypeError
  | _ => ret tt
  end.

(** The loop of [list_tools] (lines 164-171); [acc] is the local list
    [tools] built so far. *)
Fixpoint load_tools (items : list json) (acc : list MCPTool)
  : M MCPClient (list MCPTool) :=
  match items with
  | [] => ret acc
  | tool_data :: rest =>
      n <- lift (py_getitem tool_data "name") ;;
      d <- lift (py_getitem tool_data "description") ;;
      s <- lift (py_getitem tool_data "inputSchema") ;;
      let tool := {| name := n; description := d; input_schema := s |} in
      cache_tool tool ;;;
      load_tools rest (acc ++ [tool])
  end.

Definition session_headers (c : MCPClient) : list (string * string) :=
  header_set "mcp-session-id" (session_id c) (base_headers c).

(** [MCPClient.list_tools] *)
Definition list_tools : M MCPClient (list MCPTool) :=
  c <- get_self ;;
  (if negb (initialized c) then
     ok <- initialize ;;
     if negb ok then raise (PyException (JStr "Failed to initialize MCP session"))
     else ret tt
   else ret tt) ;;;
  try_except
    (c <- get_self ;;
     response <- http srv (post (base_url c) list_tools_payload (session_headers c)) ;;
     data <- lift (decode_body (rs_text response)) ;;
     has_error <- lift (py_contains "error" data) ;;
     if has_error then
       err <- lift (py_getitem data "error") ;;
       error_msg <- lift (py_get err "message" (JStr "Unknown error")) ;;
       raise (PyException error_msg)
     else
       result <- lift (py_get data "result" (JObj [])) ;;
       listed <- lift (py_get result "tools" (JArr [])) ;;
       items <- lift (py_iter listed) ;;
       load_tools items [])
    is_HTTPError
    (fun e => raise e).

Definition failure (error_msg : json) : json :=
  JObj [("success", JBool false); ("error", error_msg)].

Definition success (result_text : json) : json :=
  JObj [("success", JBool true); ("result", result_text)].

(** What [call_tool] does with the decoded response (lines 230-262). *)
Definition call_tool_result (data : json) : res json :=
  (has_error <-! py_contains "error" data ;
   if has_error then
     err <-! py_getitem data "error" ;
     error_msg <-! py_get err "message" (JStr "Unknown error") ;
     Ok (failure error_msg)
   else
     result <-! py_get data "result" (JObj []) ;
     is_error <-! py_get result "isError" (JBool false) ;
     if truthy is_error then
       items <-! py_get result "content" (JArr [JObj []]) ;
       item <-! py_first items ;
       error_msg <-! py_get item "text" (JStr "Unknown error") ;
       Ok (failure error_msg)
     else
       content <-! py_get result "content" (JArr []) ;
       if truthy content then
         item <-! py_first content ;
         result_text <-! py_get item "text" (JStr "") ;
         Ok (success result_text)
       else Ok (success (JStr "Tool executed successfully (no output)")))%res.

(** [MCPClient.call_tool] *)
Definition call_tool (tool_name : string) (arguments : json) : M MCPClient json :=
  c <- get_self ;;
  ok <- (if negb (initialized c) then initialize else ret true) ;;
  if negb ok then ret (failure (JStr "Failed to initialize MCP session"))
  else
    try_except
      (c <- get_self ;;
       response <- http srv (post (base_url c) (call_tool_payload tool_name arguments)
                                  (session_headers c)) ;;
       data <- lift (decode_body (rs_text response)) ;;
       lift (call_tool_result data))
      is_HTTPError
      (fun e => match e with
                | HTTPError msg => ret (failure (JStr msg))
                | _ => raise e
                end).

End Client.

End MCP.

(* ===================================================================== *)
(** * [ollama_client.py] *)
(* ===================================================================== *)

Module Ollama.

(** The fields of an [OllamaClient]. *)
Record OllamaClient : Type := {
  base_url : string;
  model : string;
  temperature : float;
  num_ctx : Z;
  timeout : Z;
  backend : string }.

(** [OllamaClient.__init__] *)
Definition init (url mdl : string) (temp : float) (ctx tmo : Z) (bk : string)
  : res OllamaClient :=
  let b := PyStr.lower bk in
  if String.eqb b "ollama" || String.eqb b "vllm" then
    Ok {| base_url := PyStr.rstrip_char "/" url; model := mdl;
          temperature := temp; num_ctx := ctx; timeout := tmo; backend := b |}
  else
    Raise (ValueError ("Unsupported backend: " ++ bk ++ ". Use 'ollama' or 'vllm'.")).

(** The literal [0.9], as the binary64 value nearest to it. *)
Definition top_p_default : float := 0x1.ccccccccccccdp-1%float.

(** What [chat] returns: the response dictionary, or, when streaming, the
    generator [_stream_chat(payload)], whose body has not started. *)
Inductive chat_result : Type :=
| Reply (response : json)
| Generator (payload : json).

Section Client.
Context `{lib : PyLib}.
Variable srv : Server.

(** [len(set(a) & set(b))] *)
Definition overlap (a b : list string) : Z :=
  Z.of_nat (size ((list_to_set a : gset string) ∩ list_to_set b)).

(** ["call_" + str(hash(json.dumps(parsed)))[:16]] *)
Definition call_id (parsed : json) : string :=
  "call_" ++ PyStr.take 16 (PyStr.str_of_Z (py_hash (json_dumps parsed))).

(** The dictionary both strategies return. *)
Definition tool_call (parsed tool_name arguments : json) : json :=
  JObj [("id", JStr (call_id parsed));
        ("type", JStr "function");
        ("function", JObj [("name", tool_name); ("arguments", arguments)])].

(** [arguments if isinstance(arguments, str) else json.dumps(arguments)] *)
Definition arguments_text (arguments : json) : json :=
  match arguments with
  | JStr s => JStr s
  | v => JStr (json_dumps v)
  end.

(** Strategy 1 (lines 88-100): the call when both a tool name and
    arguments are found, [None] to fall through. *)
Definition explicit_call (parsed : json) : res (option json) :=
  (t <-! py_get parsed "tool" JNull ;
   n <-! py_get parsed "name" JNull ;
   f <-! py_get parsed "function" JNull ;
   let tool_name := py_or (py_or t n) f in
   a <-! py_get parsed "arguments" JNull ;
   p <-! py_get parsed "params" JNull ;
   let arguments := py_or a p in
   if truthy tool_name && truthy arguments
   then Ok (Some (tool_call parsed tool_name (arguments_text arguments)))
   else Ok None)%res.

(** [tool.get("function", {}).get("parameters", {}).get("properties", {})] *)
Definition tool_properties (tool : json) : res json :=
  (fn <-! py_get tool "function" (JObj []) ;
   params <-! py_get fn "parameters" (JObj []) ;
   py_get params "properties" (JObj []))%res.

(** [tool.get("function", {}).get("name")] *)
Definition tool_name_of (tool : json) : res json :=
  (fn <-! py_get tool "function" (JObj []) ;
   py_get fn "name" JNull)%res.

(** [len(set(parsed.keys()) & set(tool_params.keys()))] *)
Definition score_of (parsed tool : json) : res Z :=
  (tool_params <-! tool_properties tool ;
   pk <-! py_keys parsed ;
   tk <-! py_keys tool_params ;
   Ok (overlap pk tk))%res.

(** The loop of strategy 2 (lines 107-116) from the state
    [(best_match, best_match_score)]. *)
Fixpoint best_match_loop (parsed : json) (tools : list json)
    (best_match : json) (best_match_score : Z) : res (json * Z) :=
  match tools with
  | [] => Ok (best_match, best_match_score)
  | tool :: rest =>
      (score <-! score_of parsed tool ;
       if score >? best_match_score then
         nm <-! tool_name_of tool ;
         best_match_loop parsed rest nm score
       else best_match_loop parsed rest best_match best_match_score)%res
  end.

(** Strategy 2 (lines 104-126). *)
Definition inferred_call (parsed : json) (tools : list json) : res (option json) :=
  (best <-! best_match_loop parsed tools JNull 0 ;
   let '(best_match, best_match_score) := best in
   if truthy best_match && (best_match_score >? 0)
   then Ok (Some (tool_call parsed best_match (JStr (json_dumps parsed))))
   else Ok None)%res.

(** The body of the [try] (lines 83-126). *)
Definition parse_body (content : string) (tools : list json) : res (option json) :=
  (parsed <-! loads content ;
   match parsed with
   | JObj _ =>
       explicit <-! explicit_call parsed ;
       match explicit with
       | Some call => Ok (Some call)
       | None => inferred_call parsed tools
       end
   | _ => Ok None
   end)%res.

(** [OllamaClient._parse_json_tool_call_from_content] *)
Definition _parse_json_tool_call_from_content (content : json)
    (tools : option (list json)) : res (option json) :=
  match tools with
  | None | Some [] => Ok None
  | Some tool_list =>
      if negb (truthy content) then Ok None
      else
        match content with
        | JStr text =>
            let stripped := PyStr.strip text in
            if negb (PyStr.startswith "{" stripped && PyStr.endswith "}" stripped)
            then Ok None
            else
              match parse_body stripped tool_list with
              | Raise e => if is_ValueError e then Ok None else Raise e
              | r => r
              end
        | _ => Raise AttributeError
        end
  end.

Local Open Scope M_scope.

Definition kwarg (kwargs : list (string * json)) (k : string) (default : json) : json :=
  match dict_lookup k kwargs with
  | Some v => v
  | None => default
  end.

(** [if tools: payload["tools"] = tools] *)
Definition with_tools (tools : option (list json)) (payload : list (string * json))
  : list (string * json) :=
  match tools with
  | Some (t :: ts) => dict_set "tools" (JArr (t :: ts)) payload
  | _ => payload
  end.

(** The [payload] of [_chat_ollama] (lines 170-183). *)
Definition ollama_payload (c : OllamaClient) (messages : json) (stream : bool)
    (tools : option (list json)) (kwargs : list (string * json)) : json :=
  JObj (with_tools tools
    [("model", JStr (model c)); ("messages", messages); ("stream", JBool stream);
     ("options",
      JObj [("temperature", kwarg kwargs "temperature" (JFloat (temperature c)));
            ("num_ctx", kwarg kwargs "num_ctx" (JInt (num_ctx c)));
            ("top_p", kwarg kwargs "top_p" (JFloat top_p_default))])]).

(** The [payload] of [_chat_vllm] (lines 203-214). *)
Definition vllm_payload (c : OllamaClient) (messages : json) (stream : bool)
    (tools : option (list json)) (kwargs : list (string * json)) : json :=
  JObj (with_tools tools
    [("model", JStr (model c)); ("messages", messages);
     ("temperature", kwarg kwargs "temperature" (JFloat (temperature c)));
     ("max_tokens", kwarg kwargs "num_ctx" (JInt (num_ctx c)));
     ("top_p", kwarg kwargs "top_p" (JFloat top_p_default));
     ("stream", JBool stream)]).

Definition post (url : string) (payload : json) : Request :=
  {| rq_method := "POST"; rq_url := url; rq_headers := []; rq_json := Some payload |}.

Definition get (url : string) : Request :=
  {| rq_method := "GET"; rq_url := url; rq_headers := []; rq_json := None |}.

(** The loop of [_stream_chat] over the lines read (lines 260-267): the
    chunks it yields, and the exception that ends it when a line raises
    one that [except json.JSONDecodeError] does not catch. *)
Fixpoint stream_chunks (lines : list string) : list json * option exn :=
  match lines with
  | [] => ([], None)
  | line :: rest =>
      if String.eqb line "" then stream_chunks rest
      else match loads line with
           | Ok chunk =>
               let (chunks, ended_by) := stream_chunks rest in
               (chunk :: chunks, ended_by)
           | Raise e =>
               if is_JSONDecodeError e then stream_chunks rest
               else ([], Some e)
           end
  end.

(** Running the generator [_stream_chat(payload)] to its end: the chunks
    it yields and the exception that ends the iteration, if one does.  A
    failure of the request is raised before any chunk. *)
Definition _stream_chat (payload : json)
  : M OllamaClient (list json * option exn) :=
  c <- get_self ;;
  response <- http srv (post (base_url c ++ "/api/chat") payload) ;;
  ret (stream_chunks (iter_lines (rs_text response))).

(** [OllamaClient._chat_ollama] *)
Definition _chat_ollama (messages : json) (stream : bool) (tools : option (list json))
    (kwargs : list (string * json)) : M OllamaClient chat_result :=
  c <- get_self ;;
  let payload := ollama_payload c messages stream tools kwargs in
  if stream then ret (Generator payload)
  else
    response <- http srv (post (base_url c ++ "/api/chat") payload) ;;
    data <- lift (loads (rs_text response)) ;;
    ret (Reply data).

(** [tools and (not tool_calls or len(tool_calls) == 0) and content] *)
Definition should_recover (tools : option (list json)) (tool_calls content : json)
  : res bool :=
  match tools with
  | None | Some [] => Ok false
  | Some _ =>
      (none <-! (if negb (truthy tool_calls) then Ok true
                 else n <-! py_len tool_calls ; Ok (n =? 0)) ;
       Ok (none && truthy content))%res
  end.

(** The conversion of the OpenAI response (lines 226-247). *)
Definition normalize (openai_response : json) (tools : option (list json))
  : res json :=
  (choices <-! py_getitem openai_response "choices" ;
   choice <-! py_first choices ;
   message <-! py_getitem choice "message" ;
   content <-! py_get message "content" (JStr "") ;
   tool_calls <-! py_get message "tool_calls" JNull ;
   recover <-! should_recover tools tool_calls content ;
   final <-! (if recover then
                parsed_tool_call <-! _parse_json_tool_call_from_content content tools ;
                match parsed_tool_call with
                | Some call =>
                    if truthy call then Ok (JStr "", JArr [call])
                    else Ok (content, tool_calls)
                | None => Ok (content, tool_calls)
                end
              else Ok (content, tool_calls)) ;
   Ok (JObj [("message", JObj [("role", JStr "assistant");
                               ("content", fst final);
                               ("tool_calls", snd final)]);
             ("done", JBool true)]))%res.

(** [OllamaClient._chat_vllm] *)
Definition _chat_vllm (messages : json) (stream : bool) (tools : option (list json))
    (kwargs : list (string * json)) : M OllamaClient chat_result :=
  c <- get_self ;;
  let payload := vllm_payload c messages stream tools kwargs in
  if stream then ret (Generator payload)
  else
    response <- http srv (post (base_url c ++ "/v1/chat/completions") payload) ;;
    openai_response <- lift (loads (rs_text response)) ;;
    normalized <- lift (normalize openai_response tools) ;;
    ret (Reply normalized).

(** [OllamaClient.chat] *)
Definition chat (messages : json) (stream : bool) (tools : option (list json))
    (kwargs : list (string * json)) : M OllamaClient chat_result :=
  try_except
    (c <- get_self ;;
     if String.eqb (backend c) "ollama"
     then _chat_ollama messages stream tools kwargs
     else _chat_vllm messages stream tools kwargs)
    is_HTTPError
    (fun e => raise e).

(** [OllamaClient.list_models] *)
Definition list_models : M OllamaClient json :=
  try_except
    (c <- get_self ;;
     if String.eqb (backend c) "ollama" then
       response <- http srv (get (base_url c ++ "/api/tags")) ;;
       data <- lift (loads (rs_text response)) ;;
       lift (py_get data "models" (JArr []))
     else
       response <- http srv (get (base_url c ++ "/v1/models")) ;;
       data <- lift (loads (rs_text response)) ;;
       lift (py_get data "data" (JArr [])))
    is_HTTPError
    (fun e => raise e).

(** [[m.get(field, "") for m in models]] *)
Fixpoint names_of (field : string) (models : list json) : res (list json) :=
  match models with
  | [] => Ok []
  | m :: rest =>
      (n <-! py_get m field (JStr "") ;
       ns <-! names_of field rest ;
       Ok (n :: ns))%res
  end.

(** [OllamaClient.check_model_exists] *)
Definition check_model_exists (model_name : option string) : M OllamaClient bool :=
  c <- get_self ;;
  let model_name :=
    match model_name with
    | Some s => if String.eqb s "" then model c else s
    | None => model c
    end in
  try_except
    (models <- list_models ;;
     items <- lift (py_iter models) ;;
     model_names <- lift (names_of (if String.eqb (backend c) "ollama"
                                    then "name" else "id") items) ;;
     ret (str_in_list model_name model_names))
    is_Exception
    (fun _ => ret false).

End Client.

End Ollama.

(* ===================================================================== *)
(** * A reference decoder

    A JSON decoder for the texts of the examples below.  It reads the JSON
    grammar with integer numbers, the constants [NaN], [Infinity] and
    [-Infinity] that [json.loads] also accepts, and strings with the
    escapes of the grammar ([\u] escapes below 256).  A repeated key keeps
    its first place and its last value, as [dict] does.  Numbers with a
    fraction or an exponent are outside its fragment and it rejects them.
    It fails as [json.loads] does, at the place where the scan meets the
    cause: on an integer literal of more than 4300 digits, and on a value
    nested deeper than the recursion it has left. *)
(* ===================================================================== *)

Module Ref.

Definition is_ws (c : ascii) : bool :=
  let n := nat_of_ascii c in
  (n =? 32)%nat || (n =? 9)%nat || (n =? 10)%nat || (n =? 13)%nat.

Fixpoint skip_ws (s : list ascii) : list ascii :=
  match s with
  | c :: rest => if is_ws c then skip_ws rest else s
  | [] => []
  end.

Definition is_digit (c : ascii) : bool :=
  let n := nat_of_ascii c in ((48 <=? n) && (n <=? 57))%nat.

Definition hex_value (c : ascii) : option nat :=
  let n := nat_of_ascii c in
  if ((48 <=? n) && (n <=? 57))%nat then Some (n - 48)%nat
  else if ((97 <=? n) && (n <=? 102))%nat then Some (n - 87)%nat
  else if ((65 <=? n) && (n <=? 70))%nat then Some (n - 55)%nat
  else None.

(** The character an escape stands for, and the text after the escape. *)
Definition unescape (s : list ascii) : option (ascii * list ascii) :=
  match s with
  | c :: rest =>
      let n := nat_of_ascii c in
      if (n =? 34)%nat || (n =? 92)%nat || (n =? 47)%nat then Some (c, rest)
      else if (n =? 98)%nat then Some (ascii_of_nat 8, rest)
      else if (n =? 102)%nat then Some (ascii_of_nat 12, rest)
      else if (n =? 110)%nat then Some (ascii_of_nat 10, rest)
      else if (n =? 114)%nat then Some (ascii_of_nat 13, rest)
      else if (n =? 116)%nat then Some (ascii_of_nat 9, rest)
      else if (n =? 117)%nat then
        match rest with
        | a :: b :: c' :: d :: rest' =>
            match hex_value a, hex_value b, hex_value c', hex_value d with
            | Some 0%nat, Some 0%nat, Some h, Some l =>
                Some (ascii_of_nat (16 * h + l), rest')
            | _, _, _, _ => None
            end
        | _ => None
        end
      else None
  | [] => None
  end.

(** The rest of a string literal, after its opening quote. *)
Fixpoint read_string (s : list ascii) (acc : list ascii)
  : option (string * list ascii) :=
  match s with
  | [] => None
  | c :: rest =>
      let n := nat_of_ascii c in
      if (n =? 34)%nat then Some (string_of_list_ascii (List.rev acc), rest)
      else if (n <? 32)%nat then None
      else if (n =? 92)%nat then
        match rest with
        | e :: rest' =>
            (* one escape: the recursion continues on the same list *)
            match unescape (e :: rest') with
            | Some (ch, _) =>
                let n' := nat_of_ascii e in
                if (n' =? 117)%nat then
                  match rest' with
                  | _ :: _ :: _ :: _ :: rest'' => read_string rest'' (ch :: acc)
                  | _ => None
                  end
                else read_string rest' (ch :: acc)
            | None => None
            end
        | [] => None
        end
      else read_string rest (c :: acc)
  end.

Fixpoint read_digits (s : list ascii) (acc : Z) : Z * list ascii :=
  match s with
  | c :: rest =>
      if is_digit c then read_digits rest (10 * acc + Z.of_nat (nat_of_ascii c - 48))
      else (acc, s)
  | [] => (acc, [])
  end.

Definition starts_fraction (s : list ascii) : bool :=
  match s with
  | c :: _ =>
      let n := nat_of_ascii c in (n =? 46)%nat || (n =? 101)%nat || (n =? 69)%nat
  | [] => false
  end.

(** The outcome of reading a piece of the text. *)
Inductive parse (A : Type) : Type :=
| Got (a : A)
| Bad (f : decode_failure).
Arguments Got {A} a.
Arguments Bad {A} f.

(** The interpreter's default limit on the digits of an integer string. *)
Definition digit_limit : nat := 4300.

Definition digit_limit_message (digits : nat) : string :=
  "Exceeds the limit (4300 digits) for integer string conversion: value has "
  ++ PyStr.str_of_N (N.of_nat digits)
  ++ " digits; use sys.set_int_max_str_digits() to increase the limit".

(** An integer without sign: a single [0], or digits that do not start
    with [0]. *)
Definition read_nat (s : list ascii) : parse (Z * list ascii) :=
  match s with
  | c :: rest =>
      if negb (is_digit c) then Bad Malformed
      else
        let '(z, rest') :=
          if (nat_of_ascii c =? 48)%nat then (0, rest) else read_digits s 0 in
        if starts_fraction rest' then Bad Malformed
        else
          let digits := (List.length s - List.length rest')%nat in
          if (digit_limit <? digits)%nat
          then Bad (DigitLimit (digit_limit_message digits))
          else Got (z, rest')
  | [] => Bad Malformed
  end.

Definition word (w : string) (s : list ascii) : option (list ascii) :=
  let l := list_ascii_of_string w in
  if String.prefix w (string_of_list_ascii s)
  then Some (List.skipn (List.length l) s)
  else None.

Definition read_atom (s : list ascii) : parse (json * list ascii) :=
  match word "true" s, word "false" s, word "null" s with
  | Some r, _, _ => Got (JBool true, r)
  | _, Some r, _ => Got (JBool false, r)
  | _, _, Some r => Got (JNull, r)
  | _, _, _ =>
      match word "NaN" s, word "Infinity" s, word "-Infinity" s with
      | Some r, _, _ => Got (JFloat nan, r)
      | _, Some r, _ => Got (JFloat infinity, r)
      | _, _, Some r => Got (JFloat neg_infinity, r)
      | _, _, _ =>
          match s with
          | c :: rest =>
              if (nat_of_ascii c =? 45)%nat then
                match read_nat rest with
                | Got (z, r) => Got (JInt (- z), r)
                | Bad f => Bad f
                end
              else
                match read_nat s with
                | Got (z, r) => Got (JInt z, r)
                | Bad f => Bad f
                end
          | [] => Bad Malformed
          end
      end
  end.

Definition is_char (code : nat) (s : list ascii) : option (list ascii) :=
  match s with
  | c :: rest => if (nat_of_ascii c =? code)%nat then Some rest else None
  | [] => None
  end.

(** A value, the elements of an array after ['['] or a comma, the members
    of an object after ['{'] or a comma.  [fuel] bounds the number of
    steps; [depth] is the recursion left: every value takes one level, the
    values inside it one more. *)
Fixpoint read_value (fuel depth : nat) (s : list ascii)
  : parse (json * list ascii) :=
  match fuel, depth with
  | O, _ => Bad Malformed
  | S _, O => Bad TooDeep
  | S fuel', S depth' =>
      let s := skip_ws s in
      match is_char 123 s, is_char 91 s, is_char 34 s with
      | Some rest, _, _ =>
          match is_char 125 (skip_ws rest) with
          | Some rest' => Got (JObj [], rest')
          | None =>
              match read_members fuel' depth' rest [] with
              | Got (kvs, rest') => Got (JObj kvs, rest')
              | Bad f => Bad f
              end
          end
      | _, Some rest, _ =>
          match is_char 93 (skip_ws rest) with
          | Some rest' => Got (JArr [], rest')
          | None =>
              match read_elements fuel' depth' rest [] with
              | Got (xs, rest') => Got (JArr xs, rest')
              | Bad f => Bad f
              end
          end
      | _, _, Some rest =>
          match read_string rest [] with
          | Some (str, rest') => Got (JStr str, rest')
          | None => Bad Malformed
          end
      | _, _, _ => read_atom s
      end
  end
with read_elements (fuel depth : nat) (s : list ascii) (acc : list json)
  : parse (list json * list ascii) :=
  match fuel with
  | O => Bad Malformed
  | S fuel' =>
      match read_value fuel' depth s with
      | Got (x, rest) =>
          let rest := skip_ws rest in
          match is_char 44 rest, is_char 93 rest with
          | Some rest', _ => read_elements fuel' depth rest' (acc ++ [x])%list
          | _, Some rest' => Got ((acc ++ [x])%list, rest')
          | _, _ => Bad Malformed
          end
      | Bad f => Bad f
      end
  end
with read_members (fuel depth : nat) (s : list ascii) (acc : list (string * json))
  : parse (list (string * json) * list ascii) :=
  match fuel with
  | O => Bad Malformed
  | S fuel' =>
      match is_char 34 (skip_ws s) with
      | Some rest =>
          match read_string rest [] with
          | Some (k, rest) =>
              match is_char 58 (skip_ws rest) with
              | Some rest =>
                  match read_value fuel' depth rest with
                  | Got (x, rest) =>
                      let rest := skip_ws rest in
                      match is_char 44 rest, is_char 125 rest with
                      | Some rest', _ =>
                          read_members fuel' depth rest' (dict_set k x acc)
                      | _, Some rest' => Got (dict_set k x acc, rest')
                      | _, _ => Bad Malformed
                      end
                  | Bad f => Bad f
                  end
              | None => Bad Malformed
              end
          | None => Bad Malformed
          end
      | None => Bad Malformed
      end
  end.

(** The recursion the decoder has left when it is called.  The
    interpreter's limit is 1000 by default and the stack of the caller
    takes its part of it; the examples nest a few levels, or more than
    1000. *)
Definition depth_left : nat := 900.

Definition read (text : string) : parse json :=
  let s := list_ascii_of_string text in
  match read_value (S (List.length s)) depth_left s with
  | Got (v, rest) => match skip_ws rest with [] => Got v | _ => Bad Malformed end
  | Bad f => Bad f
  end.

Definition decode (text : string) : option json :=
  match read text with
  | Got v => Some v
  | Bad _ => None
  end.

Definition failure (text : string) : decode_failure :=
  match read text with
  | Got _ => Malformed
  | Bad f => f
  end.

(** JSON texts are written below with ['] in place of the double quote. *)
Fixpoint dq (s : string) : string :=
  match s with
  | EmptyString => EmptyString
  | String c s' => String (if Ascii.eqb c "'" then dquote else c) (dq s')
  end.

(** The library of the examples: the reference decoder; the printing of
    the three floats that decoder produces; a fixed hash; and bodies cut
    into lines at line feeds. *)
#[export] Instance lib : PyLib := {|
  json_loads := decode;
  json_loads_failure := failure;
  float_repr := fun f =>
    if PrimFloat.ltb f 0%float then "-Infinity"
    else if PrimFloat.ltb 0%float f then "Infinity" else "NaN";
  py_hash := fun s => 7046029254386353131 - Z.of_nat (String.length s);
  iter_lines := PyStr.split MCP.LF |}.

(** A server that answers every request with the same body. *)
Definition always (body : string) : Server :=
  fun _ _ => Replied {| rs_headers := []; rs_text := body |}.

End Ref.

(* ===================================================================== *)
(** * Vocabulary of the statements *)
(* ===================================================================== *)

(** The SSE body [event: message\ndata: <payload>\n]. *)
Definition sse_frame (payload : string) : string :=
  "event: message" ++ String MCP.LF ("data: " ++ payload ++ String MCP.LF "").

(** The text has no line feed. *)
Definition single_line (s : string) : bool := PyStr.lacks MCP.LF s.

(** A response that answers [rq] when [history] was sent before. *)
Definition answers (srv : Server) (history : list Request) (rq : Request)
    (r : Response) : Prop :=
  srv history rq = Replied r.

(** A client that has completed the handshake. *)
Definition ready_client : MCP.MCPClient :=
  MCP.set_initialized true (MCP.init "http://localhost:8000/mcp" 30 "local-uuid").

Definition ready_world : World MCP.MCPClient :=
  {| self := ready_client; sent := [] |}.

(** ** The tool catalog *)

(** The key a tool is cached under. *)
Definition key_of (t : MCP.MCPTool) : option string :=
  match MCP.name t with
  | JStr k => Some k
  | _ => None
  end.

(** Caching the tools of a list one after the other. *)
Fixpoint cache_all (ts : list MCP.MCPTool) (m : gmap string MCP.MCPTool)
  : gmap string MCP.MCPTool :=
  match ts with
  | [] => m
  | t :: rest =>
      match key_of t with
      | Some k => cache_all rest (<[k := t]> m)
      | None => cache_all rest m
      end
  end.

(** Every entry is cached under its own name. *)
Definition keyed_by_name (m : gmap string MCP.MCPTool) : Prop :=
  forall k t, m !! k = Some t -> MCP.name t = JStr k.

(** ** Tool definitions offered to the model *)

Definition is_dict_or_absent (v : option json) : bool :=
  match v with
  | None | Some (JObj _) => true
  | Some _ => false
  end.

(** A tool definition is a dict whose ["function"] entry, the
    ["parameters"] entry of that, and the ["properties"] entry of that,
    are dicts where they are present. *)
Definition well_formed_tool (tool : json) : bool :=
  match tool with
  | JObj t =>
      match dict_lookup "function" t with
      | None => true
      | Some (JObj f) =>
          match dict_lookup "parameters" f with
          | None => true
          | Some (JObj p) => is_dict_or_absent (dict_lookup "properties" p)
          | Some _ => false
          end
      | Some _ => false
      end
  | _ => false
  end.

(** The name of a tool definition, [None] ([JNull]) when it has none. *)
Definition name_of_tool (tool : json) : json :=
  match tool with
  | JObj t =>
      match dict_lookup "function" t with
      | Some (JObj f) =>
          match dict_lookup "name" f with Some n => n | None => JNull end
      | _ => JNull
      end
  | _ => JNull
  end.

(** The property names of a tool definition's parameter schema. *)
Definition properties_of_tool (tool : json) : list string :=
  match tool with
  | JObj t =>
      match dict_lookup "function" t with
      | Some (JObj f) =>
          match dict_lookup "parameters" f with
          | Some (JObj p) =>
              match dict_lookup "properties" p with
              | Some (JObj props) => dict_keys props
              | _ => []
              end
          | _ => []
          end
      | _ => []
      end
  | _ => []
  end.

(** How many of the keys, each counted once, are among the names. *)
Definition shared_keys (keys names : list string) : Z :=
  Z.of_nat (List.length (List.filter (fun k => existsb (String.eqb k) names)
                                     (remove_dups keys))).

(** How many keys of the bag are property names of the tool. *)
Definition overlap_count (bag : list (string * json)) (tool : json) : Z :=
  shared_keys (dict_keys bag) (properties_of_tool tool).

Definition name_aliases : list string := ["tool"; "name"; "function"].
Definition argument_aliases : list string := ["arguments"; "params"].

(** The first truthy value found under the keys, in their order. *)
Fixpoint first_truthy (keys : list string) (kvs : list (string * json))
  : option json :=
  match keys with
  | [] => None
  | k :: rest =>
      match dict_lookup k kvs with
      | Some v => if truthy v then Some v else first_truthy rest kvs
      | None => first_truthy rest kvs
      end
  end.

(** The content passes the shape filter of the heuristic. *)
Definition json_shaped (content : string) : bool :=
  negb (String.eqb content "")
  && PyStr.startswith "{" (PyStr.strip content)
  && PyStr.endswith "}" (PyStr.strip content).

(** The name and the arguments of a normalized tool call. *)
Definition call_target (call : json) : option (json * json) :=
  match call with
  | JObj kvs =>
      match dict_lookup "function" kvs with
      | Some (JObj f) =>
          match dict_lookup "name" f, dict_lookup "arguments" f with
          | Some n, Some a => Some (n, a)
          | _, _ => None
          end
      | _ => None
      end
  | _ => None
  end.

(** The normalized chat response. *)
Definition normalized (content tool_calls : json) : json :=
  JObj [("message", JObj [("role", JStr "assistant"); ("content", content);
                          ("tool_calls", tool_calls)]);
        ("done", JBool true)].

(** ** Inputs of the examples *)

Definition search_tool : json :=
  JObj [("type", JStr "function");
        ("function",
         JObj [("name", JStr "search");
               ("description", JStr "Search the index");
               ("parameters",
                JObj [("type", JStr "object");
                      ("properties", JObj [("q", JObj [("type", JStr "string")]);
                                           ("limit", JObj [("type", JStr "integer")])])])])].

Definition fetch_tool : json :=
  JObj [("type", JStr "function");
        ("function",
         JObj [("name", JStr "fetch");
               ("description", JStr "Fetch a page");
               ("parameters",
                JObj [("type", JStr "object");
                      ("properties", JObj [("url", JObj [("type", JStr "string")])])])])].

(** [inner] inside [n] pairs of square brackets. *)
Fixpoint brackets (n : nat) (inner : string) : string :=
  match n with
  | O => inner
  | S n' => String "[" (brackets n' inner ++ "]")
  end.


(** A tool definition that has the property [q] and no name. *)
Definition unnamed_tool : json :=
  JObj [("type", JStr "function");
        ("function",
         JObj [("description", JStr "Search the index");
               ("parameters",
                JObj [("type", JStr "object");
                      ("properties", JObj [("q", JObj [("type", JStr "string")])])])])].

Definition vllm_client : Ollama.OllamaClient :=
  {| Ollama.base_url := "http://localhost:8000"; Ollama.model := "gpt-oss:20b";
     Ollama.temperature := 0.5%float; Ollama.num_ctx := 4096;
     Ollama.timeout := 120; Ollama.backend := "vllm" |}.

Definition ollama_client : Ollama.OllamaClient :=
  {| Ollama.base_url := "http://localhost:11434"; Ollama.model := "gpt-oss:20b";
     Ollama.temperature := 0.5%float; Ollama.num_ctx := 4096;
     Ollama.timeout := 120; Ollama.backend := "ollama" |}.

Definition fresh {S} (s : S) : World S := {| self := s; sent := [] |}.

(** The request [initialize] sends. *)
Definition initialize_request (c : MCP.MCPClient) : Request :=
  MCP.post (MCP.base_url c) MCP.initialize_payload (MCP.base_headers c).

(** The request [list_tools] sends. *)
Definition list_tools_request (c : MCP.MCPClient) : Request :=
  MCP.post (MCP.base_url c) MCP.list_tools_payload (MCP.session_headers c).

(** The request [call_tool] sends. *)
Definition call_tool_request (c : MCP.MCPClient) (tool_name : string)
    (arguments : json) : Request :=
  MCP.post (MCP.base_url c) (MCP.call_tool_payload tool_name arguments)
           (MCP.session_headers c).

(** A JSON text of two lines: [{] and [}]. *)
Definition two_line_payload : string := "{" ++ String MCP.LF "}".

(** An SSE body with two data lines, the first carrying an error. *)
Definition two_data_lines : string :=
  "event: message" ++ String MCP.LF
    (Ref.dq "data: {'jsonrpc': '2.0', 'id': 1, 'error': {'message': 'busy'}}"
     ++ String MCP.LF
    (Ref.dq "data: {'jsonrpc': '2.0', 'id': 1, 'result': {}}" ++ String MCP.LF "")).

(** The same body cut after its first data line. *)
Definition one_data_line : string :=
  "event: message" ++ String MCP.LF
    (Ref.dq "data: {'jsonrpc': '2.0', 'id': 1, 'error': {'message': 'busy'}}"
     ++ String MCP.LF "").

(** A client before the handshake. *)
Definition new_world : World MCP.MCPClient :=
  fresh (MCP.init "http://localhost:8000/mcp" 30 "local-uuid").

(** A method that leaves the tool catalog as it found it, however it ends. *)
Definition keeps_tools {A} (m : M MCP.MCPClient A) : Prop :=
  forall w, MCP.tools (self (snd (m w))) = MCP.tools (self w).

(** ** A server whose catalog changes *)

Definition search_listing : string :=
  Ref.dq ("{'jsonrpc': '2.0', 'id': 2, 'result': {'tools': ["
          ++ "{'name': 'search', 'description': 'Search the index', "
          ++ "'inputSchema': {'type': 'object', 'properties': {'q': {'type': 'string'}}}}"
          ++ "]}}").

Definition fetch_listing : string :=
  Ref.dq ("{'jsonrpc': '2.0', 'id': 2, 'result': {'tools': ["
          ++ "{'name': 'fetch', 'description': 'Fetch a page', "
          ++ "'inputSchema': {'type': 'object', 'properties': {'url': {'type': 'string'}}}}"
          ++ "]}}").

Definition both_listing : string :=
  Ref.dq ("{'jsonrpc': '2.0', 'id': 2, 'result': {'tools': ["
          ++ "{'name': 'search', 'description': 'Search the index', "
          ++ "'inputSchema': {'type': 'object', 'properties': {'q': {'type': 'string'}}}}, "
          ++ "{'name': 'fetch', 'description': 'Fetch a page', "
          ++ "'inputSchema': {'type': 'object', 'properties': {'url': {'type': 'string'}}}}"
          ++ "]}}").

Definition mcp_search : MCP.MCPTool :=
  {| MCP.name := JStr "search"; MCP.description := JStr "Search the index";
     MCP.input_schema :=
       JObj [("type", JStr "object");
             ("properties", JObj [("q", JObj [("type", JStr "string")])])] |}.

Definition mcp_fetch : MCP.MCPTool :=
  {| MCP.name := JStr "fetch"; MCP.description := JStr "Fetch a page";
     MCP.input_schema :=
       JObj [("type", JStr "object");
             ("properties", JObj [("url", JObj [("type", JStr "string")])])] |}.

(** The server lists [search] on the first request and [fetch] from the
    second on. *)
Definition changing_server : Server :=
  fun history _ =>
    Replied {| rs_headers := [];
               rs_text := match history with
                          | [] => search_listing
                          | _ => fetch_listing
                          end |}.

(** The state after a first [list_tools] against that server. *)
Definition after_first_listing : World MCP.MCPClient :=
  snd (MCP.list_tools (lib := Ref.lib) changing_server ready_world).

(** [d.get(k)] on the items of a [dict]. *)
Definition value_at (kvs : list (string * json)) (k : string) : json :=
  match dict_lookup k kvs with
  | Some v => v
  | None => JNull
  end.

(** None of the keys is present. *)
Definition lacks_keys (keys : list string) (kvs : list (string * json)) : Prop :=
  forall k, In k keys -> dict_lookup k kvs = None.

(** ** The chat adapter *)

(** [openai_response["choices"][0]["message"]] *)
Definition first_message (openai_response : json) : res json :=
  (choices <-! py_getitem openai_response "choices" ;
   choice <-! py_first choices ;
   py_getitem choice "message")%res.

(** The request a non-streaming [chat] sends under the OpenAI dialect. *)
Definition completions_request (c : Ollama.OllamaClient) (messages : json)
    (tools : option (list json)) (kwargs : list (string * json)) : Request :=
  Ollama.post (Ollama.base_url c ++ "/v1/chat/completions")
              (Ollama.vllm_payload c messages false tools kwargs).

(** The request a non-streaming [chat] sends under the native dialect. *)
Definition native_chat_request (c : Ollama.OllamaClient) (messages : json)
    (tools : option (list json)) (kwargs : list (string * json)) : Request :=
  Ollama.post (Ollama.base_url c ++ "/api/chat")
              (Ollama.ollama_payload c messages false tools kwargs).

(** A server no request reaches. *)
Definition unreachable : Server := fun _ _ => Failed "All connection attempts failed".

(** A conversation of one user message. *)
Definition one_question : json :=
  JArr [JObj [("role", JStr "user"); ("content", JStr "find x")]].

(** A completion whose content is the bag [{"q":"x","limit":5}] and that
    has no [tool_calls]. *)
Definition bag_completion : string :=
  Ref.dq ("{'choices': [{'message': {'role': 'assistant', "
          ++ "'content': '{\'q\':\'x\',\'limit\':5}'}}]}").

(** The URLs of the requests in a log. *)
Definition urls (log : list Request) : list string := map rq_url log.

(* ===================================================================== *)
(** * [mcp_client.py]: the health probe and the function-calling format *)
(* ===================================================================== *)

Module Probe.

(** [s.replace(old, "")] for a non-empty [old], read left to right:
    [skip] counts the characters of a found occurrence still to drop. *)
Fixpoint remove_aux (old : string) (skip : nat) (s : string) : string :=
  match s with
  | EmptyString => EmptyString
  | String c s' =>
      match skip with
      | S n => remove_aux old n s'
      | O =>
          if String.prefix old s
          then remove_aux old (Nat.pred (String.length old)) s'
          else String c (remove_aux old O s')
      end
  end.

Definition remove (old s : string) : string := remove_aux old O s.

(** [self.base_url.replace('/mcp', '') + '/healthz'] *)
Definition health_url (c : MCP.MCPClient) : string :=
  remove "/mcp" (MCP.base_url c) ++ "/healthz".

(** [v == s] for a string [s] *)
Definition py_eq_str (v : json) (s : string) : bool :=
  match v with
  | JStr t => String.eqb t s
  | _ => false
  end.

Section Client.
Context `{lib : PyLib}.
Variable srv : Server.

(** [response.status_code], which [Response] does not carry. *)
Variable status_code : Response -> Z.

(** The inner [try] of [health_check] (lines 360-365) with its bare
    [except]. *)
Definition health_verdict (response : Response) : bool :=
  match (data <-! loads (rs_text response) ;
         status <-! py_get data "status" JNull ;
         if py_eq_str status "healthy" then Ok true
         else
           status' <-! py_get data "status" JNull ;
           Ok (py_eq_str status' "ok"))%res with
  | Ok verdict => verdict
  | Raise _ => status_code response =? 200
  end.

(** [MCPClient.health_check] *)
Definition health_check : M MCP.MCPClient bool :=
  try_except
    (bind get_self (fun c =>
     bind (http srv {| rq_method := "GET"; rq_url := health_url c;
                       rq_headers := []; rq_json := None |}) (fun response =>
     ret (health_verdict response))))
    is_Exception
    (fun _ => ret false).

End Client.

(** The dictionary [format_tools_for_ollama] builds for one tool (lines
    336-343). *)
Definition ollama_tool (tool : MCP.MCPTool) : json :=
  JObj [("type", JStr "function");
        ("function", JObj [("name", MCP.name tool);
                           ("description", MCP.description tool);
                           ("parameters", MCP.input_schema tool)])].

(** The loop of [format_tools_for_ollama] (lines 334-346) over
    [self.tools.values()], given in the order the dict yields them. *)
Definition format_tools_for_ollama (values : list MCP.MCPTool) : list json :=
  map ollama_tool values.

End Probe.

(* ===================================================================== *)
(** * [ollama_client.py]: completion and model pulling *)
(* ===================================================================== *)

Module Completion.

(** What [generate] returns: the response dictionary, or, when streaming,
    the generator [_stream_generate(payload)], whose body has not started. *)
Inductive generate_result : Type :=
| Response (response : json)
| Generator (payload : json).

(** The [payload] of [generate] (lines 286-295). *)
Definition generate_payload (c : Ollama.OllamaClient) (prompt : string)
    (stream : bool) (kwargs : list (string * json)) : json :=
  JObj [("model", JStr (Ollama.model c)); ("prompt", JStr prompt);
        ("stream", JBool stream);
        ("options",
         JObj [("temperature",
                Ollama.kwarg kwargs "temperature" (JFloat (Ollama.temperature c)));
               ("num_ctx", Ollama.kwarg kwargs "num_ctx" (JInt (Ollama.num_ctx c)));
               ("top_p", Ollama.kwarg kwargs "top_p" (JFloat Ollama.top_p_default))])].

Section Client.
Context `{lib : PyLib}.
Variable srv : Server.

(** Running the generator [_stream_generate(payload)] to its end: the
    chunks it yields and the exception that ends the iteration, if one
    does. *)
Definition _stream_generate (payload : json)
  : M Ollama.OllamaClient (list json * option exn) :=
  bind get_self (fun c =>
  bind (http srv (Ollama.post (Ollama.base_url c ++ "/api/generate") payload))
       (fun response =>
  ret (Ollama.stream_chunks (iter_lines (rs_text response))))).

(** [OllamaClient.generate] *)
Definition generate (prompt : string) (stream : bool)
    (kwargs : list (string * json)) : M Ollama.OllamaClient generate_result :=
  try_except
    (bind get_self (fun c =>
     let payload := generate_payload c prompt stream kwargs in
     if stream then ret (Generator payload)
     else
       bind (http srv (Ollama.post (Ollama.base_url c ++ "/api/generate") payload))
            (fun response =>
       bind (lift (loads (rs_text response))) (fun data =>
       ret (Response data)))))
    is_HTTPError
    (fun e => raise e).

(** [model_name or self.model] *)
Definition effective_model (c : Ollama.OllamaClient) (model_name : option string)
  : string :=
  match model_name with
  | Some s => if String.eqb s "" then Ollama.model c else s
  | None => Ollama.model c
  end.

(** [OllamaClient.pull_model] *)
Definition pull_model (model_name : option string) : M Ollama.OllamaClient bool :=
  bind get_self (fun c =>
  if negb (String.eqb (Ollama.backend c) "ollama") then ret false
  else
    try_except
      (bind (http srv (Ollama.post (Ollama.base_url c ++ "/api/pull")
                                   (JObj [("name", JStr (effective_model c model_name))])))
            (fun _ => ret true))
      is_HTTPError
      (fun _ => ret false)).

End Client.

End Completion.

(* ===================================================================== *)
(** * [mcp_client.py]: the tool descriptions and the prompt *)
(* ===================================================================== *)

Module Prompt.

(** [v.items()]; only a [dict] has the method. *)
Definition py_items (v : json) : res (list (string * json)) :=
  match v with
  | JObj kvs => Ok kvs
  | _ => Raise AttributeError
  end.

(** The string ["\n"]. *)
Definition NL : string := String MCP.LF EmptyString.

Definition quoted (s : string) : string :=
  String dquote (s ++ String dquote EmptyString).

(** The closing text of the prompt (lines 317-321). *)
Definition usage : string :=
  "To use a tool, respond with a JSON object in the following format:" ++ NL
  ++ "{" ++ quoted "tool" ++ ": " ++ quoted "tool_name" ++ ", "
  ++ quoted "arguments" ++ ": {" ++ quoted "param1" ++ ": " ++ quoted "value1"
  ++ ", " ++ quoted "param2" ++ ": " ++ quoted "value2" ++ "}}" ++ NL ++ NL
  ++ "After using a tool, I will show you the result and you can continue the conversation.".

Section Text.

(** [str(v)] for a value [v] that is no [str]. *)
Variable text_of : json -> string.

(** What an f-string prints for [{v}]. *)
Definition fstr (v : json) : string :=
  match v with
  | JStr s => s
  | _ => text_of v
  end.

(** The body of the inner loop of [get_tool_descriptions] (lines
    284-289): the line of one parameter. *)
Definition param_line (required : json) (param_name : string) (param_info : json)
  : res string :=
  (param_type <-! py_get param_info "type" (JStr "string") ;
   param_desc <-! py_get param_info "description" (JStr "") ;
   is_required <-! py_contains param_name required ;
   Ok ("  - " ++ param_name ++ " (" ++ fstr param_type ++ ")"
       ++ (if is_required then " [required]" else "")
       ++ ": " ++ fstr param_desc))%res.

(** The inner loop (lines 282-289) over [properties.items()]. *)
Fixpoint param_lines (required : json) (items : list (string * json))
  : res (list string) :=
  match items with
  | [] => Ok []
  | (param_name, param_info) :: rest =>
      (line <-! param_line required param_name param_info ;
       lines <-! param_lines required rest ;
       Ok (line :: lines))%res
  end.

(** The body of the outer loop (lines 279-296): the description of one
    tool. *)
Definition describe (tool : MCP.MCPTool) : res json :=
  (properties <-! py_get (MCP.input_schema tool) "properties" (JObj []) ;
   required <-! py_get (MCP.input_schema tool) "required" (JArr []) ;
   items <-! py_items properties ;
   params <-! param_lines required items ;
   Ok (JObj [("name", MCP.name tool);
             ("description", MCP.description tool);
             ("parameters", JStr match params with
                                 | [] => "  No parameters"
                                 | _ => join NL params
                                 end)]))%res.

(** [MCPClient.get_tool_descriptions], on [self.tools.values()] given in
    the order the dict yields them. *)
Fixpoint get_tool_descriptions (values : list MCP.MCPTool) : res (list json) :=
  match values with
  | [] => Ok []
  | tool :: rest =>
      (desc <-! describe tool ;
       descriptions <-! get_tool_descriptions rest ;
       Ok (desc :: descriptions))%res
  end.

(** The loop of [format_tools_for_prompt] (lines 312-315). *)
Fixpoint prompt_loop (formatted : string) (tool_descriptions : list json)
  : res string :=
  match tool_descriptions with
  | [] => Ok formatted
  | tool_desc :: rest =>
      (name <-! py_getitem tool_desc "name" ;
       let formatted := formatted ++ ("Tool: " ++ fstr name ++ NL) in
       description <-! py_getitem tool_desc "description" ;
       let formatted := formatted ++ ("Description: " ++ fstr description ++ NL) in
       parameters <-! py_getitem tool_desc "parameters" ;
       let formatted :=
         formatted ++ ("Parameters:" ++ NL ++ fstr parameters ++ NL ++ NL) in
       prompt_loop formatted rest)%res
  end.

(** [MCPClient.format_tools_for_prompt] from line 309 on, on
    [self.tools.values()] given in the order the dict yields them. *)
Definition format_tools_for_prompt (values : list MCP.MCPTool) : res string :=
  (tool_descriptions <-! get_tool_descriptions values ;
   formatted <-! prompt_loop ("Available MCP Tools:" ++ NL ++ NL) tool_descriptions ;
   Ok (formatted ++ usage))%res.

End Text.

End Prompt.

(* ===================================================================== *)
(** * Vocabulary of the further statements *)
(* ===================================================================== *)

(** The session identifier after the response headers were read (lines
    83-86): the server's, when it sent a non-empty one. *)
Definition adopt_session (r : Response) (c : MCP.MCPClient) : MCP.MCPClient :=
  match header_get "mcp-session-id" (rs_headers r) with
  | Some sid => if String.eqb sid "" then c else MCP.set_session_id sid c
  | None => c
  end.

(** The client after the handshake request was answered, before the body
    is looked at. *)
Definition after_handshake_reply (srv : Server) (w : World MCP.MCPClient)
  : MCP.MCPClient :=
  match srv (sent w) (initialize_request (self w)) with
  | Replied r => adopt_session r (self w)
  | Failed _ => self w
  end.

(** The tool [list_tools] builds from one item of the listing: the item
    is a dict with the three keys and its name can be a dict key. *)
Definition listed_tool (item : json) : option MCP.MCPTool :=
  match item with
  | JObj kvs =>
      match dict_lookup "name" kvs, dict_lookup "description" kvs,
            dict_lookup "inputSchema" kvs with
      | Some n, Some d, Some s =>
          match n with
          | JArr _ | JObj _ => None
          | _ => Some {| MCP.name := n; MCP.description := d; MCP.input_schema := s |}
          end
      | _, _, _ => None
      end
  | _ => None
  end.

Fixpoint listed_tools (items : list json) : option (list MCP.MCPTool) :=
  match items with
  | [] => Some []
  | item :: rest =>
      match listed_tool item, listed_tools rest with
      | Some t, Some ts => Some (t :: ts)
      | _, _ => None
      end
  end.

(** A server that answers every request with the same body and issues the
    session identifier [srv-42]. *)
Definition session_server (body : string) : Server :=
  fun _ _ => Replied {| rs_headers := [("Content-Type", "application/json");
                                       ("Mcp-Session-Id", "srv-42")];
                        rs_text := body |}.

(** A handshake reply that carries an error. *)
Definition refused_handshake : string :=
  Ref.dq "{'jsonrpc': '2.0', 'id': 1, 'error': {'code': -32600, 'message': 'busy'}}".

(** A handshake reply that carries a result. *)
Definition accepted_handshake : string :=
  Ref.dq "{'jsonrpc': '2.0', 'id': 1, 'result': {'protocolVersion': '2024-11-05'}}".

(** The headers a client has from its constructor. *)
Definition default_headers : list (string * string) :=
  [("Content-Type", "application/json");
   ("Accept", "application/json, text/event-stream")].

(** [d.get(k, default)] on the items of a [dict]. *)
Definition value_or (kvs : list (string * json)) (k : string) (default : json) : json :=
  match dict_lookup k kvs with
  | Some v => v
  | None => default
  end.

(** A server that accepts the handshake, issuing the session identifier
    [srv-42], and answers every later request with [body]. *)
Definition handshake_then (body : string) : Server :=
  fun history rq =>
    match history with
    | [] => session_server accepted_handshake history rq
    | _ => Replied {| rs_headers := []; rs_text := body |}
    end.

(** A server that refuses the handshake. *)
Definition refusing_server : Server := session_server refused_handshake.

(** A tool result with one text item. *)
Definition text_result : string :=
  Ref.dq "{'jsonrpc': '2.0', 'id': 3, 'result': {'content': [{'type': 'text', 'text': 'ok'}]}}".

(** A protocol-level error reply. *)
Definition error_reply : string :=
  Ref.dq "{'jsonrpc': '2.0', 'id': 2, 'error': {'code': -32601, 'message': 'Method not found'}}".

(** The request [health_check] sends. *)
Definition health_request (c : MCP.MCPClient) : Request :=
  {| rq_method := "GET"; rq_url := Probe.health_url c; rq_headers := [];
     rq_json := None |}.

(** The status a decoded health body reports is one of the two the probe
    recognizes. *)
Definition reports_healthy (data : list (string * json)) : bool :=
  Probe.py_eq_str (value_at data "status") "healthy"
  || Probe.py_eq_str (value_at data "status") "ok".

(** A client whose server is reached under a host name that begins with
    [mcp]. *)
Definition mcp_host_client : MCP.MCPClient :=
  MCP.init "http://mcp.example.com/mcp/" 30 "local-uuid".

(** The property names of an [inputSchema]: the schema is a dict whose
    [properties] entry, when present, is a dict. *)
Definition schema_properties (schema : json) : option (list string) :=
  match schema with
  | JObj s =>
      match dict_lookup "properties" s with
      | None => Some []
      | Some (JObj p) => Some (dict_keys p)
      | Some _ => None
      end
  | _ => None
  end.

(** How many keys of the bag are property names of the cached tool's
    [inputSchema]. *)
Definition schema_overlap (bag : list (string * json)) (t : MCP.MCPTool) : Z :=
  match schema_properties (MCP.input_schema t) with
  | Some props => shared_keys (dict_keys bag) props
  | None => 0
  end.

(** A run of [n] slashes. *)
Fixpoint slashes (n : nat) : string :=
  match n with
  | O => EmptyString
  | S n' => String "/" (slashes n')
  end.

(** The backend selector names one of the two dialects, in any case. *)
Definition legal_backend (bk : string) : bool :=
  String.eqb (PyStr.lower bk) "ollama" || String.eqb (PyStr.lower bk) "vllm".

(** The request a non-streaming [chat] sends, by dialect. *)
Definition chat_request (c : Ollama.OllamaClient) (messages : json)
    (tools : option (list json)) (kwargs : list (string * json)) : Request :=
  if String.eqb (Ollama.backend c) "ollama"
  then native_chat_request c messages tools kwargs
  else completions_request c messages tools kwargs.

(** The request [list_models] sends, by dialect. *)
Definition models_request (c : Ollama.OllamaClient) : Request :=
  Ollama.get (Ollama.base_url c
              ++ if String.eqb (Ollama.backend c) "ollama"
                 then "/api/tags" else "/v1/models").

(** The key of the model list in the reply, by dialect. *)
Definition listing_key (c : Ollama.OllamaClient) : string :=
  if String.eqb (Ollama.backend c) "ollama" then "models" else "data".

(** The key of a model's name in its entry, by dialect. *)
Definition name_key (c : Ollama.OllamaClient) : string :=
  if String.eqb (Ollama.backend c) "ollama" then "name" else "id".

(** The entry is a dict that gives [model_name] under [key]. *)
Definition names_model (key model_name : string) (entry : json) : bool :=
  match entry with
  | JObj kvs => Probe.py_eq_str (value_or kvs key (JStr "")) model_name
  | _ => false
  end.

Definition is_dict (v : json) : bool :=
  match v with
  | JObj _ => true
  | _ => false
  end.

(** The request [pull_model] sends. *)
Definition pull_request (c : Ollama.OllamaClient) (model_name : option string)
  : Request :=
  Ollama.post (Ollama.base_url c ++ "/api/pull")
              (JObj [("name", JStr (Completion.effective_model c model_name))]).

(** A completion with a structured tool call and JSON-shaped content. *)
Definition structured_completion : string :=
  Ref.dq ("{'choices': [{'message': {'role': 'assistant', "
          ++ "'content': '{\'q\':\'x\',\'limit\':5}', "
          ++ "'tool_calls': [{'id': 'call_1', 'type': 'function', "
          ++ "'function': {'name': 'fetch', 'arguments': '{}'}}]}}]}").

(** A model listing in the native format. *)
Definition native_listing : string :=
  Ref.dq "{'models': [{'name': 'llama3:8b'}, {'name': 'gpt-oss:20b'}]}".

(** The line is not empty and decodes to the chunk. *)
Definition decodes_to `{lib : PyLib} (line : string) (chunk : json) : Prop :=
  line <> "" /\ json_loads line = Some chunk.

(** The exception of each way [json.loads] fails. *)
Definition decoder_exception (f : decode_failure) : exn :=
  match f with
  | Malformed => JSONDecodeError
  | DigitLimit msg => ValueError msg
  | TooDeep => RecursionError
  end.

(** A stream of three lines, the second of which is a thousand nested
    lists. *)
Definition choked_stream : string :=
  Ref.dq "{'done': false}" ++ String MCP.LF
    (brackets 1000 "" ++ String MCP.LF (Ref.dq "{'done': true}")).

(** A stream of three lines, the second of which is no JSON. *)
Definition broken_stream : string :=
  Ref.dq "{'done': false}" ++ String MCP.LF
    ("data lost" ++ String MCP.LF (Ref.dq "{'done': true}")).

(** The structured call of [structured_completion]. *)
Definition fetch_call : json :=
  JObj [("id", JStr "call_1"); ("type", JStr "function");
        ("function", JObj [("name", JStr "fetch"); ("arguments", JStr "{}")])].

(** The message of [structured_completion]. *)
Definition structured_message : json :=
  JObj [("role", JStr "assistant");
        ("content", JStr (Ref.dq "{'q':'x','limit':5}"));
        ("tool_calls", JArr [fetch_call])].

(** The schema of the tool is one [get_tool_descriptions] reads to its
    end: a dict whose [properties], when present, is a dict of dicts and
    whose [required], when there are properties, is a list, a string or a
    dict. *)
Definition describable (t : MCP.MCPTool) : bool :=
  match MCP.input_schema t with
  | JObj s =>
      match value_or s "properties" (JObj []) with
      | JObj props =>
          forallb (fun kv => is_dict (snd kv)) props
          && match props, value_or s "required" (JArr []) with
             | [], _ => true
             | _, JArr _ => true
             | _, JStr _ => true
             | _, JObj _ => true
             | _, _ => false
             end
      | _ => false
      end
  | _ => false
  end.

(** The two lines that open the tool's entry in the prompt. *)
Definition entry_head (text_of : json -> string) (t : MCP.MCPTool) : string :=
  "Tool: " ++ Prompt.fstr text_of (MCP.name t) ++ Prompt.NL
  ++ "Description: " ++ Prompt.fstr text_of (MCP.description t) ++ Prompt.NL.

(** The text of parameters has a line for every property of the tool's
    schema. *)
Definition lists_properties (t : MCP.MCPTool) (parameters : string) : Prop :=
  forall props p,
    schema_properties (MCP.input_schema t) = Some props ->
    In p props ->
    PyStr.contains ("  - " ++ p ++ " (") parameters = true.

(** The description is the tool's: its name, its description, and a text
    of parameters, which has a line for every property of the schema and
    reads [No parameters] when the schema has none. *)
Definition describes (t : MCP.MCPTool) (d : json) : Prop :=
  exists parameters : string,
    d = JObj [("name", MCP.name t); ("description", MCP.description t);
              ("parameters", JStr parameters)]
    /\ (schema_properties (MCP.input_schema t) = Some [] ->
        parameters = "  No parameters")
    /\ lists_properties t parameters.

(** The tool's entry in the prompt. *)
Definition entry (text_of : json -> string) (t : MCP.MCPTool) (parameters : string)
  : string :=
  entry_head text_of t
  ++ "Parameters:" ++ Prompt.NL ++ parameters ++ Prompt.NL ++ Prompt.NL.

(** A tool cached from a listing that gave [null] as its [inputSchema]. *)
Definition mcp_ping : MCP.MCPTool :=
  {| MCP.name := JStr "ping"; MCP.description := JStr "Ping the server";
     MCP.input_schema := JNull |}.

(** [str(v)] for the values that are no [str] and whose text is not their
    [repr]: numbers apart. *)
Definition scalar_text (v : json) : string :=
  match v with
  | JNull => "None"
  | JBool true => "True"
  | JBool false => "False"
  | JInt z => PyStr.str_of_Z z
  | _ => ""
  end.

(** The other backend on the same client. *)
Definition with_backend (bk : string) (c : Ollama.OllamaClient)
  : Ollama.OllamaClient :=
  {| Ollama.base_url := Ollama.base_url c; Ollama.model := Ollama.model c;
     Ollama.temperature := Ollama.temperature c; Ollama.num_ctx := Ollama.num_ctx c;
     Ollama.timeout := Ollama.timeout c; Ollama.backend := bk |}.

(** The request [generate] sends when it does not stream. *)
Definition generate_request (c : Ollama.OllamaClient) (prompt : string)
    (kwargs : list (string * json)) : Request :=
  Ollama.post (Ollama.base_url c ++ "/api/generate")
              (Completion.generate_payload c prompt false kwargs).

(* ===================================================================== *)
(** * Theorems *)
(* ===================================================================== *)

#[local] Arguments String.append : simpl nomatch.

(** Unfold the monad's operations and reduce the matches this exposes. *)
Ltac run :=
  cbv beta iota zeta delta
    [bind get_self set_self ret lift raise try_except http MCP.modify fst snd].

(* ===================================================================== *)
(** * [call_tool]: the four outcomes of a decoded response *)
(* ===================================================================== *)

Section CallToolResult.

Variable kvs : list (string * json).

(** A JSON-RPC error object gives a failure with the error's message. *)
Lemma call_tool_result_error (e : list (string * json)) :
  dict_lookup "error" kvs = Some (JObj e) ->
  MCP.call_tool_result (JObj kvs)
  = Ok (MCP.failure (match dict_lookup "message" e with
                     | Some m => m
                     | None => JStr "Unknown error"
                     end)).
Proof.
  intros He. unfold MCP.call_tool_result. simpl. rewrite He. reflexivity.
Qed.

Variable result : list (string * json).
Hypothesis no_error : dict_lookup "error" kvs = None.
Hypothesis has_result : dict_lookup "result" kvs = Some (JObj result).

(** An [isError] flag gives a failure with the first content item's text,
    whatever items follow. *)
Lemma call_tool_result_is_error (flag : json) (item : list (string * json))
    (others : list json) :
  dict_lookup "isError" result = Some flag -> truthy flag = true ->
  dict_lookup "content" result = Some (JArr (JObj item :: others)) ->
  MCP.call_tool_result (JObj kvs)
  = Ok (MCP.failure (match dict_lookup "text" item with
                     | Some m => m
                     | None => JStr "Unknown error"
                     end)).
Proof.
  intros Hf Ht Hc. unfold MCP.call_tool_result. simpl.
  rewrite no_error, has_result. simpl. rewrite Hf, Ht. simpl.
  rewrite Hc. reflexivity.
Qed.

(** An [isError] flag with an empty content list raises [IndexError]. *)
Lemma call_tool_result_is_error_empty (flag : json) :
  dict_lookup "isError" result = Some flag -> truthy flag = true ->
  dict_lookup "content" result = Some (JArr []) ->
  MCP.call_tool_result (JObj kvs) = Raise IndexError.
Proof.
  intros Hf Ht Hc. unfold MCP.call_tool_result. simpl.
  rewrite no_error, has_result. simpl. rewrite Hf, Ht. simpl.
  rewrite Hc. reflexivity.
Qed.

Hypothesis not_flagged :
  match dict_lookup "isError" result with
  | Some flag => truthy flag = false
  | None => True
  end.

(** Content items give a success with the first item's text. *)
Lemma call_tool_result_success (item : list (string * json)) (others : list json) :
  dict_lookup "content" result = Some (JArr (JObj item :: others)) ->
  MCP.call_tool_result (JObj kvs)
  = Ok (MCP.success (match dict_lookup "text" item with
                     | Some m => m
                     | None => JStr ""
                     end)).
Proof.
  intros Hc. unfold MCP.call_tool_result. simpl.
  rewrite no_error, has_result. simpl.
  destruct (dict_lookup "isError" result) as [flag|]; simpl.
  - rewrite not_flagged. rewrite Hc. reflexivity.
  - rewrite Hc. reflexivity.
Qed.

(** An empty content list gives a success with the fixed marker. *)
Lemma call_tool_result_no_output :
  dict_lookup "content" result = Some (JArr []) ->
  MCP.call_tool_result (JObj kvs)
  = Ok (MCP.success (JStr "Tool executed successfully (no output)")).
Proof.
  intros Hc. unfold MCP.call_tool_result. simpl.
  rewrite no_error, has_result. simpl.
  destruct (dict_lookup "isError" result) as [flag|]; simpl.
  - rewrite not_flagged. rewrite Hc. reflexivity.
  - rewrite Hc. reflexivity.
Qed.

End CallToolResult.

(** C1 (the code departs from the specification).  On the decoded response
    [{"jsonrpc": "2.0", "id": 3, "result": {"isError": true, "content": []}}]
    [call_tool] does not return a failure dictionary: the subscript
    [result.get("content", [{}])[0]] raises [IndexError], which the
    [except httpx.HTTPError] clause lets through. *)
Theorem C1_call_tool_raises_on_flagged_empty_content :
  fst (MCP.call_tool (lib := Ref.lib)
         (Ref.always (Ref.dq
            "{'jsonrpc': '2.0', 'id': 3, 'result': {'isError': true, 'content': []}}"))
         "search" (JObj [("q", JStr "x")]) ready_world)
  = Raise IndexError.
Proof. vm_compute. reflexivity. Qed.

Section CallToolFailures.
Context `{lib : PyLib}.
Variable srv : Server.

(** A transport failure of the invoke request gives a failure with the
    error's text. *)
Lemma call_tool_transport_failure (w : World MCP.MCPClient) (tool_name : string)
    (arguments : json) (msg : string) :
  MCP.initialized (self w) = true ->
  srv (sent w) (call_tool_request (self w) tool_name arguments) = Failed msg ->
  fst (MCP.call_tool srv tool_name arguments w) = Ok (MCP.failure (JStr msg)).
Proof.
  unfold call_tool_request. intros Hi Hf.
  unfold MCP.call_tool. run. rewrite Hi. cbn [negb]. run.
  rewrite Hf. reflexivity.
Qed.

(** A failed handshake gives a failure and no invoke request. *)
Lemma call_tool_handshake_failure (w : World MCP.MCPClient) (tool_name : string)
    (arguments : json) (msg : string) :
  MCP.initialized (self w) = false ->
  srv (sent w) (initialize_request (self w)) = Failed msg ->
  MCP.call_tool srv tool_name arguments w
  = (Ok (MCP.failure (JStr "Failed to initialize MCP session")),
     {| self := self w; sent := sent w ++ [initialize_request (self w)] |}).
Proof.
  unfold initialize_request. intros Hi Hf.
  unfold MCP.call_tool, MCP.initialize. run. rewrite Hi. cbn [negb]. run.
  rewrite Hi. run. rewrite Hf. reflexivity.
Qed.

End CallToolFailures.
(* ===================================================================== *)
(** * Decoding SSE-framed bodies *)
(* ===================================================================== *)

Lemma string_of_list_ascii_app (a : list ascii) (s : string) :
  string_of_list_ascii (a ++ list_ascii_of_string s)%list
  = (string_of_list_ascii a ++ s)%string.
Proof.
  induction a as [|c a IH]; simpl.
  - apply string_of_list_ascii_of_string.
  - now rewrite IH.
Qed.

Lemma append_empty_r (s : string) : (s ++ "")%string = s.
Proof. induction s as [|c s IH]; [reflexivity|]. simpl. f_equal. exact IH. Qed.

Lemma startswith_app (p s : string) : PyStr.startswith p (p ++ s) = true.
Proof.
  unfold PyStr.startswith. induction p as [|c p IH]; simpl.
  - now destruct s.
  - destruct (ascii_dec c c) as [_|Hne]; [exact IH | now contradiction Hne].
Qed.

(** Splitting runs through a piece without separator and cuts after it. *)
Lemma split_aux_piece (sep : ascii) (p rest : string) :
  forall cur,
    PyStr.lacks sep p = true ->
    PyStr.split_aux sep cur (p ++ String sep rest)
    = (string_of_list_ascii (List.rev cur) ++ p)%string
      :: PyStr.split_aux sep [] rest.
Proof.
  induction p as [|c p IH]; intros cur Hl; simpl in *.
  - rewrite Ascii.eqb_refl.
    now rewrite append_empty_r.
  - apply andb_true_iff in Hl as [Hc Hl].
    apply negb_true_iff in Hc. rewrite Hc.
    rewrite (IH (c :: cur) Hl). f_equal. simpl.
    rewrite <- (string_of_list_ascii_app (List.rev cur ++ [c]) p).
    rewrite <- (string_of_list_ascii_app (List.rev cur) (String c p)).
    simpl. now rewrite <- app_assoc.
Qed.

(** The lines of [event: message\ndata: <p>\n<rest>]. *)
Lemma split_framed (p rest : string) :
  single_line p = true ->
  PyStr.split MCP.LF
    ("event: message" ++ String MCP.LF ("data: " ++ p ++ String MCP.LF rest))
  = "event: message" :: ("data: " ++ p)%string :: PyStr.split MCP.LF rest.
Proof.
  intros Hp. unfold PyStr.split.
  rewrite (split_aux_piece MCP.LF "event: message" _ [] eq_refl).
  f_equal.
  change ("data: " ++ p ++ String MCP.LF rest)%string
    with (("data: " ++ p) ++ String MCP.LF rest)%string.
  rewrite (split_aux_piece MCP.LF ("data: " ++ p) rest []); [reflexivity|].
  exact Hp.
Qed.

Section Decoding.
Context `{lib : PyLib}.

(** [list_tools] and [call_tool] read the first data line only: whatever
    follows it, data lines included, is ignored. *)
Lemma decode_body_first_data_line (p rest : string) :
  single_line p = true ->
  MCP.decode_body
    ("event: message" ++ String MCP.LF ("data: " ++ p ++ String MCP.LF rest))
  = loads p.
Proof.
  intros Hp. unfold MCP.decode_body.
  rewrite startswith_app. rewrite (split_framed p rest Hp).
  cbn [MCP.first_data_line].
  change (PyStr.startswith "data: " "event: message") with false.
  rewrite startswith_app. reflexivity.
Qed.

Lemma decode_body_bare (p : string) :
  PyStr.startswith "event: message" p = false ->
  MCP.decode_body p = loads p.
Proof. intros Hp. unfold MCP.decode_body. now rewrite Hp. Qed.

(** On a framed single-line payload the loop of [initialize] does what
    the bare branch does on the payload. *)
Lemma initialize_scan_framed (p : string) (w : World MCP.MCPClient) :
  single_line p = true ->
  MCP.initialize_scan (PyStr.split MCP.LF (sse_frame p)) w
  = bind (lift (loads p)) (fun data => MCP.accept data (ret false)) w.
Proof.
  intros Hp. unfold sse_frame. rewrite (split_framed p "" Hp).
  change (PyStr.split MCP.LF "") with [""].
  cbn [MCP.initialize_scan].
  change (PyStr.startswith "data: " "event: message") with false.
  rewrite startswith_app.
  change (PyStr.startswith "data: " "") with false.
  cbv iota. change (PyStr.drop 6 ("data: " ++ p)) with p.
  reflexivity.
Qed.

End Decoding.

Section Framing.
Context `{lib : PyLib}.
Variable p : string.
Hypothesis p_single_line : single_line p = true.
Hypothesis p_not_marker : PyStr.startswith "event: message" p = false.

Lemma decode_body_framed : MCP.decode_body (sse_frame p) = MCP.decode_body p.
Proof.
  unfold sse_frame.
  rewrite (decode_body_first_data_line p "" p_single_line).
  now rewrite (decode_body_bare p p_not_marker).
Qed.

Lemma initialize_framed (srv1 srv2 : Server) (w : World MCP.MCPClient)
    (hdrs : list (string * string)) :
  answers srv1 (sent w) (initialize_request (self w))
          {| rs_headers := hdrs; rs_text := sse_frame p |} ->
  answers srv2 (sent w) (initialize_request (self w))
          {| rs_headers := hdrs; rs_text := p |} ->
  MCP.initialize srv1 w = MCP.initialize srv2 w.
Proof.
  unfold answers, initialize_request. intros H1 H2.
  unfold MCP.initialize. run.
  destruct (MCP.initialized (self w)); [reflexivity|].
  run. rewrite H1, H2. run. cbn [rs_headers rs_text self sent].
  unfold sse_frame at 1. rewrite startswith_app, p_not_marker.
  fold (sse_frame p).
  destruct (header_get "mcp-session-id" hdrs) as [sid|];
    [destruct (negb (sid =? "")%string)|]; run;
    now rewrite initialize_scan_framed.
Qed.

Lemma list_tools_framed (srv1 srv2 : Server) (w : World MCP.MCPClient)
    (hdrs : list (string * string)) :
  MCP.initialized (self w) = true ->
  answers srv1 (sent w) (list_tools_request (self w))
          {| rs_headers := hdrs; rs_text := sse_frame p |} ->
  answers srv2 (sent w) (list_tools_request (self w))
          {| rs_headers := hdrs; rs_text := p |} ->
  MCP.list_tools srv1 w = MCP.list_tools srv2 w.
Proof.
  unfold answers, list_tools_request. intros Hi H1 H2.
  unfold MCP.list_tools. run. rewrite Hi. cbn [negb]. run.
  rewrite H1, H2. run. cbn [rs_text]. now rewrite decode_body_framed.
Qed.

Lemma call_tool_framed (srv1 srv2 : Server) (w : World MCP.MCPClient)
    (hdrs : list (string * string)) (tool_name : string) (arguments : json) :
  MCP.initialized (self w) = true ->
  answers srv1 (sent w) (call_tool_request (self w) tool_name arguments)
          {| rs_headers := hdrs; rs_text := sse_frame p |} ->
  answers srv2 (sent w) (call_tool_request (self w) tool_name arguments)
          {| rs_headers := hdrs; rs_text := p |} ->
  MCP.call_tool srv1 tool_name arguments w = MCP.call_tool srv2 tool_name arguments w.
Proof.
  unfold answers, call_tool_request. intros Hi H1 H2.
  unfold MCP.call_tool. run. rewrite Hi. cbn [negb]. run.
  rewrite H1, H2. run. cbn [rs_text]. now rewrite decode_body_framed.
Qed.

End Framing.

(** C2 (amended).  [list_tools] and [call_tool] decode an SSE-framed body
    from its first ['data: '] line alone and ignore whatever follows it,
    later data lines included.  For every payload text [p] of one line (a
    JSON text is one when it holds no line feed; it never begins with the
    event marker), the body [event: message\ndata: p\n] is treated by each
    of the three operations as the bare body [p] is: the two decode to the
    same value or to the same error, and [initialize], [list_tools] and
    [call_tool] end in the same result and the same state. *)
Theorem C2_single_line_frame_decodes_as_bare `{lib : PyLib} (p : string) :
  single_line p = true ->
  PyStr.startswith "event: message" p = false ->
  (forall rest,
      MCP.decode_body
        ("event: message" ++ String MCP.LF ("data: " ++ p ++ String MCP.LF rest))
      = loads p)
  /\ MCP.decode_body (sse_frame p) = MCP.decode_body p
  /\ (forall srv1 srv2 w hdrs,
        answers srv1 (sent w) (initialize_request (self w))
                {| rs_headers := hdrs; rs_text := sse_frame p |} ->
        answers srv2 (sent w) (initialize_request (self w))
                {| rs_headers := hdrs; rs_text := p |} ->
        MCP.initialize srv1 w = MCP.initialize srv2 w)
  /\ (forall srv1 srv2 w hdrs,
        MCP.initialized (self w) = true ->
        answers srv1 (sent w) (list_tools_request (self w))
                {| rs_headers := hdrs; rs_text := sse_frame p |} ->
        answers srv2 (sent w) (list_tools_request (self w))
                {| rs_headers := hdrs; rs_text := p |} ->
        MCP.list_tools srv1 w = MCP.list_tools srv2 w)
  /\ (forall srv1 srv2 w hdrs tool_name arguments,
        MCP.initialized (self w) = true ->
        answers srv1 (sent w) (call_tool_request (self w) tool_name arguments)
                {| rs_headers := hdrs; rs_text := sse_frame p |} ->
        answers srv2 (sent w) (call_tool_request (self w) tool_name arguments)
                {| rs_headers := hdrs; rs_text := p |} ->
        MCP.call_tool srv1 tool_name arguments w
        = MCP.call_tool srv2 tool_name arguments w).
Proof.
  intros Hp Hm. repeat split.
  - intros rest. now apply decode_body_first_data_line.
  - now apply decode_body_framed.
  - intros. now apply (initialize_framed p Hp Hm srv1 srv2 w hdrs).
  - intros. now apply (list_tools_framed p Hp Hm srv1 srv2 w hdrs).
  - intros. now apply (call_tool_framed p Hp Hm srv1 srv2 w hdrs).
Qed.

(** The body [event: message\ndata: {"result":{}}\n] decodes as the bare
    body [{"result":{}}] does, to the value [{"result": {}}]. *)
Lemma C2_witness :
  single_line (Ref.dq "{'result':{}}") = true
  /\ PyStr.startswith "event: message" (Ref.dq "{'result':{}}") = false
  /\ MCP.decode_body (lib := Ref.lib) (sse_frame (Ref.dq "{'result':{}}"))
     = MCP.decode_body (lib := Ref.lib) (Ref.dq "{'result':{}}")
  /\ MCP.decode_body (lib := Ref.lib) (Ref.dq "{'result':{}}")
     = Ok (JObj [("result", JObj [])]).
Proof.
  split; [reflexivity|]. split; [reflexivity|]. split.
  - apply (C2_single_line_frame_decodes_as_bare (lib := Ref.lib)
             (Ref.dq "{'result':{}}")); reflexivity.
  - reflexivity.
Defined.

(** C2 as stated fails twice.  A JSON payload that spans two lines decodes
    when it is the bare body and is cut at its line feed when it is
    framed; and [initialize] does not stop at the first data line: a body
    whose first data line carries an error and whose second does not
    initializes the session, where the first data line alone does not. *)
Lemma C2_counterexample :
  (json_loads (PyLib := Ref.lib) two_line_payload = Some (JObj [])
   /\ MCP.decode_body (lib := Ref.lib) two_line_payload = Ok (JObj [])
   /\ MCP.decode_body (lib := Ref.lib) (sse_frame two_line_payload)
      = Raise JSONDecodeError)
  /\ (fst (MCP.initialize (lib := Ref.lib) (Ref.always one_data_line) new_world)
      = Ok false
      /\ fst (MCP.initialize (lib := Ref.lib) (Ref.always two_data_lines) new_world)
         = Ok true
      /\ exists data,
           MCP.decode_body (lib := Ref.lib) two_data_lines = Ok (JObj data)
           /\ dict_lookup "error" data = Some (JObj [("message", JStr "busy")])).
Proof.
  split; [repeat split; vm_compute; reflexivity|].
  split; [vm_compute; reflexivity|].
  split; [vm_compute; reflexivity|].
  eexists. split; vm_compute; reflexivity.
Qed.

(** The reference decoder rejects every text that begins with the letter
    [e]: a body it decodes is never taken for an SSE frame. *)
Lemma ref_decode_rejects_event (s : string) :
  json_loads (PyLib := Ref.lib) (String "e" s) = None.
Proof.
  cbn [json_loads Ref.lib]. unfold Ref.decode.
  cbn [list_ascii_of_string List.length Ref.read_value].
  reflexivity.
Qed.

(* ===================================================================== *)
(** * The tool catalog *)
(* ===================================================================== *)

Lemma key_of_name (t : MCP.MCPTool) (k : string) :
  key_of t = Some k <-> MCP.name t = JStr k.
Proof.
  unfold key_of. destruct (MCP.name t); split; intros E; congruence.
Qed.

Lemma cache_all_app (xs ys : list MCP.MCPTool) (m : gmap string MCP.MCPTool) :
  cache_all (xs ++ ys) m = cache_all ys (cache_all xs m).
Proof.
  revert m. induction xs as [|t xs IH]; intros m; simpl; [reflexivity|].
  destruct (key_of t); apply IH.
Qed.

(** A key no cached tool is named by keeps its entry. *)
Lemma cache_all_lookup_other (ts : list MCP.MCPTool) (k : string) :
  forall m : gmap string MCP.MCPTool,
    (forall t, t ∈ ts -> MCP.name t <> JStr k) ->
    cache_all ts m !! k = m !! k.
Proof.
  induction ts as [|t ts IH]; intros m Hk; simpl; [reflexivity|].
  assert (Ht : MCP.name t <> JStr k) by (apply Hk; left).
  assert (Hts : forall t', t' ∈ ts -> MCP.name t' <> JStr k)
    by (intros t' Hin; apply Hk; now right).
  destruct (key_of t) as [k'|] eqn:Ek; rewrite (IH _ Hts); [|reflexivity].
  apply lookup_insert_ne. intros ->. apply Ht. now apply key_of_name.
Qed.

(** Caching never drops a key. *)
Lemma cache_all_is_Some (ts : list MCP.MCPTool) (k : string) :
  forall m : gmap string MCP.MCPTool,
    is_Some (m !! k) -> is_Some (cache_all ts m !! k).
Proof.
  induction ts as [|t ts IH]; intros m Hm; simpl; [exact Hm|].
  destruct (key_of t) as [k'|]; apply IH; [|exact Hm].
  destruct (decide (k' = k)) as [->|Hne].
  - rewrite lookup_insert_eq. eauto.
  - now rewrite lookup_insert_ne.
Qed.

(** Where an entry of the catalog comes from: it was there before, or it
    is a tool of the list, cached under its name. *)
Lemma cache_all_origin (ts : list MCP.MCPTool) (k : string) :
  forall (m : gmap string MCP.MCPTool) (x : MCP.MCPTool),
    cache_all ts m !! k = Some x ->
    m !! k = Some x \/ (x ∈ ts /\ MCP.name x = JStr k).
Proof.
  induction ts as [|u ts IH]; intros m x Hl; simpl in Hl; [now left|].
  destruct (key_of u) as [k'|] eqn:Ek;
    (destruct (IH _ _ Hl) as [Hm|[Hin Hn]];
     [|right; split; [now right | exact Hn]]); [|now left].
  destruct (decide (k' = k)) as [->|Hne].
  - rewrite lookup_insert_eq in Hm. inversion Hm; subst.
    right. split; [now left | now apply key_of_name].
  - rewrite lookup_insert_ne in Hm by exact Hne. now left.
Qed.

(** Every cached tool leaves, under its name, a tool of the list with
    that name. *)
Lemma cache_all_cached (ts : list MCP.MCPTool) (t : MCP.MCPTool) (k : string) :
  forall m : gmap string MCP.MCPTool,
    t ∈ ts -> MCP.name t = JStr k ->
    exists t', t' ∈ ts /\ MCP.name t' = JStr k /\ cache_all ts m !! k = Some t'.
Proof.
  induction ts as [|u ts IH]; intros m Hin Hn; [inversion Hin|].
  apply elem_of_cons in Hin as [->|Hin].
  - simpl. apply key_of_name in Hn as Hk. rewrite Hk.
    destruct (cache_all_is_Some ts k (<[k := u]> m)) as [x Hx];
      [rewrite lookup_insert_eq; eauto|].
    exists x. destruct (cache_all_origin ts k _ x Hx) as [Hm|[Hin' Hn']].
    + rewrite lookup_insert_eq in Hm. inversion Hm; subst.
      repeat split; [now left | exact Hn | exact Hx].
    + repeat split; [now right | exact Hn' | exact Hx].
  - simpl. destruct (key_of u) as [k'|];
      [destruct (IH (<[k' := u]> m) Hin Hn) as (t' & ? & ? & ?)
      |destruct (IH m Hin Hn) as (t' & ? & ? & ?)];
      exists t'; repeat split; try assumption; now right.
Qed.

(** Caching keeps every entry under its own name. *)
Lemma cache_all_keyed (ts : list MCP.MCPTool) :
  forall m : gmap string MCP.MCPTool,
    keyed_by_name m -> keyed_by_name (cache_all ts m).
Proof.
  induction ts as [|t ts IH]; intros m Hm; simpl; [exact Hm|].
  destruct (key_of t) as [k|] eqn:Ek; apply IH; [|exact Hm].
  intros k' t' Hl. destruct (decide (k = k')) as [->|Hne].
  - rewrite lookup_insert_eq in Hl. inversion Hl; subst.
    now apply key_of_name.
  - rewrite lookup_insert_ne in Hl by exact Hne. now apply Hm.
Qed.

(** Tools with pairwise distinct names, none of them cached yet, add one
    entry each. *)
Lemma cache_all_size (ts : list MCP.MCPTool) :
  forall m : gmap string MCP.MCPTool,
    Forall (fun t => is_Some (key_of t)) ts ->
    NoDup (map MCP.name ts) ->
    (forall t k, t ∈ ts -> MCP.name t = JStr k -> m !! k = None) ->
    size (cache_all ts m) = (size m + length ts)%nat.
Proof.
  induction ts as [|t ts IH]; intros m Hk Hnd Hfresh; simpl; [lia|].
  inversion Hk as [|? ? [k Ek] Hk']; subst.
  inversion Hnd as [|? ? Hnotin Hnd']; subst.
  rewrite Ek. rewrite IH; [| exact Hk' | exact Hnd' |].
  - rewrite map_size_insert_None; [lia|].
    apply (Hfresh t k); [now left | now apply key_of_name].
  - intros t' k' Hin' Hn'. rewrite lookup_insert_ne.
    + apply (Hfresh t' k'); [now right | exact Hn'].
    + intros ->. apply Hnotin. apply key_of_name in Ek.
      rewrite Ek, <- Hn'. apply list_elem_of_In, in_map, list_elem_of_In, Hin'.
Qed.

Section KeepsTools.
Context {A B : Type}.

Lemma keeps_tools_ret (a : A) : keeps_tools (ret a).
Proof. intros w. reflexivity. Qed.

Lemma keeps_tools_raise (e : exn) : keeps_tools (raise (A := A) e).
Proof. intros w. reflexivity. Qed.

Lemma keeps_tools_lift (r : res A) : keeps_tools (lift r).
Proof. intros w. reflexivity. Qed.

Lemma keeps_tools_bind (m : M MCP.MCPClient A) (k : A -> M MCP.MCPClient B) :
  keeps_tools m -> (forall a, keeps_tools (k a)) -> keeps_tools (bind m k).
Proof.
  intros Hm Hk w. unfold bind. specialize (Hm w).
  destruct (m w) as [[a|e] w1]; simpl in *; [|exact Hm].
  now rewrite (Hk a w1).
Qed.

Lemma keeps_tools_try (m : M MCP.MCPClient A) (catches : exn -> bool)
    (handler : exn -> M MCP.MCPClient A) :
  keeps_tools m -> (forall e, keeps_tools (handler e)) ->
  keeps_tools (try_except m catches handler).
Proof.
  intros Hm Hh w. unfold try_except. specialize (Hm w).
  destruct (m w) as [[a|e] w1]; simpl in *; [exact Hm|].
  destruct (catches e); [|exact Hm]. now rewrite (Hh e w1).
Qed.

End KeepsTools.

Lemma keeps_tools_http (srv : Server) (rq : Request) :
  keeps_tools (http (S := MCP.MCPClient) srv rq).
Proof. intros w. unfold http. now destruct (srv (sent w) rq). Qed.

Lemma keeps_tools_get_self : keeps_tools get_self.
Proof. intros w. reflexivity. Qed.

Lemma keeps_tools_set_initialized (b : bool) :
  keeps_tools (MCP.modify (MCP.set_initialized b)).
Proof. intros w. reflexivity. Qed.

Lemma keeps_tools_set_session_id (s : string) :
  keeps_tools (MCP.modify (MCP.set_session_id s)).
Proof. intros w. reflexivity. Qed.

Create HintDb keeps.
#[local] Hint Resolve keeps_tools_ret keeps_tools_raise keeps_tools_lift
  keeps_tools_http keeps_tools_get_self keeps_tools_set_initialized
  keeps_tools_set_session_id : keeps.

Ltac keeps :=
  repeat first
    [ progress auto with keeps
    | apply keeps_tools_bind; [|intros ?]
    | apply keeps_tools_try; [|intros ?]
    | match goal with
      | |- keeps_tools (if ?b then _ else _) => destruct b
      | |- keeps_tools (match ?o with Some _ => _ | None => _ end) => destruct o
      end ].

(** How a sequence ends: the first part returned and the second ran from
    the state it left, or the first part raised. *)
Lemma bind_inv {S A B} (m : M S A) (k : A -> M S B) (w : World S)
    (r : res B) (w' : World S) :
  bind m k w = (r, w') ->
  (exists a w1, m w = (Ok a, w1) /\ k a w1 = (r, w'))
  \/ (exists e, m w = (Raise e, w') /\ r = Raise e).
Proof.
  unfold bind. destruct (m w) as [[a|e] w1]; intros E.
  - left. eauto.
  - right. inversion E; subst. eauto.
Qed.

(** The run ended in an exception before any tool was cached. *)
Ltac nothing_cached :=
  intros E; inversion E; subst; exists []; split;
  solve [discriminate | reflexivity].

Section CatalogEffect.
Context `{lib : PyLib}.
Variable srv : Server.

Lemma keeps_tools_accept (data : json) (otherwise : M MCP.MCPClient bool) :
  keeps_tools otherwise -> keeps_tools (MCP.accept data otherwise).
Proof. intros Ho. unfold MCP.accept. keeps. Qed.

Lemma keeps_tools_initialize_scan (lines : list string) :
  keeps_tools (MCP.initialize_scan lines).
Proof.
  induction lines as [|line rest IH]; simpl; [keeps|].
  destruct (PyStr.startswith "data: " line); [|exact IH].
  keeps.
Qed.

(** [initialize] does not touch the catalog. *)
Lemma keeps_tools_initialize : keeps_tools (MCP.initialize srv).
Proof.
  unfold MCP.initialize. keeps.
  apply keeps_tools_initialize_scan.
Qed.

#[local] Hint Resolve keeps_tools_initialize : keeps.

(** The loop of [list_tools] caches, one after the other, the tools it
    builds, up to the item on which it raises, if it does. *)
Lemma load_tools_effect (items : list json) :
  forall acc w r w',
    MCP.load_tools items acc w = (r, w') ->
    exists cached,
      MCP.tools (self w') = cache_all cached (MCP.tools (self w))
      /\ (forall ts, r = Ok ts -> ts = (acc ++ cached)%list).
Proof.
  induction items as [|tool_data rest IH]; intros acc w r w' Hrun.
  - inversion Hrun; subst. exists []. split; [reflexivity|].
    intros ts E. inversion E. now rewrite app_nil_r.
  - simpl in Hrun. revert Hrun. run.
    destruct (py_getitem tool_data "name") as [n|e]; run; [|nothing_cached].
    destruct (py_getitem tool_data "description") as [d|e]; run;
      [|nothing_cached].
    destruct (py_getitem tool_data "inputSchema") as [s|e]; run;
      [|nothing_cached].
    unfold MCP.cache_tool. cbn [MCP.name].
    destruct n as [| | | |key| |]; run; try nothing_cached;
      (intros Hrun; apply IH in Hrun as (cached & Ht & Hr);
       match type of Hr with
       | context [(acc ++ [?tool])%list] => exists (tool :: cached)
       end;
       split; [exact Ht|];
       intros ts E; rewrite (Hr ts E); now rewrite <- app_assoc).
Qed.

(** [list_tools] caches the tools it builds and removes nothing; when it
    returns, the list it returns is the list of the tools it cached. *)
Lemma list_tools_effect (w : World MCP.MCPClient) (r : res (list MCP.MCPTool))
    (w' : World MCP.MCPClient) :
  MCP.list_tools srv w = (r, w') ->
  exists cached,
    MCP.tools (self w') = cache_all cached (MCP.tools (self w))
    /\ (forall ts, r = Ok ts -> ts = cached).
Proof.
  unfold MCP.list_tools. intros Hrun.
  apply bind_inv in Hrun as [(c & w0 & Hc & Hrun)|(e & He & _)];
    [|discriminate He].
  inversion Hc; subst c w0; clear Hc.
  apply bind_inv in Hrun as [([] & w1 & Hprep & Hrun)|(e & Hprep & ->)];
    match type of Hprep with
    | ?prepare w = _ =>
        assert (Hkeep : keeps_tools prepare)
          by keeps;
        specialize (Hkeep w); rewrite Hprep in Hkeep; simpl in Hkeep
    end;
    [|exists []; split; [exact Hkeep | discriminate]].
  rewrite <- Hkeep. clear Hkeep Hprep. revert Hrun. run.
  destruct (srv (sent w1) _) as [msg|response]; run; [nothing_cached|].
  destruct (MCP.decode_body (rs_text response)) as [data|e]; run;
    [|destruct (is_HTTPError e); nothing_cached].
  destruct (py_contains "error" data) as [[|]|e]; run.
  - destruct (py_getitem data "error") as [err|e]; run;
      [destruct (py_get err "message" (JStr "Unknown error")) as [m|e]; run|];
      try destruct (is_HTTPError e); nothing_cached.
  - destruct (py_get data "result" (JObj [])) as [result|e]; run;
      [|destruct (is_HTTPError e); nothing_cached].
    destruct (py_get result "tools" (JArr [])) as [listed|e]; run;
      [|destruct (is_HTTPError e); nothing_cached].
    destruct (py_iter listed) as [items|e]; run;
      [|destruct (is_HTTPError e); nothing_cached].
    destruct (MCP.load_tools items [] _) as [r1 w2] eqn:Hload.
    apply load_tools_effect in Hload as (cached & Ht & Hr).
    simpl in Ht.
    destruct r1 as [ts1|e]; [|destruct (is_HTTPError e)];
      intros E; inversion E; subst; exists cached; split;
      solve [assumption | discriminate].
  - destruct (is_HTTPError e); nothing_cached.
Qed.

End CatalogEffect.

(** C3 (amended).  After every successful [list_tools] call the catalog
    is the one it was before with the returned tools cached on top, one
    after the other, each under its name: under the name of every returned
    tool a returned tool of that name is cached; every entry is cached
    under its own name field if that held before the call; and the number
    of cached entries equals the returned list's length when the catalog
    was empty before the call and the returned names are strings and
    pairwise distinct. *)
Theorem C3_list_tools_caches_returned_tools `{lib : PyLib} (srv : Server)
    (w : World MCP.MCPClient) (ts : list MCP.MCPTool) (w' : World MCP.MCPClient) :
  MCP.list_tools srv w = (Ok ts, w') ->
  MCP.tools (self w') = cache_all ts (MCP.tools (self w))
  /\ (forall t k, t ∈ ts -> MCP.name t = JStr k ->
        exists t', t' ∈ ts /\ MCP.name t' = JStr k
                   /\ MCP.tools (self w') !! k = Some t')
  /\ (keyed_by_name (MCP.tools (self w)) -> keyed_by_name (MCP.tools (self w')))
  /\ (MCP.tools (self w) = ∅ ->
      Forall (fun t => is_Some (key_of t)) ts ->
      NoDup (map MCP.name ts) ->
      size (MCP.tools (self w')) = length ts).
Proof.
  intros Hrun.
  destruct (list_tools_effect srv w _ w' Hrun) as (cached & Ht & Hr).
  rewrite (Hr ts eq_refl). rewrite Ht. repeat split.
  - intros t k Hin Hn. now apply cache_all_cached with (t := t).
  - apply cache_all_keyed.
  - intros Hempty Hk Hnd. rewrite Hempty.
    rewrite (cache_all_size cached ∅ Hk Hnd); [now rewrite map_size_empty|].
    intros. apply lookup_empty.
Qed.

(** A first listing of [search] and [fetch] by a fresh session caches two
    entries. *)
Lemma C3_witness :
  fst (MCP.list_tools (lib := Ref.lib) (Ref.always both_listing) ready_world)
  = Ok [mcp_search; mcp_fetch]
  /\ size (MCP.tools (self (snd (MCP.list_tools (lib := Ref.lib)
                                   (Ref.always both_listing) ready_world))))
     = 2%nat.
Proof.
  assert (E : fst (MCP.list_tools (lib := Ref.lib) (Ref.always both_listing)
                     ready_world) = Ok [mcp_search; mcp_fetch])
    by (vm_compute; reflexivity).
  split; [exact E|].
  destruct (MCP.list_tools (lib := Ref.lib) (Ref.always both_listing) ready_world)
    as [r w'] eqn:Hrun.
  simpl in E. subst r. simpl.
  apply (C3_list_tools_caches_returned_tools (lib := Ref.lib)
           (Ref.always both_listing) ready_world _ w' Hrun).
  - reflexivity.
  - repeat constructor; simpl; eauto.
  - repeat constructor; intros Hin;
      repeat (apply elem_of_cons in Hin as [Hin|Hin]; [discriminate Hin|]);
      inversion Hin.
Defined.

(** C3 as stated fails: the catalog is not the returned set.  Against a
    server that lists [search] first and [fetch] afterwards, the second
    call returns the one tool [fetch] and leaves two entries cached,
    [search] among them. *)
Lemma C3_counterexample :
  fst (MCP.list_tools (lib := Ref.lib) changing_server after_first_listing)
  = Ok [mcp_fetch]
  /\ size (MCP.tools (self (snd (MCP.list_tools (lib := Ref.lib) changing_server
                                   after_first_listing)))) = 2%nat
  /\ MCP.tools (self (snd (MCP.list_tools (lib := Ref.lib) changing_server
                             after_first_listing))) !! "search"
     = Some mcp_search.
Proof. repeat split; vm_compute; reflexivity. Qed.

(** C9.  [list_tools] never removes catalog entries.  However the call
    ends, a name that was cached is still cached afterwards; and when the
    call returns, every entry whose name is not the name of a returned tool
    is still there unchanged. *)
Theorem C9_list_tools_never_removes `{lib : PyLib} (srv : Server)
    (w : World MCP.MCPClient) (r : res (list MCP.MCPTool))
    (w' : World MCP.MCPClient) (k : string) (t : MCP.MCPTool) :
  MCP.list_tools srv w = (r, w') ->
  MCP.tools (self w) !! k = Some t ->
  is_Some (MCP.tools (self w') !! k)
  /\ (forall ts, r = Ok ts ->
        (forall t', t' ∈ ts -> MCP.name t' <> JStr k) ->
        MCP.tools (self w') !! k = Some t).
Proof.
  intros Hrun Hk.
  destruct (list_tools_effect srv w r w' Hrun) as (cached & Ht & Hr).
  rewrite Ht. split.
  - apply cache_all_is_Some. rewrite Hk. eauto.
  - intros ts E Hother. rewrite (Hr ts E) in Hother.
    now rewrite (cache_all_lookup_other cached k _ Hother).
Qed.

(** After [search] was cached, a listing that names only [fetch] leaves
    the entry of [search] as it was. *)
Lemma C9_witness :
  MCP.tools (self after_first_listing) !! "search" = Some mcp_search
  /\ fst (MCP.list_tools (lib := Ref.lib) changing_server after_first_listing)
     = Ok [mcp_fetch]
  /\ MCP.tools (self (snd (MCP.list_tools (lib := Ref.lib) changing_server
                             after_first_listing))) !! "search"
     = Some mcp_search.
Proof.
  assert (Hk : MCP.tools (self after_first_listing) !! "search" = Some mcp_search)
    by (vm_compute; reflexivity).
  assert (E : fst (MCP.list_tools (lib := Ref.lib) changing_server
                     after_first_listing) = Ok [mcp_fetch])
    by (vm_compute; reflexivity).
  split; [exact Hk|]. split; [exact E|].
  destruct (MCP.list_tools (lib := Ref.lib) changing_server after_first_listing)
    as [r w'] eqn:Hrun.
  simpl in E. simpl.
  apply (proj2 (C9_list_tools_never_removes (lib := Ref.lib) changing_server
                  after_first_listing r w' "search" mcp_search Hrun Hk)
           [mcp_fetch] E).
  intros t' Hin. apply elem_of_cons in Hin as [->|Hin]; [discriminate|].
  inversion Hin.
Defined.

(* ===================================================================== *)
(** * The tool-call recovery heuristic *)
(* ===================================================================== *)

(** ** Strategy 1 *)

(** Case analysis on the lookups and on the truth values of what they find. *)
Ltac by_cases_on_values :=
  repeat match goal with
         | |- context [dict_lookup ?k ?kvs] => destruct (dict_lookup k kvs) eqn:?
         end;
  simpl;
  repeat match goal with
         | |- context [truthy ?v] => is_var v; destruct (truthy v) eqn:?; simpl
         end;
  congruence.

Lemma first_truthy_or2 (kvs : list (string * json)) (k1 k2 : string) :
  first_truthy [k1; k2] kvs
  = let v := py_or (value_at kvs k1) (value_at kvs k2) in
    if truthy v then Some v else None.
Proof. unfold py_or, value_at. simpl. by_cases_on_values. Qed.

Lemma first_truthy_or3 (kvs : list (string * json)) (k1 k2 k3 : string) :
  first_truthy [k1; k2; k3] kvs
  = let v := py_or (py_or (value_at kvs k1) (value_at kvs k2)) (value_at kvs k3) in
    if truthy v then Some v else None.
Proof. unfold py_or, value_at. simpl. by_cases_on_values. Qed.

Section Heuristic.
Context `{lib : PyLib}.

(** Strategy 1 fires exactly when a truthy tool name and truthy arguments
    are found under the alias keys, and adopts the two. *)
Lemma explicit_call_spec (kvs : list (string * json)) :
  Ollama.explicit_call (JObj kvs)
  = Ok (match first_truthy name_aliases kvs, first_truthy argument_aliases kvs with
        | Some tool_name, Some arguments =>
            Some (Ollama.tool_call (JObj kvs) tool_name
                                   (Ollama.arguments_text arguments))
        | _, _ => None
        end).
Proof.
  unfold Ollama.explicit_call, name_aliases, argument_aliases.
  rewrite first_truthy_or3, first_truthy_or2. simpl.
  fold (value_at kvs "tool") (value_at kvs "name") (value_at kvs "function")
       (value_at kvs "arguments") (value_at kvs "params").
  destruct (truthy (py_or (py_or (value_at kvs "tool") (value_at kvs "name"))
                          (value_at kvs "function")));
    destruct (truthy (py_or (value_at kvs "arguments") (value_at kvs "params")));
    reflexivity.
Qed.

Lemma first_truthy_lacks (keys : list string) (kvs : list (string * json)) :
  lacks_keys keys kvs -> first_truthy keys kvs = None.
Proof.
  induction keys as [|k keys IH]; intros Hl; simpl; [reflexivity|].
  rewrite (Hl k) by now left. apply IH. intros k' Hin. apply Hl. now right.
Qed.

(** ** Strategy 2 *)

(** The size of the intersection of the two key sets is the number of
    distinct keys of the first list that occur in the second. *)
Lemma overlap_shared_keys (a b : list string) :
  Ollama.overlap a b = shared_keys a b.
Proof.
  unfold Ollama.overlap, shared_keys. f_equal.
  set (l := List.filter (fun k => existsb (String.eqb k) b) (remove_dups a)).
  assert (Hnd : NoDup l).
  { unfold l. apply NoDup_ListNoDup, List.NoDup_filter, NoDup_ListNoDup,
      NoDup_remove_dups. }
  assert (Hset : (list_to_set a : gset string) ∩ list_to_set b = list_to_set l).
  { apply set_eq. intros x.
    rewrite elem_of_intersection, !elem_of_list_to_set. unfold l. split.
    - intros [Ha Hb]. apply list_elem_of_In, List.filter_In. split.
      + apply list_elem_of_In. now rewrite elem_of_remove_dups.
      + apply existsb_exists. exists x.
        split; [now apply list_elem_of_In | apply String.eqb_refl].
    - intros H. apply list_elem_of_In, List.filter_In in H as [Ha Hb].
      apply list_elem_of_In in Ha. rewrite elem_of_remove_dups in Ha.
      apply existsb_exists in Hb as (y & Hy & Heq).
      apply String.eqb_eq in Heq. subst y.
      split; [exact Ha | now apply list_elem_of_In]. }
  rewrite Hset. now apply size_list_to_set.
Qed.

Lemma score_of_well_formed (kvs : list (string * json)) (tool : json) :
  well_formed_tool tool = true ->
  Ollama.score_of (JObj kvs) tool = Ok (overlap_count kvs tool).
Proof.
  unfold well_formed_tool, Ollama.score_of, Ollama.tool_properties,
    overlap_count, properties_of_tool.
  destruct tool as [| | | | | |t]; try discriminate. simpl.
  destruct (dict_lookup "function" t) as [[| | | | | |f]|]; try discriminate;
    simpl; [|now rewrite overlap_shared_keys].
  destruct (dict_lookup "parameters" f) as [[| | | | | |p]|]; try discriminate;
    simpl; [|now rewrite overlap_shared_keys].
  destruct (dict_lookup "properties" p) as [[| | | | | |props]|];
    try discriminate; simpl; now rewrite overlap_shared_keys.
Qed.

Lemma tool_name_of_well_formed (tool : json) :
  well_formed_tool tool = true ->
  Ollama.tool_name_of tool = Ok (name_of_tool tool).
Proof.
  unfold well_formed_tool, Ollama.tool_name_of, name_of_tool.
  destruct tool as [| | | | | |t]; try discriminate. simpl.
  destruct (dict_lookup "function" t) as [[| | | | | |f]|]; try discriminate;
    simpl; [|reflexivity].
  now destruct (dict_lookup "name" f).
Qed.

Variable kvs : list (string * json).

(** One turn of the loop on a well-formed tool. *)
Lemma best_match_loop_cons (tool : json) (rest : list json) (bm : json) (bs : Z) :
  well_formed_tool tool = true ->
  Ollama.best_match_loop (JObj kvs) (tool :: rest) bm bs
  = if overlap_count kvs tool >? bs
    then Ollama.best_match_loop (JObj kvs) rest (name_of_tool tool)
                                (overlap_count kvs tool)
    else Ollama.best_match_loop (JObj kvs) rest bm bs.
Proof.
  intros Hwf. simpl. rewrite (score_of_well_formed kvs tool Hwf). simpl.
  destruct (overlap_count kvs tool >? bs); [|reflexivity].
  now rewrite (tool_name_of_well_formed tool Hwf).
Qed.

(** Tools that do not beat the best score leave the state alone. *)
Lemma best_match_loop_no_update (tools : list json) (bm : json) (bs : Z) :
  Forall (fun t => well_formed_tool t = true) tools ->
  (forall t, In t tools -> overlap_count kvs t <= bs) ->
  Ollama.best_match_loop (JObj kvs) tools bm bs = Ok (bm, bs).
Proof.
  induction tools as [|tool rest IH]; intros Hwf Hle; [reflexivity|].
  inversion Hwf as [|? ? Ht Hrest]; subst.
  rewrite (best_match_loop_cons tool rest bm bs Ht).
  assert (Hs : overlap_count kvs tool <= bs) by (apply Hle; now left).
  destruct (Z.gtb_spec (overlap_count kvs tool) bs) as [Hgt|_]; [lia|].
  apply IH; [exact Hrest|]. intros t Hin. apply Hle. now right.
Qed.

(** Tools that stay below a bound leave the best score below it. *)
Lemma best_match_loop_below (tools : list json) (bound : Z) :
  forall (bm : json) (bs : Z),
    Forall (fun t => well_formed_tool t = true) tools ->
    bs < bound ->
    (forall t, In t tools -> overlap_count kvs t < bound) ->
    forall rest,
    exists bm' bs',
      bs' < bound
      /\ Ollama.best_match_loop (JObj kvs) (tools ++ rest) bm bs
         = Ollama.best_match_loop (JObj kvs) rest bm' bs'.
Proof.
  induction tools as [|tool tools IH]; intros bm bs Hwf Hbs Hlt rest.
  - exists bm, bs. split; [exact Hbs | reflexivity].
  - inversion Hwf as [|? ? Ht Htools]; subst.
    change ((tool :: tools) ++ rest)%list with (tool :: (tools ++ rest))%list.
    rewrite (best_match_loop_cons tool (tools ++ rest) bm bs Ht).
    assert (Hs : overlap_count kvs tool < bound) by (apply Hlt; now left).
    assert (Hin : forall t, In t tools -> overlap_count kvs t < bound)
      by (intros t Hin; apply Hlt; now right).
    destruct (overlap_count kvs tool >? bs).
    + apply (IH _ _ Htools Hs Hin).
    + apply (IH _ _ Htools Hbs Hin).
Qed.


(** The first tool with the highest overlap, when that overlap is
    positive, is the best match. *)
Lemma best_match_loop_winner (before : list json) (winner : json)
    (after : list json) :
  Forall (fun t => well_formed_tool t = true) (before ++ winner :: after) ->
  0 < overlap_count kvs winner ->
  (forall t, In t before -> overlap_count kvs t < overlap_count kvs winner) ->
  (forall t, In t after -> overlap_count kvs t <= overlap_count kvs winner) ->
  Ollama.best_match_loop (JObj kvs) (before ++ winner :: after) JNull 0
  = Ok (name_of_tool winner, overlap_count kvs winner).
Proof.
  intros Hwf Hpos Hbefore Hafter.
  apply Forall_app in Hwf as [Hwb Hwa].
  inversion Hwa as [|? ? Hw Hwafter]; subst.
  destruct (best_match_loop_below before (overlap_count kvs winner) JNull 0
              Hwb Hpos Hbefore (winner :: after)) as (bm & bs & Hbs & ->).
  rewrite (best_match_loop_cons winner after bm bs Hw).
  destruct (Z.gtb_spec (overlap_count kvs winner) bs) as [_|Hle]; [|lia].
  now apply best_match_loop_no_update.
Qed.

End Heuristic.

Section Recovery.
Context `{lib : PyLib}.

(** Past the filters: on JSON-shaped content that decodes to a dict, and
    with a tool offered, the heuristic is strategy 1 followed, when it does
    not fire, by strategy 2. *)
Lemma recovery_on_dict (content : string) (tool : json) (rest : list json)
    (kvs : list (string * json)) :
  json_shaped content = true ->
  json_loads (PyStr.strip content) = Some (JObj kvs) ->
  Ollama._parse_json_tool_call_from_content (JStr content) (Some (tool :: rest))
  = match first_truthy name_aliases kvs, first_truthy argument_aliases kvs with
    | Some tool_name, Some arguments =>
        Ok (Some (Ollama.tool_call (JObj kvs) tool_name
                                   (Ollama.arguments_text arguments)))
    | _, _ =>
        match Ollama.inferred_call (JObj kvs) (tool :: rest) with
        | Raise e => if is_ValueError e then Ok None else Raise e
        | r => r
        end
    end.
Proof.
  unfold json_shaped. intros Hs Hl.
  apply andb_true_iff in Hs as [Hs He].
  apply andb_true_iff in Hs as [Hn Hs].
  unfold Ollama._parse_json_tool_call_from_content. cbn [truthy].
  rewrite Hn, Hs, He. cbn [negb andb].
  unfold Ollama.parse_body, loads. rewrite Hl. cbn [res_bind].
  rewrite explicit_call_spec. cbn [res_bind].
  destruct (first_truthy name_aliases kvs);
    destruct (first_truthy argument_aliases kvs); reflexivity.
Qed.



(** Strategy 2 on a list whose first best-overlap tool is known: the call
    names that tool when its name is truthy, and there is no call when it
    is not. *)
Lemma inferred_call_winner (kvs : list (string * json)) (before : list json)
    (winner : json) (after : list json) :
  Forall (fun t => well_formed_tool t = true) (before ++ winner :: after) ->
  0 < overlap_count kvs winner ->
  (forall t, In t before -> overlap_count kvs t < overlap_count kvs winner) ->
  (forall t, In t after -> overlap_count kvs t <= overlap_count kvs winner) ->
  Ollama.inferred_call (JObj kvs) (before ++ winner :: after)
  = Ok (if truthy (name_of_tool winner)
        then Some (Ollama.tool_call (JObj kvs) (name_of_tool winner)
                                    (JStr (json_dumps (JObj kvs))))
        else None).
Proof.
  intros Hwf Hpos Hbefore Hafter. unfold Ollama.inferred_call.
  rewrite (best_match_loop_winner kvs before winner after Hwf Hpos Hbefore Hafter).
  cbn [res_bind].
  destruct (Z.gtb_spec (overlap_count kvs winner) 0) as [_|Hle]; [|lia].
  now destruct (truthy (name_of_tool winner)).
Qed.

End Recovery.

(** C4 (amended).  When the content decodes to an object that carries
    none of the tool-name and arguments alias keys, and the offered tools
    are well-formed definitions, the heuristic looks for the first offered
    tool whose parameter-schema property names share the highest number
    of keys with the object, provided that number is positive: the tools
    before it share strictly fewer keys, the tools after it share no more.
    When that tool has a truthy name, the call returned names that tool
    and carries the whole object, serialized, as its arguments; when it
    has no name, or an empty one, [None] is returned.  When no offered
    tool shares a key with the object, [None] is returned. *)
Theorem C4_inferred_tool_is_first_best_overlap `{lib : PyLib} (content : string)
    (tools : list json) (bag : list (string * json)) :
  json_shaped content = true ->
  json_loads (PyStr.strip content) = Some (JObj bag) ->
  lacks_keys (name_aliases ++ argument_aliases) bag ->
  Forall (fun t => well_formed_tool t = true) tools ->
  (forall before winner after,
      tools = (before ++ winner :: after)%list ->
      0 < overlap_count bag winner ->
      (forall t, In t before -> overlap_count bag t < overlap_count bag winner) ->
      (forall t, In t after -> overlap_count bag t <= overlap_count bag winner) ->
      if truthy (name_of_tool winner)
      then exists call,
             Ollama._parse_json_tool_call_from_content (JStr content) (Some tools)
             = Ok (Some call)
             /\ call_target call
                = Some (name_of_tool winner, JStr (json_dumps (JObj bag)))
      else Ollama._parse_json_tool_call_from_content (JStr content) (Some tools)
           = Ok None)
  /\ ((forall t, In t tools -> overlap_count bag t = 0) ->
      Ollama._parse_json_tool_call_from_content (JStr content) (Some tools)
      = Ok None).
Proof.
  intros Hshape Hparse Hlacks Hwf.
  assert (Hname : first_truthy name_aliases bag = None).
  { apply first_truthy_lacks. intros k Hin. apply Hlacks, in_or_app. now left. }
  split.
  - intros before winner after -> Hpos Hbefore Hafter.
    assert (Hrun :
      Ollama._parse_json_tool_call_from_content (JStr content)
        (Some (before ++ winner :: after)%list)
      = Ok (if truthy (name_of_tool winner)
            then Some (Ollama.tool_call (JObj bag) (name_of_tool winner)
                                        (JStr (json_dumps (JObj bag))))
            else None)).
    { pose proof (inferred_call_winner bag before winner after
                    Hwf Hpos Hbefore Hafter) as Hcall.
      destruct (before ++ winner :: after)%list as [|tool rest] eqn:Htools;
        [now destruct before|].
      rewrite (recovery_on_dict content tool rest bag Hshape Hparse), Hname.
      now rewrite Hcall. }
    rewrite Hrun. destruct (truthy (name_of_tool winner)); [|reflexivity].
    eexists. split; reflexivity.
  - intros Hzero. destruct tools as [|tool rest]; [reflexivity|].
    rewrite (recovery_on_dict content _ _ bag Hshape Hparse). rewrite Hname.
    unfold Ollama.inferred_call.
    rewrite (best_match_loop_no_update bag (tool :: rest) JNull 0 Hwf);
      [reflexivity|].
    intros t Hin. rewrite (Hzero t Hin). lia.
Qed.

(** The bag [{"q":"x","limit":5}] against [search{q,limit}] and
    [fetch{url}] is matched to [search]. *)
Lemma C4_witness :
  overlap_count [("q", JStr "x"); ("limit", JInt 5)] search_tool = 2
  /\ overlap_count [("q", JStr "x"); ("limit", JInt 5)] fetch_tool = 0
  /\ exists call,
       Ollama._parse_json_tool_call_from_content (lib := Ref.lib)
         (JStr (Ref.dq "{'q':'x','limit':5}")) (Some [search_tool; fetch_tool])
       = Ok (Some call)
       /\ call_target call
          = Some (JStr "search", JStr (Ref.dq "{'q': 'x', 'limit': 5}")).
Proof.
  split; [vm_compute; reflexivity|]. split; [vm_compute; reflexivity|].
  apply (proj1 (C4_inferred_tool_is_first_best_overlap (lib := Ref.lib)
                  (Ref.dq "{'q':'x','limit':5}") [search_tool; fetch_tool]
                  [("q", JStr "x"); ("limit", JInt 5)]
                  eq_refl eq_refl
                  ltac:(intros k Hin; simpl in Hin;
                        repeat (destruct Hin as [<-|Hin]; [reflexivity|]);
                        destruct Hin)
                  ltac:(repeat constructor))
           [] search_tool [fetch_tool] eq_refl).
  - vm_compute. reflexivity.
  - intros t Hin. destruct Hin.
  - intros t Hin. destruct Hin as [<-|Hin]; [vm_compute; discriminate|].
    destruct Hin.
Defined.

(** C4 as stated fails.  The only offered tool shares the key [q] with
    the object [{"q":"x"}], so it is the tool with the highest positive
    overlap, but its definition has no name: the heuristic does not select
    it and returns [None]. *)
Lemma C4_counterexample :
  json_loads (PyLib := Ref.lib) (Ref.dq "{'q':'x'}") = Some (JObj [("q", JStr "x")])
  /\ well_formed_tool unnamed_tool = true
  /\ overlap_count [("q", JStr "x")] unnamed_tool = 1
  /\ Ollama._parse_json_tool_call_from_content (lib := Ref.lib)
       (JStr (Ref.dq "{'q':'x'}")) (Some [unnamed_tool])
     = Ok None.
Proof. repeat split; vm_compute; reflexivity. Qed.

(** C7 (amended).  If the decoded object has a truthy value under one of
    the tool-name alias keys ([tool], [name], [function], the first truthy
    one in that order) and a truthy value under one of the arguments alias
    keys ([arguments], then [params]), and at least one tool is offered,
    the heuristic adopts that tool name and that argument payload
    directly: the call targets the name, and its arguments are the payload
    itself when it is a string and its JSON serialization otherwise. *)
Theorem C7_explicit_format_is_adopted `{lib : PyLib} (content : string)
    (tool : json) (rest : list json) (kvs : list (string * json))
    (tool_name arguments : json) :
  json_shaped content = true ->
  json_loads (PyStr.strip content) = Some (JObj kvs) ->
  first_truthy name_aliases kvs = Some tool_name ->
  first_truthy argument_aliases kvs = Some arguments ->
  exists call,
    Ollama._parse_json_tool_call_from_content (JStr content) (Some (tool :: rest))
    = Ok (Some call)
    /\ call_target call
       = Some (tool_name,
               match arguments with
               | JStr s => JStr s
               | _ => JStr (json_dumps arguments)
               end).
Proof.
  intros Hshape Hparse Hn Ha.
  rewrite (recovery_on_dict content tool rest kvs Hshape Hparse), Hn, Ha.
  eexists. split; [reflexivity|].
  destruct arguments; reflexivity.
Qed.

(** The input [{"tool":"search","arguments":{"q":"x"}}] against a tool list
    that does not even offer [search] produces a call that targets
    [search] with the arguments [{"q": "x"}]. *)
Lemma C7_witness :
  exists call,
    Ollama._parse_json_tool_call_from_content (lib := Ref.lib)
      (JStr (Ref.dq "{'tool':'search','arguments':{'q':'x'}}")) (Some [fetch_tool])
    = Ok (Some call)
    /\ call_target call = Some (JStr "search", JStr (Ref.dq "{'q': 'x'}")).
Proof.
  apply (C7_explicit_format_is_adopted (lib := Ref.lib)
           (Ref.dq "{'tool':'search','arguments':{'q':'x'}}") fetch_tool []
           [("tool", JStr "search"); ("arguments", JObj [("q", JStr "x")])]
           (JStr "search") (JObj [("q", JStr "x")])
           eq_refl eq_refl eq_refl eq_refl).
Defined.

(** C7 as stated fails.  The object [{"tool":"search","arguments":{}}]
    carries both alias keys, but its arguments are an empty dict, which is
    falsy: the explicit format is not adopted and no call is produced.  And
    against the empty tool list the heuristic returns [None] before it
    looks at the content. *)
Lemma C7_counterexample :
  json_loads (PyLib := Ref.lib) (Ref.dq "{'tool':'search','arguments':{}}")
  = Some (JObj [("tool", JStr "search"); ("arguments", JObj [])])
  /\ Ollama._parse_json_tool_call_from_content (lib := Ref.lib)
       (JStr (Ref.dq "{'tool':'search','arguments':{}}"))
       (Some [search_tool; fetch_tool])
     = Ok None
  /\ Ollama._parse_json_tool_call_from_content (lib := Ref.lib)
       (JStr (Ref.dq "{'tool':'search','arguments':{'q':'x'}}")) (Some [])
     = Ok None.
Proof. repeat split; vm_compute; reflexivity. Qed.





(** The hypothesis on the tool definitions is needed: a tool list
    that holds a string where a definition should be makes strategy 2
    raise. *)
Example recovery_raises_on_ill_formed_tool :
  well_formed_tool (JStr "search") = false
  /\ Ollama._parse_json_tool_call_from_content (lib := Ref.lib)
       (JStr (Ref.dq "{'q':'x','limit':5}")) (Some [JStr "search"])
     = Raise AttributeError.
Proof. split; vm_compute; reflexivity. Qed.

(* ===================================================================== *)
(** * The chat adapter *)
(* ===================================================================== *)

Section Chat.
Context `{lib : PyLib}.
Variable srv : Server.

(** A recovered call is a non-empty dictionary, recovered from non-empty
    content against a non-empty tool list. *)
Lemma recovery_some (content : json) (tools : option (list json)) (call : json) :
  Ollama._parse_json_tool_call_from_content content tools = Ok (Some call) ->
  truthy content = true /\ truthy call = true
  /\ exists tool rest, tools = Some (tool :: rest).
Proof.
  unfold Ollama._parse_json_tool_call_from_content.
  destruct tools as [[|tool rest]|]; try discriminate.
  destruct (truthy content) eqn:Hc; cbn [negb]; [|discriminate].
  destruct content as [| | | |text| |]; try discriminate.
  destruct (negb _); [discriminate|].
  unfold Ollama.parse_body, loads.
  destruct (json_loads (PyStr.strip text)) as [parsed|];
    [|now destruct (json_loads_failure (PyStr.strip text))].
  cbn [res_bind].
  destruct parsed as [| | | | | |kvs]; try discriminate.
  rewrite explicit_call_spec. cbn [res_bind].
  assert (Hinf : forall r,
             match Ollama.inferred_call (JObj kvs) (tool :: rest) with
             | Raise e => if is_ValueError e then Ok None else Raise e
             | r' => r'
             end = Ok (Some r) -> truthy r = true).
  { intros r. unfold Ollama.inferred_call.
    destruct (Ollama.best_match_loop (JObj kvs) (tool :: rest) JNull 0)
      as [[bm bs]|e]; cbn [res_bind].
    - destruct (truthy bm && (bs >? 0)); intros E; inversion E; reflexivity.
    - destruct (is_ValueError e); discriminate. }
  intros E. repeat split; eauto.
  destruct (first_truthy name_aliases kvs);
    [destruct (first_truthy argument_aliases kvs)|];
    try (now apply Hinf).
  inversion E. reflexivity.
Qed.

(** Under the OpenAI dialect a non-streaming [chat] sends one request, to
    the completions path. *)
Lemma chat_vllm_request (w : World Ollama.OllamaClient) (messages : json)
    (tools : option (list json)) (kwargs : list (string * json)) :
  String.eqb (Ollama.backend (self w)) "ollama" = false ->
  sent (snd (Ollama.chat srv messages false tools kwargs w))
  = (sent w ++ [completions_request (self w) messages tools kwargs])%list.
Proof.
  intros Hb. unfold Ollama.chat, Ollama._chat_vllm, completions_request. run.
  rewrite Hb. run.
  destruct (srv (sent w) _) as [msg|r]; [reflexivity|]. run.
  destruct (loads (rs_text r)) as [resp|e]; run;
    [|now destruct (is_HTTPError e)].
  destruct (Ollama.normalize resp tools) as [n|e]; run;
    [reflexivity | now destruct (is_HTTPError e)].
Qed.

(** Under the OpenAI dialect a streaming [chat] sends nothing and returns
    the generator of [_stream_chat]; running that generator sends one
    request, to the native chat path. *)
Lemma chat_vllm_stream_request (w : World Ollama.OllamaClient) (messages : json)
    (tools : option (list json)) (kwargs : list (string * json)) :
  String.eqb (Ollama.backend (self w)) "ollama" = false ->
  Ollama.chat srv messages true tools kwargs w
  = (Ok (Ollama.Generator (Ollama.vllm_payload (self w) messages true tools kwargs)), w)
  /\ forall payload,
       sent (snd (Ollama._stream_chat srv payload w))
       = (sent w ++ [Ollama.post (Ollama.base_url (self w) ++ "/api/chat") payload])%list.
Proof.
  intros Hb. split.
  - unfold Ollama.chat, Ollama._chat_vllm. run. rewrite Hb. reflexivity.
  - intros payload. unfold Ollama._stream_chat. run.
    destruct (srv (sent w) _); reflexivity.
Qed.

End Chat.

(** C5.  Under the OpenAI-compatible dialect, when the first choice's
    message of a non-streaming reply carries no structured tool calls and
    the heuristic recovers a call from its content against the offered
    tools, [chat] returns the normalized response with empty content and
    that call as its only tool call.  Under the native dialect a
    non-streaming [chat] returns the decoded reply as it is, whatever its
    content and whatever the tools: the heuristic is not applied. *)
Theorem C5_recovered_call_replaces_content `{lib : PyLib} (srv : Server)
    (w : World Ollama.OllamaClient) (messages : json)
    (tools : option (list json)) (kwargs : list (string * json)) :
  (forall r openai_response message content tool_calls call,
      Ollama.backend (self w) = "vllm" ->
      answers srv (sent w) (completions_request (self w) messages tools kwargs) r ->
      json_loads (rs_text r) = Some openai_response ->
      first_message openai_response = Ok message ->
      py_get message "content" (JStr "") = Ok content ->
      py_get message "tool_calls" JNull = Ok tool_calls ->
      truthy tool_calls = false ->
      Ollama._parse_json_tool_call_from_content content tools = Ok (Some call) ->
      fst (Ollama.chat srv messages false tools kwargs w)
      = Ok (Ollama.Reply (normalized (JStr "") (JArr [call]))))
  /\ (forall r data,
        Ollama.backend (self w) = "ollama" ->
        answers srv (sent w) (native_chat_request (self w) messages tools kwargs) r ->
        json_loads (rs_text r) = Some data ->
        fst (Ollama.chat srv messages false tools kwargs w) = Ok (Ollama.Reply data)).
Proof.
  split.
  - intros r resp message content tool_calls call Hb Hr Hl Hm Hc Ht Hnone Hrec.
    destruct (recovery_some content tools call Hrec)
      as (Hcontent & Hcall & tool & rest & ->).
    unfold answers, completions_request in Hr.
    unfold Ollama.chat, Ollama._chat_vllm. run. rewrite Hb.
    change (String.eqb "vllm" "ollama") with false. run.
    rewrite Hr. run. unfold loads. rewrite Hl. run.
    unfold first_message in Hm. unfold Ollama.normalize.
    destruct (py_getitem resp "choices") as [choices|]; [|discriminate].
    cbn [res_bind] in *.
    destruct (py_first choices) as [choice|]; [|discriminate].
    cbn [res_bind] in *. rewrite Hm. cbn [res_bind].
    rewrite Hc, Ht. cbn [res_bind]. unfold Ollama.should_recover.
    rewrite Hnone, Hcontent. cbn [negb res_bind andb].
    rewrite Hrec. cbn [res_bind]. rewrite Hcall. reflexivity.
  - intros r data Hb Hr Hl. unfold answers, native_chat_request in Hr.
    unfold Ollama.chat, Ollama._chat_ollama. run. rewrite Hb.
    change (String.eqb "ollama" "ollama") with true. run.
    rewrite Hr. run. unfold loads. rewrite Hl. reflexivity.
Qed.

(** The same reply, whose content is the bag [{"q":"x","limit":5}], under
    the two dialects: the OpenAI-compatible [chat] returns empty content
    and one call, to [search]; the native [chat] returns the reply as
    decoded. *)
Lemma C5_witness :
  (exists call,
      fst (Ollama.chat (lib := Ref.lib) (Ref.always bag_completion) one_question false
             (Some [search_tool; fetch_tool]) [] (fresh vllm_client))
      = Ok (Ollama.Reply (normalized (JStr "") (JArr [call])))
      /\ call_target call
         = Some (JStr "search", JStr (Ref.dq "{'q': 'x', 'limit': 5}")))
  /\ fst (Ollama.chat (lib := Ref.lib) (Ref.always bag_completion) one_question false
            (Some [search_tool; fetch_tool]) [] (fresh ollama_client))
     = Ok (Ollama.Reply
             (JObj [("choices",
                     JArr [JObj [("message",
                                  JObj [("role", JStr "assistant");
                                        ("content",
                                         JStr (Ref.dq "{'q':'x','limit':5}"))])]])])).
Proof.
  split.
  - eexists. split.
    + eapply (proj1 (C5_recovered_call_replaces_content (lib := Ref.lib)
                       (Ref.always bag_completion) (fresh vllm_client) one_question
                       (Some [search_tool; fetch_tool]) []));
        reflexivity.
    + vm_compute. reflexivity.
  - eapply (proj2 (C5_recovered_call_replaces_content (lib := Ref.lib)
                     (Ref.always bag_completion) (fresh ollama_client) one_question
                     (Some [search_tool; fetch_tool]) []));
      reflexivity.
Defined.

(** C6 (the code departs from the specification).  With [stream=True] under the
    OpenAI-compatible dialect, [chat] hands its payload to
    [_stream_chat], whose body posts to the native path [/api/chat]: no
    request reaches [/v1/chat/completions].  Without streaming the request
    does go to [/v1/chat/completions]. *)
Theorem C6_streaming_chat_posts_to_native_path :
  exists payload,
    Ollama.chat (lib := Ref.lib) unreachable one_question true None []
      (fresh vllm_client)
    = (Ok (Ollama.Generator payload), fresh vllm_client)
    /\ urls (sent (snd (Ollama._stream_chat (lib := Ref.lib) unreachable payload
                          (fresh vllm_client))))
       = ["http://localhost:8000/api/chat"]
    /\ urls (sent (snd (Ollama.chat (lib := Ref.lib) unreachable one_question false
                          None [] (fresh vllm_client))))
       = ["http://localhost:8000/v1/chat/completions"].
Proof. eexists. repeat split; vm_compute; reflexivity. Qed.

(** C10.  [check_model_exists] never raises: it returns a boolean however
    the model listing ends, and [False] when the listing raises, whatever
    the exception and whichever the dialect. *)
Theorem C10_check_model_exists_never_raises `{lib : PyLib} (srv : Server)
    (model_name : option string) (w : World Ollama.OllamaClient) :
  (exists b, fst (Ollama.check_model_exists srv model_name w) = Ok b)
  /\ (forall e w1,
        Ollama.list_models srv w = (Raise e, w1) ->
        Ollama.check_model_exists srv model_name w = (Ok false, w1)).
Proof.
  unfold Ollama.check_model_exists. run. split.
  - destruct (Ollama.list_models srv w) as [[models|e] w1]; [|eauto].
    destruct (py_iter models) as [items|e]; [|eauto].
    destruct (Ollama.names_of _ items); eauto.
  - intros e w1 ->. reflexivity.
Qed.

(** With the server out of reach, [list_models] raises the transport error
    and [check_model_exists] returns [False], under both dialects. *)
Lemma C10_witness :
  fst (Ollama.list_models (lib := Ref.lib) unreachable (fresh vllm_client))
  = Raise (HTTPError "All connection attempts failed")
  /\ fst (Ollama.check_model_exists (lib := Ref.lib) unreachable None
            (fresh vllm_client)) = Ok false
  /\ fst (Ollama.check_model_exists (lib := Ref.lib) unreachable (Some "llama3")
            (fresh ollama_client)) = Ok false.
Proof.
  split; [reflexivity|]. split.
  - rewrite (proj2 (C10_check_model_exists_never_raises (lib := Ref.lib)
                      unreachable None (fresh vllm_client))
               (HTTPError "All connection attempts failed")
               (snd (Ollama.list_models (lib := Ref.lib) unreachable
                       (fresh vllm_client)))
               eq_refl).
    reflexivity.
  - rewrite (proj2 (C10_check_model_exists_never_raises (lib := Ref.lib)
                      unreachable (Some "llama3") (fresh ollama_client))
               (HTTPError "All connection attempts failed")
               (snd (Ollama.list_models (lib := Ref.lib) unreachable
                       (fresh ollama_client)))
               eq_refl).
    reflexivity.
Defined.

(* ===================================================================== *)
(** * The handshake *)
(* ===================================================================== *)

Section Handshake.
Context `{lib : PyLib}.
Variable srv : Server.

(** How the test on a decoded value ends: the session is marked
    initialized and [True] returned, or the state is as [otherwise] left
    it. *)
Lemma accept_outcome (data : json) (otherwise : M MCP.MCPClient bool)
    (w : World MCP.MCPClient) :
  (forall w0, otherwise w0 = (Ok true, {| self := MCP.set_initialized true (self w0);
                                         sent := sent w0 |})
              \/ exists r, otherwise w0 = (r, w0) /\ r <> Ok true) ->
  MCP.accept data otherwise w
  = (Ok true, {| self := MCP.set_initialized true (self w); sent := sent w |})
  \/ exists r, MCP.accept data otherwise w = (r, w) /\ r <> Ok true.
Proof.
  intros Ho. unfold MCP.accept. run.
  destruct (py_contains "error" data) as [[|]|e]; cbn [negb].
  - apply Ho.
  - now left.
  - right. eexists. split; [reflexivity | discriminate].
Qed.

Lemma initialize_scan_outcome (lines : list string) (w : World MCP.MCPClient) :
  MCP.initialize_scan lines w
  = (Ok true, {| self := MCP.set_initialized true (self w); sent := sent w |})
  \/ exists r, MCP.initialize_scan lines w = (r, w) /\ r <> Ok true.
Proof.
  revert w. induction lines as [|line rest IH]; intros w.
  - right. exists (Ok false). split; [reflexivity | discriminate].
  - cbn [MCP.initialize_scan].
    destruct (PyStr.startswith "data: " line); [|apply IH].
    run. destruct (loads (PyStr.drop 6 line)) as [result|e].
    + apply accept_outcome. exact IH.
    + right. eexists. split; [reflexivity | discriminate].
Qed.

(** One run of the handshake: its result and the state it leaves. *)
Lemma initialize_run (w : World MCP.MCPClient) :
  MCP.initialized (self w) = false ->
  exists b : bool,
    MCP.initialize srv w
    = (Ok b,
       {| self := if b
                  then MCP.set_initialized true (after_handshake_reply srv w)
                  else after_handshake_reply srv w;
          sent := sent w ++ [initialize_request (self w)] |}).
Proof.
  intros Hi. unfold MCP.initialize, after_handshake_reply, initialize_request.
  run. rewrite Hi. run.
  destruct (srv (sent w) _) as [msg|r]; run; [now exists false|].
  unfold adopt_session.
  set (w1 := {| self := match header_get "mcp-session-id" (rs_headers r) with
                        | Some sid =>
                            if String.eqb sid "" then self w
                            else MCP.set_session_id sid (self w)
                        | None => self w
                        end;
                sent := sent w ++ [MCP.post (MCP.base_url (self w))
                                            MCP.initialize_payload
                                            (MCP.base_headers (self w))] |}).
  assert (Hbody :
    forall body : M MCP.MCPClient bool,
      (body w1 = (Ok true, {| self := MCP.set_initialized true (self w1);
                              sent := sent w1 |})
       \/ exists r0, body w1 = (r0, w1) /\ r0 <> Ok true) ->
      exists b : bool,
        (let (r0, w') := body w1 in
         match r0 with
         | Ok a => (Ok a, w')
         | Raise e => if is_Exception e then (Ok false, w') else (Raise e, w')
         end)
        = (Ok b, {| self := if b then MCP.set_initialized true (self w1)
                            else self w1;
                    sent := sent w1 |})).
  { intros body [->|(r0 & -> & Hr0)]; [now exists true|].
    exists false. destruct r0 as [[|]|e]; [now contradiction Hr0| |];
      now destruct w1. }
  destruct (header_get "mcp-session-id" (rs_headers r)) as [sid|];
    [destruct (String.eqb sid "")|]; cbn [negb]; run;
    (destruct (PyStr.startswith "event: message" (rs_text r));
     [apply (Hbody (MCP.initialize_scan (PyStr.split MCP.LF (rs_text r)))),
        initialize_scan_outcome
     |apply (Hbody (bind (lift (loads (rs_text r)))
                         (fun data => MCP.accept data (ret false))));
      run; destruct (loads (rs_text r)) as [data|e];
      [apply accept_outcome; intros w0; right; exists (Ok false);
       split; [reflexivity | discriminate]
      |right; eexists; split; [reflexivity | discriminate]]]).
Qed.

Lemma after_handshake_reply_flag (w : World MCP.MCPClient) :
  MCP.initialized (after_handshake_reply srv w) = MCP.initialized (self w).
Proof.
  unfold after_handshake_reply, adopt_session.
  destruct (srv (sent w) _) as [msg|r]; [reflexivity|].
  destruct (header_get "mcp-session-id" (rs_headers r)) as [sid|];
    [destruct (String.eqb sid "")|]; reflexivity.
Qed.

(** The result of the handshake on a reply whose body is not framed as a
    server-sent event. *)
Lemma initialize_bare_result (w : World MCP.MCPClient) (r : Response) :
  MCP.initialized (self w) = false ->
  answers srv (sent w) (initialize_request (self w)) r ->
  PyStr.startswith "event: message" (rs_text r) = false ->
  fst (MCP.initialize srv w)
  = Ok match json_loads (rs_text r) with
       | Some data =>
           match py_contains "error" data with
           | Ok false => true
           | _ => false
           end
       | None => false
       end.
Proof.
  unfold answers, initialize_request. intros Hi Hr Hs.
  unfold MCP.initialize. run. rewrite Hi. run. rewrite Hr. run.
  destruct (header_get "mcp-session-id" (rs_headers r)) as [sid|];
    [destruct (String.eqb sid "")|]; cbn [negb]; run; rewrite Hs; run;
    unfold loads; (destruct (json_loads (rs_text r)) as [data|]; run;
                   [|reflexivity]);
    unfold MCP.accept; run;
    now destruct (py_contains "error" data) as [[|]|e].
Qed.

(** X1.  [initialize] on a session that is not initialized never raises
    and sends exactly one request, the handshake.  A non-empty
    [mcp-session-id] header of the reply replaces the session identifier
    whether or not the handshake then succeeds, and the method returns
    [True] exactly when it leaves the session initialized.  It returns
    [False] on a transport failure; on a reply whose body is not framed
    as a server-sent event it returns [False] when the body does not
    decode and, when the body decodes to a dict, [True] exactly when the
    dict has no [error] key. *)
Theorem initialize_handshake (w : World MCP.MCPClient) :
  MCP.initialized (self w) = false ->
  exists b : bool,
    MCP.initialize srv w
    = (Ok b,
       {| self := if b
                  then MCP.set_initialized true (after_handshake_reply srv w)
                  else after_handshake_reply srv w;
          sent := sent w ++ [initialize_request (self w)] |})
    /\ MCP.initialized (self (snd (MCP.initialize srv w))) = b
    /\ (forall msg,
          srv (sent w) (initialize_request (self w)) = Failed msg -> b = false)
    /\ (forall r,
          answers srv (sent w) (initialize_request (self w)) r ->
          PyStr.startswith "event: message" (rs_text r) = false ->
          (json_loads (rs_text r) = None -> b = false)
          /\ (forall data,
                json_loads (rs_text r) = Some (JObj data) ->
                b = match dict_lookup "error" data with
                    | Some _ => false
                    | None => true
                    end)).
Proof.
  intros Hi. destruct (initialize_run w Hi) as (b & Hrun).
  exists b. split; [exact Hrun|]. split; [|split].
  - rewrite Hrun. cbn [snd self].
    destruct b; [reflexivity|]. now rewrite after_handshake_reply_flag.
  - intros msg Hf.
    assert (E : fst (MCP.initialize srv w) = Ok false).
    { unfold initialize_request in Hf. unfold MCP.initialize. run.
      rewrite Hi. run. now rewrite Hf. }
    rewrite Hrun in E. cbn [fst] in E. now inversion E.
  - intros r Hr Hs. pose proof (initialize_bare_result w r Hi Hr Hs) as E.
    rewrite Hrun in E. cbn [fst] in E. inversion E as [Hb]. clear E.
    split.
    + now intros ->.
    + intros data ->. cbn [py_contains].
      now destruct (dict_lookup "error" data).
Qed.

(** X2.  Once [initialize] has returned [True], calling it again returns
    [True], sends nothing and changes nothing, whatever the server would
    answer. *)
Theorem initialize_once (srv' : Server) (w : World MCP.MCPClient) :
  fst (MCP.initialize srv w) = Ok true ->
  MCP.initialize srv' (snd (MCP.initialize srv w))
  = (Ok true, snd (MCP.initialize srv w)).
Proof.
  intros Hok.
  assert (Hflag : MCP.initialized (self (snd (MCP.initialize srv w))) = true).
  { destruct (MCP.initialized (self w)) eqn:Hi.
    - unfold MCP.initialize. run. now rewrite Hi.
    - destruct (initialize_run w Hi) as (b & Hrun).
      rewrite Hrun in *. cbn [fst snd self] in *.
      inversion Hok; subst. reflexivity. }
  revert Hflag. generalize (snd (MCP.initialize srv w)). intros w1 Hflag.
  unfold MCP.initialize. run. now rewrite Hflag.
Qed.

End Handshake.

(** A handshake that the server refuses while issuing a session
    identifier: [initialize] returns [False], and the identifier is the
    server's all the same. *)
Lemma initialize_handshake_witness :
  MCP.initialize (lib := Ref.lib) (session_server refused_handshake) new_world
  = (Ok false,
     {| self := MCP.set_session_id "srv-42" (self new_world);
        sent := [initialize_request (self new_world)] |}).
Proof.
  destruct (initialize_handshake (lib := Ref.lib) (session_server refused_handshake)
              new_world eq_refl) as (b & Hrun & _ & _ & Hbare).
  destruct (Hbare {| rs_headers := [("Content-Type", "application/json");
                                    ("Mcp-Session-Id", "srv-42")];
                     rs_text := refused_handshake |} eq_refl eq_refl)
    as [_ Hdict].
  rewrite (Hdict [("jsonrpc", JStr "2.0"); ("id", JInt 1);
                  ("error", JObj [("code", JInt (-32600));
                                  ("message", JStr "busy")])]
             ltac:(vm_compute; reflexivity)) in Hrun.
  exact Hrun.
Defined.

(** After an accepted handshake a second [initialize], against a server
    that is out of reach, returns [True] and sends nothing. *)
Lemma initialize_once_witness :
  MCP.initialize (lib := Ref.lib) unreachable
    (snd (MCP.initialize (lib := Ref.lib) (session_server accepted_handshake)
            new_world))
  = (Ok true,
     snd (MCP.initialize (lib := Ref.lib) (session_server accepted_handshake)
            new_world)).
Proof.
  apply (initialize_once (lib := Ref.lib) (session_server accepted_handshake)
           unreachable new_world).
  vm_compute. reflexivity.
Defined.

(* ===================================================================== *)
(** * Catalog fetch and invocation around the handshake *)
(* ===================================================================== *)

Lemma set_tools_same (c : MCP.MCPClient) : MCP.set_tools (MCP.tools c) c = c.
Proof. now destruct c. Qed.

Lemma world_eta {S} (w : World S) : {| self := self w; sent := sent w |} = w.
Proof. now destruct w. Qed.

Section Session.
Context `{lib : PyLib}.
Variable srv : Server.

(** X3.  When the lazy handshake fails, [list_tools] raises
    [Exception("Failed to initialize MCP session")] and [call_tool]
    returns a failure dictionary with that message; neither sends anything
    after the handshake request. *)
Theorem failed_handshake_policies (w : World MCP.MCPClient) (tool_name : string)
    (arguments : json) :
  MCP.initialized (self w) = false ->
  fst (MCP.initialize srv w) = Ok false ->
  MCP.list_tools srv w
  = (Raise (PyException (JStr "Failed to initialize MCP session")),
     snd (MCP.initialize srv w))
  /\ MCP.call_tool srv tool_name arguments w
     = (Ok (MCP.failure (JStr "Failed to initialize MCP session")),
        snd (MCP.initialize srv w)).
Proof.
  intros Hi Hf. unfold MCP.list_tools, MCP.call_tool. run. rewrite Hi.
  cbn [negb]. run.
  destruct (MCP.initialize srv w) as [r w1]. cbn [fst snd] in *. subst r.
  split; reflexivity.
Qed.

(** What the invocation after a successful lazy handshake sends. *)
Lemma call_tool_after_handshake (w : World MCP.MCPClient) (tool_name : string)
    (arguments : json) :
  MCP.initialized (self w) = false ->
  fst (MCP.initialize srv w) = Ok true ->
  sent (snd (MCP.call_tool srv tool_name arguments w))
  = (sent (snd (MCP.initialize srv w))
     ++ [call_tool_request (self (snd (MCP.initialize srv w))) tool_name arguments])%list.
Proof.
  intros Hi Hok. unfold MCP.call_tool, call_tool_request. run. rewrite Hi.
  cbn [negb]. destruct (MCP.initialize srv w) as [r w1].
  cbn [fst snd] in *. subst r. cbn [negb]. run.
  destruct (srv (sent w1) _) as [msg|r]; [reflexivity|]. run.
  destruct (MCP.decode_body (rs_text r)) as [data|e]; run;
    [|now destruct e].
  destruct (MCP.call_tool_result data) as [d|e]; run;
    [reflexivity|]. now destruct e.
Qed.

(** X4.  The session identifier makes the round trip: a client with the
    constructor's headers sends its handshake without an
    [mcp-session-id] header, and after a successful handshake whose reply
    carried one, the invocation that triggered it goes out with exactly
    that identifier in its [mcp-session-id] header, and with the tool name
    and the arguments in its payload. *)
Theorem session_id_round_trip (w : World MCP.MCPClient) (r : Response)
    (sid tool_name : string) (arguments : json) :
  MCP.initialized (self w) = false ->
  MCP.base_headers (self w) = default_headers ->
  answers srv (sent w) (initialize_request (self w)) r ->
  header_get "mcp-session-id" (rs_headers r) = Some sid ->
  sid <> "" ->
  fst (MCP.initialize srv w) = Ok true ->
  exists rq,
    sent (snd (MCP.call_tool srv tool_name arguments w))
    = (sent w ++ [initialize_request (self w); rq])%list
    /\ header_get "mcp-session-id" (rq_headers (initialize_request (self w))) = None
    /\ header_get "mcp-session-id" (rq_headers rq) = Some sid
    /\ rq_json rq = Some (MCP.call_tool_payload tool_name arguments).
Proof.
  intros Hi Hh Hr Hsid Hne Hok.
  rewrite (call_tool_after_handshake w tool_name arguments Hi Hok).
  destruct (initialize_run srv w Hi) as (b & Hrun).
  rewrite Hrun in *. cbn [fst snd self sent] in *.
  inversion Hok; subst b.
  unfold after_handshake_reply, adopt_session. unfold answers in Hr.
  rewrite Hr, Hsid. apply String.eqb_neq in Hne. rewrite Hne.
  eexists. split; [now rewrite <- app_assoc|].
  unfold initialize_request, call_tool_request, MCP.session_headers.
  cbn [rq_headers rq_json MCP.post MCP.set_initialized MCP.set_session_id
       MCP.base_headers MCP.session_id].
  rewrite Hh. repeat split.
Qed.

(** X5.  [list_tools] returns the tools in the order the server listed
    them and caches them in that order.  On an initialized session, when
    the reply carries no error and every listed item is a dict with
    [name], [description] and [inputSchema] (a missing [result] or
    [tools] entry counts as an empty listing), the call returns the
    tools built from the items, one for one, and sends one request. *)
Theorem list_tools_returns_listing (w : World MCP.MCPClient) (r : Response)
    (data result : list (string * json)) (items : list json)
    (ts : list MCP.MCPTool) :
  MCP.initialized (self w) = true ->
  answers srv (sent w) (list_tools_request (self w)) r ->
  MCP.decode_body (rs_text r) = Ok (JObj data) ->
  dict_lookup "error" data = None ->
  value_or data "result" (JObj []) = JObj result ->
  value_or result "tools" (JArr []) = JArr items ->
  listed_tools items = Some ts ->
  MCP.list_tools srv w
  = (Ok ts,
     {| self := MCP.set_tools (cache_all ts (MCP.tools (self w))) (self w);
        sent := sent w ++ [list_tools_request (self w)] |}).
Proof.
  intros Hi Hr Hd He Hres Htools Hitems.
  unfold answers, list_tools_request in *. unfold value_or in *.
  assert (Hload : forall its acc c log tools',
             listed_tools its = Some tools' ->
             MCP.load_tools its acc {| self := c; sent := log |}
             = (Ok (acc ++ tools')%list,
                {| self := MCP.set_tools (cache_all tools' (MCP.tools c)) c;
                   sent := log |})).
  { induction its as [|item rest IH]; intros acc c log tools' Hl.
    - inversion Hl; subst. cbn. now rewrite app_nil_r, set_tools_same.
    - cbn [listed_tools] in Hl.
      destruct (listed_tool item) as [t|] eqn:Ht; [|discriminate].
      destruct (listed_tools rest) as [rest'|] eqn:Hrest; [|discriminate].
      inversion Hl; subst tools'. clear Hl.
      unfold listed_tool in Ht.
      destruct item as [| | | | | |kvs]; try discriminate.
      destruct (dict_lookup "name" kvs) as [n|] eqn:Hn; [|discriminate].
      destruct (dict_lookup "description" kvs) as [d|] eqn:Hdesc; [|discriminate].
      destruct (dict_lookup "inputSchema" kvs) as [s|] eqn:Hs; [|discriminate].
      cbn [MCP.load_tools]. run. cbn [py_getitem]. rewrite Hn, Hdesc, Hs. run.
      unfold MCP.cache_tool. cbn [MCP.name].
      destruct n; try discriminate; inversion Ht; subst t; run;
        cbn [self sent]; rewrite (IH _ _ _ rest' eq_refl);
        rewrite <- app_assoc; cbn [cache_all key_of MCP.name app];
        reflexivity. }
  unfold MCP.list_tools. run. rewrite Hi. cbn [negb]. run.
  rewrite Hr. run. rewrite Hd. run. cbn [py_contains py_get]. rewrite He. run.
  rewrite Hres. cbn [py_get]. rewrite Htools. cbn [py_iter]. run.
  rewrite (Hload items [] _ _ ts Hitems). reflexivity.
Qed.

(** X6.  A protocol-level error object in the reply makes [list_tools]
    raise an [Exception] that carries the error's message (or
    ["Unknown error"]); the catalog is left as it was. *)
Theorem list_tools_raises_protocol_error (w : World MCP.MCPClient) (r : Response)
    (data e : list (string * json)) :
  MCP.initialized (self w) = true ->
  answers srv (sent w) (list_tools_request (self w)) r ->
  MCP.decode_body (rs_text r) = Ok (JObj data) ->
  dict_lookup "error" data = Some (JObj e) ->
  MCP.list_tools srv w
  = (Raise (PyException (value_or e "message" (JStr "Unknown error"))),
     {| self := self w; sent := sent w ++ [list_tools_request (self w)] |}).
Proof.
  intros Hi Hr Hd He. unfold answers, list_tools_request, value_or in *.
  unfold MCP.list_tools. run. rewrite Hi. cbn [negb]. run.
  rewrite Hr. run. rewrite Hd. run. cbn [py_contains py_getitem].
  rewrite He. run. cbn [py_get]. reflexivity.
Qed.

(** X7.  The two failure policies on a transport failure: on an
    initialized session [call_tool] returns a failure dictionary with the
    error's text, where [list_tools] lets the [httpx.HTTPError] through;
    both leave the client as it was. *)
Theorem transport_failure_policies (w : World MCP.MCPClient) (tool_name : string)
    (arguments : json) (msg msg' : string) :
  MCP.initialized (self w) = true ->
  srv (sent w) (call_tool_request (self w) tool_name arguments) = Failed msg ->
  srv (sent w) (list_tools_request (self w)) = Failed msg' ->
  MCP.call_tool srv tool_name arguments w
  = (Ok (MCP.failure (JStr msg)),
     {| self := self w;
        sent := sent w ++ [call_tool_request (self w) tool_name arguments] |})
  /\ MCP.list_tools srv w
     = (Raise (HTTPError msg'),
        {| self := self w; sent := sent w ++ [list_tools_request (self w)] |}).
Proof.
  unfold call_tool_request, list_tools_request. intros Hi Hc Hl. split.
  - unfold MCP.call_tool. run. rewrite Hi. cbn [negb]. run.
    rewrite Hc. reflexivity.
  - unfold MCP.list_tools. run. rewrite Hi. cbn [negb]. run.
    rewrite Hl. reflexivity.
Qed.

End Session.

(** Against a server that refuses the handshake, a catalog fetch raises
    and an invocation returns a failure. *)
Lemma failed_handshake_policies_witness :
  fst (MCP.list_tools (lib := Ref.lib) refusing_server new_world)
  = Raise (PyException (JStr "Failed to initialize MCP session"))
  /\ fst (MCP.call_tool (lib := Ref.lib) refusing_server "search"
            (JObj [("q", JStr "x")]) new_world)
     = Ok (MCP.failure (JStr "Failed to initialize MCP session")).
Proof.
  destruct (failed_handshake_policies (lib := Ref.lib) refusing_server new_world
              "search" (JObj [("q", JStr "x")]) eq_refl
              ltac:(vm_compute; reflexivity)) as [-> ->].
  split; reflexivity.
Defined.

(** The identifier [srv-42] issued with the handshake reply is the one the
    invocation carries. *)
Lemma session_id_round_trip_witness :
  exists rq,
    sent (snd (MCP.call_tool (lib := Ref.lib) (handshake_then text_result) "search"
                 (JObj [("q", JStr "x")]) new_world))
    = [initialize_request (self new_world); rq]
    /\ header_get "mcp-session-id" (rq_headers (initialize_request (self new_world)))
       = None
    /\ header_get "mcp-session-id" (rq_headers rq) = Some "srv-42"
    /\ rq_json rq
       = Some (MCP.call_tool_payload "search" (JObj [("q", JStr "x")])).
Proof.
  apply (session_id_round_trip (lib := Ref.lib) (handshake_then text_result)
           new_world
           {| rs_headers := [("Content-Type", "application/json");
                             ("Mcp-Session-Id", "srv-42")];
              rs_text := accepted_handshake |}
           "srv-42" "search" (JObj [("q", JStr "x")])).
  - reflexivity.
  - reflexivity.
  - reflexivity.
  - reflexivity.
  - discriminate.
  - vm_compute. reflexivity.
Defined.

(** A listing of [search] then [fetch] is returned in that order. *)
Lemma list_tools_returns_listing_witness :
  fst (MCP.list_tools (lib := Ref.lib) (Ref.always both_listing) ready_world)
  = Ok [mcp_search; mcp_fetch].
Proof.
  erewrite (list_tools_returns_listing (lib := Ref.lib) (Ref.always both_listing)
              ready_world {| rs_headers := []; rs_text := both_listing |});
    [reflexivity | reflexivity | reflexivity | vm_compute; reflexivity
    | reflexivity | reflexivity | reflexivity | reflexivity].
Defined.

(** The error [Method not found] comes out of [list_tools] as an
    exception. *)
Lemma list_tools_raises_protocol_error_witness :
  fst (MCP.list_tools (lib := Ref.lib) (Ref.always error_reply) ready_world)
  = Raise (PyException (JStr "Method not found")).
Proof.
  rewrite (list_tools_raises_protocol_error (lib := Ref.lib)
             (Ref.always error_reply) ready_world
             {| rs_headers := []; rs_text := error_reply |}
             [("jsonrpc", JStr "2.0"); ("id", JInt 2);
              ("error", JObj [("code", JInt (-32601));
                              ("message", JStr "Method not found")])]
             [("code", JInt (-32601)); ("message", JStr "Method not found")]
             eq_refl eq_refl ltac:(vm_compute; reflexivity) eq_refl).
  reflexivity.
Defined.

(** With the server out of reach, an invocation returns the failure and a
    catalog fetch raises. *)
Lemma transport_failure_policies_witness :
  fst (MCP.call_tool (lib := Ref.lib) unreachable "search" (JObj []) ready_world)
  = Ok (MCP.failure (JStr "All connection attempts failed"))
  /\ fst (MCP.list_tools (lib := Ref.lib) unreachable ready_world)
     = Raise (HTTPError "All connection attempts failed").
Proof.
  destruct (transport_failure_policies (lib := Ref.lib) unreachable ready_world
              "search" (JObj []) "All connection attempts failed"
              "All connection attempts failed" eq_refl eq_refl eq_refl)
    as [-> ->].
  split; reflexivity.
Defined.

(* ===================================================================== *)
(** * The health probe *)
(* ===================================================================== *)

Section HealthProbe.
Context `{lib : PyLib}.
Variable srv : Server.
Variable status_code : Response -> Z.

(** X8.  [health_check] never raises, sends one [GET] to the health URL and
    leaves the client as it was.  A transport failure or an error status
    gives [False].  When the body decodes to a dict, the answer is whether
    its [status] is ["healthy"] or ["ok"], whatever the status code; when
    the body does not decode, or decodes to something that is no dict, the
    answer is whether the status code is 200. *)
Theorem health_check_verdict (w : World MCP.MCPClient) :
  Probe.health_check srv status_code w
  = (Ok match srv (sent w) (health_request (self w)) with
        | Failed _ => false
        | Replied r =>
            match json_loads (rs_text r) with
            | Some (JObj data) => reports_healthy data
            | _ => status_code r =? 200
            end
        end,
     {| self := self w; sent := sent w ++ [health_request (self w)] |}).
Proof.
  unfold Probe.health_check, health_request. run.
  destruct (srv (sent w) _) as [msg|r]; [reflexivity|]. run.
  unfold Probe.health_verdict, loads, reports_healthy, value_at.
  destruct (json_loads (rs_text r)) as [[| | | | | |data]|]; try reflexivity.
  cbn [res_bind py_get].
  destruct (dict_lookup "status" data) as [status|]; [|reflexivity].
  now destruct (Probe.py_eq_str status "healthy").
Qed.

End HealthProbe.

(** ** The health URL *)

Lemma remove_aux_skip (old : string) (n : nat) (s : string) :
  Probe.remove_aux old n s = Probe.remove_aux old O (PyStr.drop n s).
Proof.
  revert s. induction n as [|n IH]; intros s; [reflexivity|].
  destruct s as [|c s]; [reflexivity|]. cbn [Probe.remove_aux PyStr.drop].
  apply IH.
Qed.

Lemma append_assoc (a b c : string) :
  ((a ++ b) ++ c)%string = (a ++ b ++ c)%string.
Proof. induction a as [|x a IH]; [reflexivity|]. simpl. f_equal. exact IH. Qed.

Lemma prefix_nil (s : string) : String.prefix "" s = true.
Proof. now destruct s. Qed.

Lemma prefix_cons (c d : ascii) (p s : string) :
  String.prefix (String c p) (String d s) = Ascii.eqb c d && String.prefix p s.
Proof.
  cbn [String.prefix]. destruct (ascii_dec c d) as [->|Hne].
  - now rewrite Ascii.eqb_refl.
  - apply Ascii.eqb_neq in Hne. now rewrite Hne.
Qed.

(** A text in which [/mcp] does not occur has no occurrence that reaches
    into a following [/mcp] either. *)
Lemma no_straddling_occurrence (a b : string) :
  PyStr.contains "/mcp" a = false ->
  a <> "" ->
  String.prefix "/mcp" (a ++ "/mcp" ++ b) = false.
Proof.
  intros Hc Hne. destruct a as [|c0 a]; [now contradiction Hne|]. clear Hne.
  cbn [PyStr.contains] in Hc. apply orb_false_iff in Hc as [Hp _].
  revert Hp. destruct a as [|c1 [|c2 [|c3 a]]]; cbn [String.append];
    rewrite ?prefix_cons, ?prefix_nil; cbn [String.prefix];
    repeat match goal with
           | |- context [Ascii.eqb ?x ?y] =>
               is_var y; destruct (Ascii.eqb x y) eqn:?; cbn [andb]
           end; try congruence; try reflexivity.
  all: repeat match goal with
           | H : Ascii.eqb _ _ = true |- _ => apply Ascii.eqb_eq in H; subst
           end; try discriminate.
Qed.

Lemma remove_free_prefix (a b : string) :
  PyStr.contains "/mcp" a = false ->
  Probe.remove "/mcp" (a ++ "/mcp" ++ b) = (a ++ Probe.remove "/mcp" b)%string.
Proof.
  unfold Probe.remove. induction a as [|c a IH]; intros Hc.
  - cbn [String.append Probe.remove_aux].
    rewrite !prefix_cons, prefix_nil, !Ascii.eqb_refl.
    cbn [andb String.length Nat.pred]. rewrite remove_aux_skip. reflexivity.
  - pose proof (no_straddling_occurrence (String c a) b Hc ltac:(discriminate))
      as Hp.
    change (String c a ++ "/mcp" ++ b)%string
      with (String c (a ++ "/mcp" ++ b)) in *.
    cbn [Probe.remove_aux]. rewrite Hp.
    cbn [PyStr.contains] in Hc. apply orb_false_iff in Hc as [_ Hc].
    now rewrite (IH Hc).
Qed.

Lemma remove_free (a : string) :
  PyStr.contains "/mcp" a = false -> Probe.remove "/mcp" a = a.
Proof.
  unfold Probe.remove. induction a as [|c a IH]; intros Hc; [reflexivity|].
  cbn [PyStr.contains] in Hc. apply orb_false_iff in Hc as [Hp Hc].
  cbn [Probe.remove_aux]. rewrite Hp. now rewrite (IH Hc).
Qed.

(** X9.  The health URL is the base URL with every [/mcp] cut out,
    followed by [/healthz]: up to and including the first occurrence the
    base URL loses that occurrence only, wherever it stands, in the host
    name too.  In particular a base URL that ends in its only [/mcp]
    gives the URL before it followed by [/healthz], and so does a base URL
    without [/mcp]. *)
Theorem health_url_cuts_mcp (c : MCP.MCPClient) (a b : string) :
  PyStr.contains "/mcp" a = false ->
  (MCP.base_url c = (a ++ "/mcp" ++ b)%string ->
   Probe.health_url c = (a ++ Probe.remove "/mcp" b ++ "/healthz")%string)
  /\ (MCP.base_url c = (a ++ "/mcp")%string ->
      Probe.health_url c = (a ++ "/healthz")%string)
  /\ (MCP.base_url c = a -> Probe.health_url c = (a ++ "/healthz")%string).
Proof.
  intros Hc. unfold Probe.health_url. repeat split; intros ->.
  - rewrite (remove_free_prefix a b Hc). apply append_assoc.
  - change (a ++ "/mcp")%string with (a ++ "/mcp" ++ "")%string.
    rewrite (remove_free_prefix a "" Hc). cbn [Probe.remove Probe.remove_aux].
    now rewrite append_empty_r.
  - now rewrite (remove_free a Hc).
Qed.

(** The server [http://mcp.example.com/mcp] is probed at
    [http:/.example.com/healthz]: the [/mcp] of the host name goes too. *)
Lemma health_url_cuts_mcp_witness :
  MCP.base_url mcp_host_client = "http://mcp.example.com/mcp"
  /\ Probe.health_url mcp_host_client = "http:/.example.com/healthz".
Proof.
  split; [reflexivity|].
  apply (proj1 (health_url_cuts_mcp mcp_host_client "http:/" ".example.com/mcp"
                  eq_refl)).
  reflexivity.
Defined.

(* ===================================================================== *)
(** * The catalog in function-calling format, and the heuristic on it *)
(* ===================================================================== *)

Lemma ollama_tool_accessors (t : MCP.MCPTool) (bag : list (string * json)) :
  is_Some (schema_properties (MCP.input_schema t)) ->
  well_formed_tool (Probe.ollama_tool t) = true
  /\ name_of_tool (Probe.ollama_tool t) = MCP.name t
  /\ overlap_count bag (Probe.ollama_tool t) = schema_overlap bag t.
Proof.
  unfold schema_overlap, schema_properties, overlap_count, Probe.ollama_tool.
  intros [props Hp]. revert Hp.
  destruct (MCP.input_schema t) as [| | | | | |s]; try discriminate.
  cbn. destruct (dict_lookup "properties" s) as [[| | | | | |p]|];
    try discriminate; repeat split.
Qed.

(** X10.  The catalog and the heuristic compose: on the tool list
    [format_tools_for_ollama] builds from cached tools whose [inputSchema]
    is a dict with a dict of [properties] (or none), a content object
    without alias keys is matched to the first cached tool whose
    [inputSchema] property names share the highest, positive, number of
    keys with it, and the call carries that tool's catalog name. *)
Theorem catalog_tool_is_recovered `{lib : PyLib} (content : string)
    (before : list MCP.MCPTool) (t : MCP.MCPTool) (after : list MCP.MCPTool)
    (bag : list (string * json)) :
  json_shaped content = true ->
  json_loads (PyStr.strip content) = Some (JObj bag) ->
  lacks_keys (name_aliases ++ argument_aliases) bag ->
  Forall (fun u => is_Some (schema_properties (MCP.input_schema u)))
         (before ++ t :: after) ->
  truthy (MCP.name t) = true ->
  0 < schema_overlap bag t ->
  (forall u, In u before -> schema_overlap bag u < schema_overlap bag t) ->
  (forall u, In u after -> schema_overlap bag u <= schema_overlap bag t) ->
  exists call,
    Ollama._parse_json_tool_call_from_content (JStr content)
      (Some (Probe.format_tools_for_ollama (before ++ t :: after)))
    = Ok (Some call)
    /\ call_target call = Some (MCP.name t, JStr (json_dumps (JObj bag))).
Proof.
  intros Hshape Hparse Hlacks Hschema Hname Hpos Hbefore Hafter.
  assert (Hn : first_truthy name_aliases bag = None).
  { apply first_truthy_lacks. intros k Hin. apply Hlacks, in_or_app. now left. }
  assert (Hwf : Forall (fun d => well_formed_tool d = true)
                       (map Probe.ollama_tool before
                        ++ Probe.ollama_tool t :: map Probe.ollama_tool after)).
  { rewrite Forall_forall in Hschema. apply Forall_forall. intros d Hd.
    apply list_elem_of_In in Hd.
    change (Probe.ollama_tool t :: map Probe.ollama_tool after)
      with (map Probe.ollama_tool (t :: after)) in Hd.
    rewrite <- map_app in Hd. apply in_map_iff in Hd as (u & <- & Hu).
    apply (ollama_tool_accessors u bag). apply Hschema.
    now apply list_elem_of_In. }
  assert (Ht : is_Some (schema_properties (MCP.input_schema t))).
  { rewrite Forall_forall in Hschema. apply Hschema.
    apply list_elem_of_In, in_or_app. right. now left. }
  destruct (ollama_tool_accessors t bag Ht) as (_ & Htn & Hts).
  assert (Hscore : forall (l : list MCP.MCPTool) (d : json),
             Forall (fun u => is_Some (schema_properties (MCP.input_schema u))) l ->
             In d (map Probe.ollama_tool l) ->
             exists u, In u l /\ overlap_count bag d = schema_overlap bag u).
  { intros l d Hl Hd. apply in_map_iff in Hd as (u & <- & Hu).
    exists u. split; [exact Hu|]. apply (ollama_tool_accessors u bag).
    rewrite Forall_forall in Hl. now apply Hl, list_elem_of_In. }
  apply Forall_app in Hschema as [Hsb Hsa].
  inversion Hsa as [|? ? _ Hsafter]; subst.
  assert (Hloop :
    Ollama.best_match_loop (JObj bag)
      (map Probe.ollama_tool before
       ++ Probe.ollama_tool t :: map Probe.ollama_tool after) JNull 0
    = Ok (MCP.name t, schema_overlap bag t)).
  { rewrite <- Htn, <- Hts.
    apply (best_match_loop_winner bag); [exact Hwf | now rewrite Hts | |].
    - intros d Hd. destruct (Hscore before d Hsb Hd)
        as (u & Hu & ->). rewrite Hts. now apply Hbefore.
    - intros d Hd. destruct (Hscore after d Hsafter Hd)
        as (u & Hu & ->). rewrite Hts. now apply Hafter. }
  unfold Probe.format_tools_for_ollama. rewrite map_app. cbn [map].
  destruct (map Probe.ollama_tool before
            ++ Probe.ollama_tool t :: map Probe.ollama_tool after)%list
    as [|d ds] eqn:Hl; [now destruct (map Probe.ollama_tool before)|].
  rewrite (recovery_on_dict content d ds bag Hshape Hparse), Hn.
  unfold Ollama.inferred_call. rewrite Hloop. cbn [res_bind]. rewrite Hname.
  destruct (Z.gtb_spec (schema_overlap bag t) 0) as [_|Hle]; [|lia].
  eexists. split; reflexivity.
Qed.

(** From a catalog that holds [search] then [fetch], the content
    [{"url": "http://x"}] is matched to [fetch]. *)
Lemma catalog_tool_is_recovered_witness :
  schema_overlap [("url", JStr "http://x")] mcp_search = 0
  /\ schema_overlap [("url", JStr "http://x")] mcp_fetch = 1
  /\ exists call,
       Ollama._parse_json_tool_call_from_content (lib := Ref.lib)
         (JStr (Ref.dq "{'url': 'http://x'}"))
         (Some (Probe.format_tools_for_ollama [mcp_search; mcp_fetch]))
       = Ok (Some call)
       /\ call_target call
          = Some (JStr "fetch", JStr (Ref.dq "{'url': 'http://x'}")).
Proof.
  split; [vm_compute; reflexivity|]. split; [vm_compute; reflexivity|].
  apply (catalog_tool_is_recovered (lib := Ref.lib) (Ref.dq "{'url': 'http://x'}")
           [mcp_search] mcp_fetch [] [("url", JStr "http://x")] eq_refl eq_refl).
  - intros k Hin. simpl in Hin.
    repeat (destruct Hin as [<-|Hin]; [reflexivity|]). destruct Hin.
  - repeat constructor; simpl; eauto.
  - reflexivity.
  - vm_compute. reflexivity.
  - intros u [<-|[]]. vm_compute. reflexivity.
  - intros u [].
Defined.

(* ===================================================================== *)
(** * The constructors *)
(* ===================================================================== *)

Lemma list_ascii_of_string_app (a b : string) :
  list_ascii_of_string (a ++ b)
  = (list_ascii_of_string a ++ list_ascii_of_string b)%list.
Proof. induction a as [|c a IH]; [reflexivity|]. simpl. now rewrite IH. Qed.

Lemma string_of_list_ascii_app2 (a b : list ascii) :
  string_of_list_ascii (a ++ b)%list
  = (string_of_list_ascii a ++ string_of_list_ascii b)%string.
Proof. induction a as [|c a IH]; [reflexivity|]. simpl. now rewrite IH. Qed.

Lemma rev_involutive (s : string) : PyStr.rev (PyStr.rev s) = s.
Proof.
  unfold PyStr.rev. rewrite list_ascii_of_string_of_list_ascii.
  rewrite List.rev_involutive. apply string_of_list_ascii_of_string.
Qed.

Lemma rev_app (a b : string) :
  PyStr.rev (a ++ b) = (PyStr.rev b ++ PyStr.rev a)%string.
Proof.
  unfold PyStr.rev. rewrite list_ascii_of_string_app, List.rev_app_distr.
  apply string_of_list_ascii_app2.
Qed.

Lemma rev_slashes (n : nat) : PyStr.rev (slashes n) = slashes n.
Proof.
  induction n as [|n IH]; [reflexivity|].
  change (slashes (S n)) with ("/" ++ slashes n)%string at 1.
  rewrite rev_app, IH. clear IH.
  induction n as [|n IH]; [reflexivity|]. simpl. f_equal. exact IH.
Qed.

(** Stripping on the left takes off a run of slashes and stops at a
    character that is none. *)
Lemma lstrip_slashes (s : string) :
  String.prefix "/" (PyStr.lstrip_char "/" s) = false
  /\ exists n, s = (slashes n ++ PyStr.lstrip_char "/" s)%string.
Proof.
  induction s as [|c s [IHp (n & IHn)]].
  - split; [reflexivity | now exists O].
  - cbn [PyStr.lstrip_char]. destruct (Ascii.eqb c "/") eqn:E.
    + apply Ascii.eqb_eq in E. subst c. split; [exact IHp|].
      exists (S n). simpl. now f_equal.
    + split; [|now exists O].
      rewrite prefix_cons, Ascii.eqb_sym, E. reflexivity.
Qed.

(** [url.rstrip('/')] is the URL without its trailing slashes. *)
Lemma rstrip_slashes (url : string) :
  PyStr.endswith "/" (PyStr.rstrip_char "/" url) = false
  /\ exists n, url = (PyStr.rstrip_char "/" url ++ slashes n)%string.
Proof.
  unfold PyStr.endswith, PyStr.rstrip_char. rewrite rev_involutive.
  destruct (lstrip_slashes (PyStr.rev url)) as (Hp & n & Hn). split.
  - exact Hp.
  - exists n. rewrite <- (rev_involutive url) at 1. rewrite Hn at 1.
    now rewrite rev_app, rev_slashes.
Qed.

(** X11.  The constructor of [OllamaClient] accepts the backend selectors
    that read [ollama] or [vllm] in any case, and no other: on these it
    returns a client whose [backend] is the selector in lower case, hence
    one of the two, and whose [base_url] is the URL without its trailing
    slashes; on every other selector it raises [ValueError]. *)
Theorem ollama_constructor (url mdl : string) (temp : float) (ctx tmo : Z)
    (bk : string) :
  (legal_backend bk = true ->
   exists c,
     Ollama.init url mdl temp ctx tmo bk = Ok c
     /\ Ollama.backend c = PyStr.lower bk
     /\ (Ollama.backend c = "ollama" \/ Ollama.backend c = "vllm")
     /\ PyStr.endswith "/" (Ollama.base_url c) = false
     /\ exists n, url = (Ollama.base_url c ++ slashes n)%string)
  /\ (legal_backend bk = false ->
      exists msg, Ollama.init url mdl temp ctx tmo bk = Raise (ValueError msg)).
Proof.
  unfold legal_backend, Ollama.init. split; intros Hb; rewrite Hb.
  - eexists. split; [reflexivity|]. cbn [Ollama.backend Ollama.base_url].
    destruct (rstrip_slashes url) as (Hp & Hn).
    repeat split; try assumption.
    apply orb_true_iff in Hb as [Hb|Hb]; apply String.eqb_eq in Hb; auto.
  - eexists. reflexivity.
Qed.

(** [VLLM] with three trailing slashes on the URL gives a [vllm] client
    on the bare URL; [openai] is refused. *)
Lemma ollama_constructor_witness :
  (exists c,
      Ollama.init "http://localhost:8000///" "gpt-oss:20b" 0.5%float 4096 120 "VLLM"
      = Ok c
      /\ Ollama.backend c = "vllm"
      /\ Ollama.base_url c = "http://localhost:8000")
  /\ exists msg,
       Ollama.init "http://localhost:8000" "gpt-oss:20b" 0.5%float 4096 120 "openai"
       = Raise (ValueError msg).
Proof.
  split.
  - destruct (proj1 (ollama_constructor "http://localhost:8000///" "gpt-oss:20b"
                       0.5%float 4096 120 "VLLM") eq_refl)
      as (c & Hc & _).
    exists c. split; [exact Hc|].
    cbv in Hc. inversion Hc. split; reflexivity.
  - apply (proj2 (ollama_constructor "http://localhost:8000" "gpt-oss:20b"
                    0.5%float 4096 120 "openai")).
    reflexivity.
Defined.

(** X12.  The handshake of a newly constructed [MCPClient] is the one
    request it sends: a [POST] to the given URL without its trailing
    slashes, with the two headers the constructor set and no session
    identifier. *)
Theorem mcp_constructor `{lib : PyLib} (srv : Server) (url : string) (tmo : Z)
    (uuid : string) :
  exists rq,
    sent (snd (MCP.initialize srv (fresh (MCP.init url tmo uuid)))) = [rq]
    /\ rq_method rq = "POST"
    /\ PyStr.endswith "/" (rq_url rq) = false
    /\ (exists n, url = (rq_url rq ++ slashes n)%string)
    /\ rq_headers rq = default_headers
    /\ header_get "mcp-session-id" (rq_headers rq) = None.
Proof.
  destruct (initialize_run srv (fresh (MCP.init url tmo uuid)) eq_refl)
    as (b & Hrun).
  rewrite Hrun. cbn [snd sent fresh self app].
  eexists. split; [reflexivity|].
  destruct (rstrip_slashes url) as (Hp & Hn).
  repeat split; assumption.
Qed.

(* ===================================================================== *)
(** * The heuristic's filter and the normalization *)
(* ===================================================================== *)

Section Normalization.
Context `{lib : PyLib}.

(** X13.  Content that, once trimmed, does not begin with [{] and end
    with [}] is never taken for a tool call: the heuristic returns [None]
    without decoding it and without looking at the tools, ill-formed ones
    included. *)
Theorem shape_filter_rejects (content : string) (tools : option (list json)) :
  PyStr.startswith "{" (PyStr.strip content)
  && PyStr.endswith "}" (PyStr.strip content) = false ->
  Ollama._parse_json_tool_call_from_content (JStr content) tools = Ok None.
Proof.
  intros Hs. unfold Ollama._parse_json_tool_call_from_content.
  destruct tools as [[|tool rest]|]; try reflexivity.
  destruct (negb (truthy (JStr content))); [reflexivity|].
  now rewrite Hs.
Qed.

(** X14.  The heuristic never overrides what the backend returned
    otherwise.  The content and the tool calls of the first choice's
    message come back as they are in the normalized response when the
    message has structured tool calls (whatever the content looks like),
    when no tools were offered, and when there are no tool calls and the
    heuristic finds none. *)
Theorem normalize_passes_through (openai_response message content tool_calls : json)
    (tools : option (list json)) :
  first_message openai_response = Ok message ->
  py_get message "content" (JStr "") = Ok content ->
  py_get message "tool_calls" JNull = Ok tool_calls ->
  ((exists call calls, tool_calls = JArr (call :: calls)) ->
   Ollama.normalize openai_response tools = Ok (normalized content tool_calls))
  /\ (tools = None \/ tools = Some [] ->
      Ollama.normalize openai_response tools = Ok (normalized content tool_calls))
  /\ (truthy tool_calls = false ->
      Ollama._parse_json_tool_call_from_content content tools = Ok None ->
      Ollama.normalize openai_response tools = Ok (normalized content tool_calls)).
Proof.
  intros Hm Hc Ht. unfold first_message in Hm. unfold Ollama.normalize.
  destruct (py_getitem openai_response "choices") as [choices|]; [|discriminate].
  cbn [res_bind] in *.
  destruct (py_first choices) as [choice|]; [|discriminate].
  cbn [res_bind] in *. rewrite Hm. cbn [res_bind]. rewrite Hc, Ht.
  cbn [res_bind]. unfold Ollama.should_recover. repeat split.
  - intros (call & calls & ->). now destruct tools as [[|]|].
  - now intros [->| ->].
  - intros Hf Hrec. rewrite Hf. cbn [negb res_bind andb].
    destruct tools as [[|tool rest]|]; try reflexivity.
    destruct (truthy content); [|reflexivity].
    cbn [res_bind]. now rewrite Hrec.
Qed.

End Normalization.

(** Prose against a tool list that holds a string where a definition
    should be: the heuristic returns [None]. *)
Lemma shape_filter_rejects_witness :
  Ollama._parse_json_tool_call_from_content (lib := Ref.lib)
    (JStr "I will search for x {now}.") (Some [JStr "search"])
  = Ok None.
Proof.
  apply (shape_filter_rejects (lib := Ref.lib) "I will search for x {now}."
           (Some [JStr "search"])).
  reflexivity.
Defined.

(** A message with a structured call to [fetch] and the bag
    [{"q":"x","limit":5}] as content keeps both, with [search] offered. *)
Lemma normalize_passes_through_witness :
  json_loads (PyLib := Ref.lib) structured_completion
  = Some (JObj [("choices", JArr [JObj [("message", structured_message)]])])
  /\ Ollama.normalize (lib := Ref.lib)
       (JObj [("choices", JArr [JObj [("message", structured_message)]])])
       (Some [search_tool; fetch_tool])
     = Ok (normalized (JStr (Ref.dq "{'q':'x','limit':5}")) (JArr [fetch_call])).
Proof.
  split; [vm_compute; reflexivity|].
  apply (proj1 (normalize_passes_through (lib := Ref.lib)
                  (JObj [("choices", JArr [JObj [("message", structured_message)]])])
                  structured_message (JStr (Ref.dq "{'q':'x','limit':5}"))
                  (JArr [fetch_call]) (Some [search_tool; fetch_tool])
                  eq_refl eq_refl eq_refl)).
  exists fetch_call, []. reflexivity.
Defined.

(* ===================================================================== *)
(** * Failures of the chat, streams, and the model catalog *)
(* ===================================================================== *)

Section Backend.
Context `{lib : PyLib}.
Variable srv : Server.

(** X15.  Under both dialects a non-streaming [chat] sends one request
    and lets a transport failure through as the [httpx.HTTPError] it is. *)
Theorem chat_propagates_transport_failure (w : World Ollama.OllamaClient)
    (messages : json) (tools : option (list json)) (kwargs : list (string * json))
    (msg : string) :
  srv (sent w) (chat_request (self w) messages tools kwargs) = Failed msg ->
  Ollama.chat srv messages false tools kwargs w
  = (Raise (HTTPError msg),
     {| self := self w;
        sent := sent w ++ [chat_request (self w) messages tools kwargs] |}).
Proof.
  unfold chat_request, native_chat_request, completions_request.
  unfold Ollama.chat, Ollama._chat_ollama, Ollama._chat_vllm. run.
  destruct (String.eqb (Ollama.backend (self w)) "ollama"); run;
    intros ->; reflexivity.
Qed.

(** X16.  Under the OpenAI-compatible dialect a reply that is no
    completion is not turned into a response, and nothing catches the
    exception: a body that [json.loads] does not decode raises the
    decoder's exception ([JSONDecodeError] for a malformed body, a plain
    [ValueError] for an integer beyond the digit limit, [RecursionError]
    for nesting beyond the recursion limit), a reply without [choices]
    raises [KeyError], and an empty [choices] list raises [IndexError]. *)
Theorem chat_raises_on_malformed_completion (w : World Ollama.OllamaClient)
    (messages : json) (tools : option (list json)) (kwargs : list (string * json))
    (r : Response) :
  String.eqb (Ollama.backend (self w)) "ollama" = false ->
  answers srv (sent w) (completions_request (self w) messages tools kwargs) r ->
  (json_loads (rs_text r) = None ->
   fst (Ollama.chat srv messages false tools kwargs w)
   = Raise (decoder_exception (json_loads_failure (rs_text r))))
  /\ (forall kvs,
        json_loads (rs_text r) = Some (JObj kvs) ->
        (dict_lookup "choices" kvs = None ->
         fst (Ollama.chat srv messages false tools kwargs w)
         = Raise (KeyError "choices"))
        /\ (dict_lookup "choices" kvs = Some (JArr []) ->
            fst (Ollama.chat srv messages false tools kwargs w)
            = Raise IndexError)).
Proof.
  unfold answers, completions_request. intros Hb Hr.
  unfold Ollama.chat, Ollama._chat_vllm. run. rewrite Hb. run. rewrite Hr. run.
  unfold loads. split.
  - intros ->. run.
    now destruct (json_loads_failure (rs_text r)).
  - intros kvs ->. run. unfold Ollama.normalize. cbn [py_getitem].
    split; intros ->; reflexivity.
Qed.

(** The chunks of lines that decode, followed by what the rest of the
    stream gives. *)
Lemma stream_chunks_decoded (lines : list string) (chunks : list json)
    (rest : list string) :
  Forall2 decodes_to lines chunks ->
  Ollama.stream_chunks (lines ++ rest)
  = ((chunks ++ fst (Ollama.stream_chunks rest))%list,
     snd (Ollama.stream_chunks rest)).
Proof.
  induction 1 as [|line chunk lines chunks [Hne Hl] _ IH];
    cbn [app Ollama.stream_chunks].
  - now destruct (Ollama.stream_chunks rest).
  - apply String.eqb_neq in Hne. rewrite Hne. unfold loads. rewrite Hl.
    now rewrite IH.
Qed.

(** X17.  In a stream whose other lines decode, a line that is empty or
    that [json.loads] rejects with [json.JSONDecodeError] is skipped: the
    chunks of the lines before it and of the lines after it are yielded,
    in order, and the stream ends normally.  A line that makes
    [json.loads] raise another exception (a plain [ValueError] or a
    [RecursionError]) ends the stream with that exception after the
    chunks of the lines before it.  [_stream_chat] and
    [_stream_generate] behave alike. *)
Theorem stream_skips_undecodable_line (w : World Ollama.OllamaClient)
    (payload : json) (r : Response) (before : list string) (line : string)
    (after : list string) (yielded later : list json) :
  iter_lines (rs_text r) = (before ++ line :: after)%list ->
  Forall2 decodes_to before yielded ->
  Forall2 decodes_to after later ->
  (line <> "" -> json_loads line = None) ->
  let outcome :=
    if String.eqb line "" then ((yielded ++ later)%list, None)
    else match json_loads_failure line with
         | Malformed => ((yielded ++ later)%list, None)
         | DigitLimit msg => (yielded, Some (ValueError msg))
         | TooDeep => (yielded, Some RecursionError)
         end in
  (answers srv (sent w)
           (Ollama.post (Ollama.base_url (self w) ++ "/api/chat") payload) r ->
   fst (Ollama._stream_chat srv payload w) = Ok outcome)
  /\ (answers srv (sent w)
              (Ollama.post (Ollama.base_url (self w) ++ "/api/generate") payload) r ->
      fst (Completion._stream_generate srv payload w) = Ok outcome).
Proof.
  intros Hlines Hbefore Hafter Hline outcome.
  assert (Hchunks : Ollama.stream_chunks (before ++ line :: after) = outcome).
  { rewrite (stream_chunks_decoded before yielded (line :: after) Hbefore).
    pose proof (stream_chunks_decoded after later [] Hafter) as Hrest.
    rewrite !app_nil_r in Hrest. cbn [Ollama.stream_chunks fst snd] in Hrest.
    cbn [Ollama.stream_chunks]. subst outcome.
    destruct (String.eqb line "") eqn:He.
    - now rewrite Hrest.
    - apply String.eqb_neq in He. unfold loads. rewrite (Hline He).
      destruct (json_loads_failure line); cbn [raised_by is_JSONDecodeError fst snd].
      + now rewrite Hrest.
      + now rewrite app_nil_r.
      + now rewrite app_nil_r. }
  unfold answers.
  split; intros Hr; unfold Ollama._stream_chat, Completion._stream_generate; run;
    rewrite Hr; run; now rewrite Hlines, Hchunks.
Qed.

(** X18.  [pull_model] never raises.  Under the OpenAI-compatible dialect
    it returns [False] and sends nothing.  Under the native dialect it
    sends one request, for the model named or else the client's own, and
    returns whether the server accepted it. *)
Theorem pull_model_outcome (w : World Ollama.OllamaClient)
    (model_name : option string) :
  Completion.pull_model srv model_name w
  = if String.eqb (Ollama.backend (self w)) "ollama"
    then (Ok match srv (sent w) (pull_request (self w) model_name) with
             | Replied _ => true
             | Failed _ => false
             end,
          {| self := self w;
             sent := sent w ++ [pull_request (self w) model_name] |})
    else (Ok false, w).
Proof.
  unfold Completion.pull_model, pull_request. run.
  destruct (String.eqb (Ollama.backend (self w)) "ollama"); cbn [negb]; run;
    [|reflexivity].
  now destruct (srv (sent w) _).
Qed.

(** X19.  On a model listing whose entries are dicts,
    [check_model_exists] answers whether some entry names the model (the
    client's own model when none, or the empty name, is asked for) under
    the dialect's key; a reply without the listing key lists nothing. *)
Theorem check_model_exists_finds_name (w : World Ollama.OllamaClient)
    (model_name : option string) (r : Response) (data : list (string * json))
    (entries : list json) :
  answers srv (sent w) (models_request (self w)) r ->
  json_loads (rs_text r) = Some (JObj data) ->
  value_or data (listing_key (self w)) (JArr []) = JArr entries ->
  forallb is_dict entries = true ->
  fst (Ollama.check_model_exists srv model_name w)
  = Ok (existsb (names_model (name_key (self w))
                             (Completion.effective_model (self w) model_name))
                entries).
Proof.
  unfold answers, models_request, listing_key, name_key, value_or.
  intros Hr Hl Hd He.
  assert (Hnames : forall key name,
             exists ns,
               Ollama.names_of key entries = Ok ns
               /\ str_in_list name ns = existsb (names_model key name) entries).
  { intros key name. clear Hd. induction entries as [|e es IH].
    - exists []. split; reflexivity.
    - cbn [forallb] in He. apply andb_true_iff in He as [Hdict Hes].
      destruct (IH Hes) as (ns & Hns & Hin).
      destruct e as [| | | | | |kvs]; try discriminate.
      eexists. cbn [Ollama.names_of py_get res_bind]. rewrite Hns.
      cbn [res_bind]. split; [reflexivity|].
      cbn [str_in_list existsb names_model] in *. rewrite <- Hin.
      unfold value_or, Probe.py_eq_str, str_in_list.
      destruct (dict_lookup key kvs) as [[| | | |s| |]|]; reflexivity. }
  unfold Ollama.check_model_exists, Ollama.list_models,
    Completion.effective_model. run.
  destruct (String.eqb (Ollama.backend (self w)) "ollama"); run;
    unfold Ollama.get in *; rewrite Hr; run; unfold loads; rewrite Hl; run;
    cbn [py_get]; rewrite Hd; cbn [py_iter]; run;
    match goal with
    | |- context [Ollama.names_of ?key entries] =>
        destruct (Hnames key
                    match model_name with
                    | Some s => if String.eqb s "" then Ollama.model (self w) else s
                    | None => Ollama.model (self w)
                    end) as (ns & -> & <-)
    end; reflexivity.
Qed.

End Backend.

(** With the server out of reach, [chat] raises under both dialects. *)
Lemma chat_propagates_transport_failure_witness :
  fst (Ollama.chat (lib := Ref.lib) unreachable one_question false None []
         (fresh vllm_client))
  = Raise (HTTPError "All connection attempts failed")
  /\ fst (Ollama.chat (lib := Ref.lib) unreachable one_question false
            (Some [search_tool]) [] (fresh ollama_client))
     = Raise (HTTPError "All connection attempts failed").
Proof.
  split.
  - rewrite (chat_propagates_transport_failure (lib := Ref.lib) unreachable
               (fresh vllm_client) one_question None []
               "All connection attempts failed" eq_refl).
    reflexivity.
  - rewrite (chat_propagates_transport_failure (lib := Ref.lib) unreachable
               (fresh ollama_client) one_question (Some [search_tool]) []
               "All connection attempts failed" eq_refl).
    reflexivity.
Defined.

(** An error page, an empty object and an empty list of choices in place
    of a completion. *)
Lemma chat_raises_on_malformed_completion_witness :
  fst (Ollama.chat (lib := Ref.lib) (Ref.always "Internal Server Error")
         one_question false None [] (fresh vllm_client))
  = Raise JSONDecodeError
  /\ fst (Ollama.chat (lib := Ref.lib) (Ref.always "{}") one_question false None []
            (fresh vllm_client))
     = Raise (KeyError "choices")
  /\ fst (Ollama.chat (lib := Ref.lib) (Ref.always (Ref.dq "{'choices': []}"))
            one_question false None [] (fresh vllm_client))
     = Raise IndexError.
Proof.
  split; [|split].
  - apply (proj1 (chat_raises_on_malformed_completion (lib := Ref.lib)
                    (Ref.always "Internal Server Error") (fresh vllm_client)
                    one_question None []
                    {| rs_headers := []; rs_text := "Internal Server Error" |}
                    eq_refl eq_refl)).
    reflexivity.
  - apply (proj1 (proj2 (chat_raises_on_malformed_completion (lib := Ref.lib)
                    (Ref.always "{}") (fresh vllm_client) one_question None []
                    {| rs_headers := []; rs_text := "{}" |} eq_refl eq_refl)
                    [] eq_refl)).
    reflexivity.
  - apply (proj2 (proj2 (chat_raises_on_malformed_completion (lib := Ref.lib)
                    (Ref.always (Ref.dq "{'choices': []}")) (fresh vllm_client)
                    one_question None []
                    {| rs_headers := []; rs_text := Ref.dq "{'choices': []}" |}
                    eq_refl eq_refl)
                    [("choices", JArr [])] eq_refl)).
    reflexivity.
Defined.

(** A stream whose second line is no JSON yields its first and its third
    line; a stream whose second line is nested too deep yields its first
    line and ends with [RecursionError]. *)
Lemma stream_skips_undecodable_line_witness :
  fst (Ollama._stream_chat (lib := Ref.lib) (Ref.always broken_stream)
         (JObj []) (fresh ollama_client))
  = Ok ([JObj [("done", JBool false)]; JObj [("done", JBool true)]], None)
  /\ fst (Ollama._stream_chat (lib := Ref.lib) (Ref.always choked_stream)
            (JObj []) (fresh ollama_client))
     = Ok ([JObj [("done", JBool false)]], Some RecursionError).
Proof.
  assert (Hfirst : Forall2 (decodes_to (lib := Ref.lib))
                     [Ref.dq "{'done': false}"] [JObj [("done", JBool false)]]).
  { repeat constructor. discriminate. }
  assert (Hthird : Forall2 (decodes_to (lib := Ref.lib))
                     [Ref.dq "{'done': true}"] [JObj [("done", JBool true)]]).
  { repeat constructor. discriminate. }
  split.
  - apply (proj1 (stream_skips_undecodable_line (lib := Ref.lib)
                    (Ref.always broken_stream) (fresh ollama_client) (JObj [])
                    {| rs_headers := []; rs_text := broken_stream |}
                    [Ref.dq "{'done': false}"] "data lost"
                    [Ref.dq "{'done': true}"]
                    [JObj [("done", JBool false)]] [JObj [("done", JBool true)]]
                    eq_refl Hfirst Hthird (fun _ => eq_refl))).
    reflexivity.
  - assert (Hdeep : json_loads (PyLib := Ref.lib) (brackets 1000 "") = None)
      by (vm_compute; reflexivity).
    assert (Hlines : iter_lines (PyLib := Ref.lib) choked_stream
                     = [Ref.dq "{'done': false}"; brackets 1000 "";
                        Ref.dq "{'done': true}"])
      by (vm_compute; reflexivity).
    assert (Hfail : json_loads_failure (PyLib := Ref.lib) (brackets 1000 "")
                    = TooDeep)
      by (vm_compute; reflexivity).
    pose proof (proj1 (stream_skips_undecodable_line (lib := Ref.lib)
                         (Ref.always choked_stream) (fresh ollama_client) (JObj [])
                         {| rs_headers := []; rs_text := choked_stream |}
                         [Ref.dq "{'done': false}"] (brackets 1000 "")
                         [Ref.dq "{'done': true}"]
                         [JObj [("done", JBool false)]]
                         [JObj [("done", JBool true)]]
                         Hlines Hfirst Hthird (fun _ => Hdeep)) eq_refl) as Hrun.
    cbv zeta in Hrun. rewrite Hfail in Hrun.
    replace (String.eqb (brackets 1000 "") "") with false in Hrun
      by (vm_compute; reflexivity).
    exact Hrun.
Defined.

(** The client's own model is found in a listing that has it; a model the
    listing lacks is not. *)
Lemma check_model_exists_finds_name_witness :
  fst (Ollama.check_model_exists (lib := Ref.lib) (Ref.always native_listing) None
         (fresh ollama_client)) = Ok true
  /\ fst (Ollama.check_model_exists (lib := Ref.lib) (Ref.always native_listing)
            (Some "mistral") (fresh ollama_client)) = Ok false.
Proof.
  split.
  - rewrite (check_model_exists_finds_name (lib := Ref.lib)
               (Ref.always native_listing) (fresh ollama_client) None
               {| rs_headers := []; rs_text := native_listing |}
               [("models", JArr [JObj [("name", JStr "llama3:8b")];
                                 JObj [("name", JStr "gpt-oss:20b")]])]
               [JObj [("name", JStr "llama3:8b")];
                JObj [("name", JStr "gpt-oss:20b")]]
               eq_refl ltac:(vm_compute; reflexivity) eq_refl eq_refl).
    reflexivity.
  - rewrite (check_model_exists_finds_name (lib := Ref.lib)
               (Ref.always native_listing) (fresh ollama_client) (Some "mistral")
               {| rs_headers := []; rs_text := native_listing |}
               [("models", JArr [JObj [("name", JStr "llama3:8b")];
                                 JObj [("name", JStr "gpt-oss:20b")]])]
               [JObj [("name", JStr "llama3:8b")];
                JObj [("name", JStr "gpt-oss:20b")]]
               eq_refl ltac:(vm_compute; reflexivity) eq_refl eq_refl).
    reflexivity.
Defined.
(* ===================================================================== *)
(** * Completion, and the catalog as a prompt *)
(* ===================================================================== *)

(** X20.  [generate] does not look at the backend: on a client that
    differs in its backend only it returns the same result and sends the
    same requests, the native completion request under the
    OpenAI-compatible dialect too. *)
Theorem generate_ignores_backend `{lib : PyLib} (srv : Server)
    (w : World Ollama.OllamaClient) (bk : string) (prompt : string)
    (stream : bool) (kwargs : list (string * json)) :
  fst (Completion.generate srv prompt stream kwargs
         {| self := with_backend bk (self w); sent := sent w |})
  = fst (Completion.generate srv prompt stream kwargs w)
  /\ sent (snd (Completion.generate srv prompt stream kwargs
                  {| self := with_backend bk (self w); sent := sent w |}))
     = sent (snd (Completion.generate srv prompt stream kwargs w))
  /\ sent (snd (Completion.generate srv prompt stream kwargs w))
     = if stream then sent w
       else (sent w ++ [generate_request (self w) prompt kwargs])%list.
Proof.
  unfold Completion.generate, generate_request, Completion.generate_payload,
    with_backend. run.
  destruct stream; [repeat split|]. run.
  cbn [self sent Ollama.base_url Ollama.model Ollama.temperature Ollama.num_ctx].
  destruct (srv (sent w) _) as [msg|r]; [repeat split|]. run.
  destruct (loads (rs_text r)) as [data|e]; [repeat split|].
  run. destruct (is_HTTPError e); repeat split.
Qed.

(** ** Substrings *)

Lemma prefix_app_l (p s b : string) :
  String.prefix p s = true -> String.prefix p (s ++ b) = true.
Proof.
  revert s. induction p as [|c p IH]; intros s H; [apply prefix_nil|].
  destruct s as [|d s]; [discriminate|].
  cbn [String.append]. rewrite prefix_cons in *.
  apply andb_true_iff in H as [-> H]. now rewrite (IH _ H).
Qed.

Lemma contains_prefix (p s : string) :
  String.prefix p s = true -> PyStr.contains p s = true.
Proof. intros H. destruct s; cbn [PyStr.contains]; now rewrite H. Qed.

Lemma contains_app_r (p a b : string) :
  PyStr.contains p b = true -> PyStr.contains p (a ++ b) = true.
Proof.
  intros H. induction a as [|c a IH]; [exact H|].
  cbn [String.append PyStr.contains]. rewrite IH. apply orb_true_r.
Qed.

Lemma contains_app_l (p a b : string) :
  PyStr.contains p a = true -> PyStr.contains p (a ++ b) = true.
Proof.
  induction a as [|c a IH]; intros H.
  - apply contains_prefix. cbn [PyStr.contains] in H.
    rewrite orb_false_r in H. now apply (prefix_app_l p "" b).
  - cbn [PyStr.contains] in H. apply orb_true_iff in H as [H|H].
    + apply contains_prefix. now apply prefix_app_l.
    + cbn [String.append PyStr.contains]. rewrite (IH H). apply orb_true_r.
Qed.

Lemma prefix_three (a b c r : string) :
  String.prefix (a ++ b ++ c) (a ++ b ++ c ++ r) = true.
Proof.
  replace (a ++ b ++ c ++ r)%string with ((a ++ b ++ c) ++ r)%string
    by now rewrite !append_assoc.
  apply startswith_app.
Qed.

(** ** The descriptions *)

Section PromptText.
Variable text_of : json -> string.

Lemma param_lines_ok (required : json) (items : list (string * json)) :
  (forall k, exists b, py_contains k required = Ok b) ->
  forallb (fun kv => is_dict (snd kv)) items = true ->
  exists lines,
    Prompt.param_lines text_of required items = Ok lines
    /\ Forall2 (fun kv line =>
                  String.prefix ("  - " ++ fst kv ++ " (") line = true)
               items lines.
Proof.
  intros Hreq. induction items as [|[k info] rest IH]; intros Hd.
  - exists []. split; [reflexivity | constructor].
  - cbn [forallb snd] in Hd. apply andb_true_iff in Hd as [Hinfo Hrest].
    destruct (IH Hrest) as (lines & Hlines & Hall).
    destruct info as [| | | | | |kvs]; try discriminate.
    destruct (Hreq k) as (b & Hb).
    cbn [Prompt.param_lines]. unfold Prompt.param_line.
    cbn [py_get res_bind]. rewrite Hb. cbn [res_bind]. rewrite Hlines.
    cbn [res_bind]. eexists. split; [reflexivity|].
    constructor; [|exact Hall]. cbn [fst]. apply prefix_three.
Qed.

Lemma join_contains (pre : string * json -> string)
    (items : list (string * json)) (lines : list string) (kv : string * json) :
  Forall2 (fun kv line => String.prefix (pre kv) line = true) items lines ->
  In kv items ->
  PyStr.contains (pre kv) (join Prompt.NL lines) = true.
Proof.
  induction 1 as [|kv0 line items' lines' Hp Hall IH]; intros Hin; [destruct Hin|].
  destruct Hin as [->|Hin].
  - destruct lines' as [|l ls]; cbn [join].
    + now apply contains_prefix.
    + apply contains_app_l. now apply contains_prefix.
  - destruct lines' as [|l ls]; [inversion Hall; subst; destruct Hin|].
    cbn [join]. apply contains_app_r, contains_app_r. now apply IH.
Qed.

Lemma describe_ok (t : MCP.MCPTool) :
  describable t = true ->
  exists d, Prompt.describe text_of t = Ok d /\ describes t d.
Proof.
  unfold describable, describes, lists_properties, schema_properties,
    Prompt.describe, value_or.
  destruct (MCP.input_schema t) as [| | | | | |s]; try discriminate.
  cbn [py_get res_bind].
  assert (Hcases :
    forall props,
      forallb (fun kv => is_dict (snd kv)) props
      && match props, match dict_lookup "required" s with
                      | Some v => v
                      | None => JArr []
                      end with
         | [], _ => true
         | _, JArr _ => true
         | _, JStr _ => true
         | _, JObj _ => true
         | _, _ => false
         end = true ->
      exists d,
        (params <-! Prompt.param_lines text_of
                      match dict_lookup "required" s with
                      | Some x => x
                      | None => JArr []
                      end props ;
         Ok (JObj [("name", MCP.name t); ("description", MCP.description t);
                   ("parameters", JStr match params with
                                       | [] => "  No parameters"
                                       | _ :: _ => join Prompt.NL params
                                       end)]))%res = Ok d
        /\ exists parameters,
             d = JObj [("name", MCP.name t); ("description", MCP.description t);
                       ("parameters", JStr parameters)]
             /\ (Some (dict_keys props) = Some [] -> parameters = "  No parameters")
             /\ forall props0 p,
                  Some (dict_keys props) = Some props0 -> In p props0 ->
                  PyStr.contains ("  - " ++ p ++ " (") parameters = true).
  { intros props Hp. apply andb_true_iff in Hp as [Hdicts Hreq].
    destruct props as [|kv0 props'].
    - eexists. split; [reflexivity|]. eexists. split; [reflexivity|].
      split; [reflexivity|]. intros props0 p [= <-] [].
    - assert (Htotal : forall k, exists b,
                 py_contains k match dict_lookup "required" s with
                               | Some x => x
                               | None => JArr []
                               end = Ok b).
      { intros k. destruct (match dict_lookup "required" s with
                            | Some x => x
                            | None => JArr []
                            end); try discriminate; eexists; reflexivity. }
      destruct (param_lines_ok _ (kv0 :: props') Htotal Hdicts)
        as (lines & Hlines & Hall).
      rewrite Hlines. cbn [res_bind].
      eexists. split; [reflexivity|]. eexists. split; [reflexivity|].
      split; [discriminate|].
      intros props0 p [= <-] Hin.
      apply (in_map_iff fst (kv0 :: props') p) in Hin as (kv & <- & Hin).
      inversion Hall as [|? line ? lines' ? ?]; subst.
      exact (join_contains (fun kv => "  - " ++ fst kv ++ " (")%string
               (kv0 :: props') (line :: lines') kv Hall Hin). }
  destruct (dict_lookup "properties" s) as [[| | | | | |props]|];
    try discriminate; cbn [Prompt.py_items res_bind]; apply Hcases.
Qed.

Lemma descriptions_ok (values : list MCP.MCPTool) :
  Forall (fun t => describable t = true) values ->
  exists ds,
    Prompt.get_tool_descriptions text_of values = Ok ds
    /\ Forall2 describes values ds.
Proof.
  induction 1 as [|t rest Ht _ (ds & Hds & Hall)].
  - exists []. split; [reflexivity | constructor].
  - destruct (describe_ok t Ht) as (d & Hd & Hdesc).
    exists (d :: ds). cbn [Prompt.get_tool_descriptions]. rewrite Hd.
    cbn [res_bind]. rewrite Hds. split; [reflexivity | now constructor].
Qed.

(** X21.  On a catalog whose schemas are dicts with a dict of dicts (or
    nothing) as [properties], [get_tool_descriptions] does not raise and
    returns one description per cached tool, in the catalog's order, with
    the tool's name and description as they are and a text of parameters
    that has a line for every property, or reads [No parameters] when
    there is none. *)
Theorem descriptions_follow_catalog (values : list MCP.MCPTool) :
  Forall (fun t => describable t = true) values ->
  exists ds,
    Prompt.get_tool_descriptions text_of values = Ok ds
    /\ Forall2 describes values ds
    /\ List.length ds = List.length values.
Proof.
  intros Hv. destruct (descriptions_ok values Hv) as (ds & Hds & Hall).
  exists ds. split; [exact Hds|]. split; [exact Hall|].
  clear Hds Hv. induction Hall; [reflexivity|]. cbn [List.length]. now f_equal.
Qed.

(** X22.  One cached tool whose [inputSchema] is no dict (a listing may
    give any value there) makes [get_tool_descriptions], and with it
    [format_tools_for_prompt], raise [AttributeError], whatever else the
    catalog holds after it; [format_tools_for_ollama] formats the same
    catalog, that tool included. *)
Theorem description_raises_on_schema_that_is_no_dict
    (before : list MCP.MCPTool) (t : MCP.MCPTool) (after : list MCP.MCPTool) :
  Forall (fun u => describable u = true) before ->
  is_dict (MCP.input_schema t) = false ->
  Prompt.get_tool_descriptions text_of (before ++ t :: after) = Raise AttributeError
  /\ Prompt.format_tools_for_prompt text_of (before ++ t :: after)
     = Raise AttributeError
  /\ In (Probe.ollama_tool t)
        (Probe.format_tools_for_ollama (before ++ t :: after)).
Proof.
  intros Hb Ht.
  assert (Hraise : Prompt.get_tool_descriptions text_of (before ++ t :: after)
                   = Raise AttributeError).
  { induction Hb as [|u rest Hu _ IH]; cbn [app Prompt.get_tool_descriptions].
    - unfold Prompt.describe.
      destruct (MCP.input_schema t) as [| | | | | |s]; try discriminate;
        reflexivity.
    - destruct (describe_ok u Hu) as (d & -> & _). cbn [res_bind].
      now rewrite IH. }
  split; [exact Hraise|]. split.
  - unfold Prompt.format_tools_for_prompt. now rewrite Hraise.
  - unfold Probe.format_tools_for_ollama. apply in_map, in_or_app.
    right. now left.
Qed.

Lemma prompt_loop_ok (values : list MCP.MCPTool) (ds : list json) :
  Forall2 describes values ds ->
  forall formatted,
  exists body,
    Prompt.prompt_loop text_of formatted ds = Ok (formatted ++ body)%string
    /\ forall t, In t values ->
       exists pre parameters post,
         body = (pre ++ entry text_of t parameters ++ post)%string
         /\ lists_properties t parameters.
Proof.
  induction 1 as [|t d values' ds' (parameters & -> & _ & Hprops) _ IH];
    intros formatted.
  - exists "". split; [now rewrite append_empty_r | intros t []].
  - cbn [Prompt.prompt_loop].
    change (py_getitem (JObj [("name", MCP.name t);
                              ("description", MCP.description t);
                              ("parameters", JStr parameters)]) "name")
      with (Ok (MCP.name t)).
    change (py_getitem (JObj [("name", MCP.name t);
                              ("description", MCP.description t);
                              ("parameters", JStr parameters)]) "description")
      with (Ok (MCP.description t)).
    change (py_getitem (JObj [("name", MCP.name t);
                              ("description", MCP.description t);
                              ("parameters", JStr parameters)]) "parameters")
      with (Ok (JStr parameters)).
    cbn [res_bind Prompt.fstr].
    match goal with
    | |- context [Prompt.prompt_loop text_of ?acc ds'] =>
        destruct (IH acc) as (body & Hbody & Hin)
    end.
    rewrite Hbody.
    exists (entry text_of t parameters ++ body)%string. split.
    + f_equal. unfold entry, entry_head. now rewrite !append_assoc.
    + intros u [<-|Hu].
      * exists "", parameters, body. split; [reflexivity | exact Hprops].
      * destruct (Hin u Hu) as (pre & ps & post & -> & Hps).
        exists (entry text_of t parameters ++ pre)%string, ps, post.
        split; [now rewrite !append_assoc | exact Hps].
Qed.

(** X23.  Every cached tool is advertised in the prompt.  On a catalog
    whose schemas are dicts with a dict of dicts (or nothing) as
    [properties], the text [format_tools_for_prompt] builds opens with the
    heading, closes with the usage note, and has in between, for every
    cached tool, an entry with its name, its description and a text of
    parameters that has a line for every property of its schema. *)
Theorem prompt_advertises_every_tool (values : list MCP.MCPTool) (t : MCP.MCPTool) :
  Forall (fun u => describable u = true) values ->
  In t values ->
  exists pre parameters post,
    Prompt.format_tools_for_prompt text_of values
    = Ok ("Available MCP Tools:" ++ Prompt.NL ++ Prompt.NL
          ++ pre ++ entry text_of t parameters ++ post ++ Prompt.usage)%string
    /\ lists_properties t parameters.
Proof.
  intros Hv Ht. destruct (descriptions_ok values Hv) as (ds & Hds & Hall).
  destruct (prompt_loop_ok values ds Hall
              ("Available MCP Tools:" ++ Prompt.NL ++ Prompt.NL)%string)
    as (body & Hbody & Hin).
  destruct (Hin t Ht) as (pre & parameters & post & -> & Hprops).
  exists pre, parameters, post. split; [|exact Hprops].
  unfold Prompt.format_tools_for_prompt. rewrite Hds. cbn [res_bind].
  rewrite Hbody. cbn [res_bind]. f_equal. now rewrite !append_assoc.
Qed.

End PromptText.

(** The catalog [search], [fetch] is described tool by tool. *)
Lemma descriptions_follow_catalog_witness :
  exists ds,
    Prompt.get_tool_descriptions scalar_text [mcp_search; mcp_fetch] = Ok ds
    /\ Forall2 describes [mcp_search; mcp_fetch] ds
    /\ List.length ds = 2%nat.
Proof.
  apply (descriptions_follow_catalog scalar_text [mcp_search; mcp_fetch]).
  repeat constructor.
Defined.

(** With [ping], whose schema is [null], between [search] and [fetch],
    the descriptions and the prompt raise; the function-calling format
    has [ping]. *)
Lemma description_raises_on_schema_that_is_no_dict_witness :
  Prompt.get_tool_descriptions scalar_text [mcp_search; mcp_ping; mcp_fetch]
  = Raise AttributeError
  /\ Prompt.format_tools_for_prompt scalar_text [mcp_search; mcp_ping; mcp_fetch]
     = Raise AttributeError
  /\ In (Probe.ollama_tool mcp_ping)
        (Probe.format_tools_for_ollama [mcp_search; mcp_ping; mcp_fetch]).
Proof.
  apply (description_raises_on_schema_that_is_no_dict scalar_text
           [mcp_search] mcp_ping [mcp_fetch]).
  - repeat constructor.
  - reflexivity.
Defined.

(** [fetch] has its entry, with a line for [url], in the prompt of the
    catalog [search], [fetch]. *)
Lemma prompt_advertises_every_tool_witness :
  exists pre parameters post,
    Prompt.format_tools_for_prompt scalar_text [mcp_search; mcp_fetch]
    = Ok ("Available MCP Tools:" ++ Prompt.NL ++ Prompt.NL
          ++ pre ++ entry scalar_text mcp_fetch parameters ++ post
          ++ Prompt.usage)%string
    /\ lists_properties mcp_fetch parameters.
Proof.
  apply (prompt_advertises_every_tool scalar_text [mcp_search; mcp_fetch] mcp_fetch).
  - repeat constructor.
  - right. left. reflexivity.
Defined.
